(** * codeleaf-ai backend: the emissions estimator and its helpers

    A shallow embedding of [src/backend/app.py]: the language detector,
    the power-profile probe, the generic timing loop, the estimator and
    the [/optimize] and [/codegen] endpoints, with the requests that
    [src/frontend/app.py] sends them, followed by the properties proved
    of them.

    Conventions of the embedding.
    - Python [str] values are [string]s whose characters are the code
      points 0..255; [lower], [strip] and the whitespace class follow
      Python's behaviour on that range.
    - Python [float] arithmetic is idealised as exact arithmetic over [Q]
      (0.475 is 475/1000, 0.5 is 1/2); equalities between computed
      numbers are stated with [==].
    - Dynamically typed arguments are values of [pyval]; an attribute
      that a value does not have raises [AttributeError], as in Python.
    - The environment is scripted in the [world]: what each child
      process, temporary file, codecarbon tracker and chat completion
      does is read from it, so a statement over all worlds is a statement
      over all behaviours of the environment.  A child process writes at
      most the file named after [-o], and what it prints is text in the
      encoding of the locale or is not ([subprocess.run] is called with
      [text=True] and raises on the latter); [os.remove] of an existing
      path succeeds; the clock moves by the time spent waiting. *)

From Stdlib Require Import QArith ZArith NArith String Ascii List Lia Lqa.
From stdpp Require Import gmap strings.
Import ListNotations.

Local Open Scope string_scope.
Local Set Warnings "-register-all,-clear-no-such-hyp".

(** ** Python values, exceptions and results *)

Inductive pyval : Type :=
| PyNone
| PyBool (b : bool)
| PyInt (z : Z)
| PyFloat (q : Q)
| PyStr (s : string)
| PyList (l : list pyval)
| PyDict (d : list (string * pyval)).

Inductive exn : Type :=
| AttributeError
| TypeError
| OSError
| FileNotFoundError
| TimeoutExpired
| UnicodeDecodeError
| HTTPException
| HfHubHTTPError
| RuntimeError.

Inductive result (A : Type) : Type :=
| Return (a : A)
| Raise (e : exn).
Arguments Return {A} a.
Arguments Raise {A} e.

(** Python truthiness, the test behind [if x] and [not x]. *)
Definition truthy (v : pyval) : bool :=
  match v with
  | PyNone => false
  | PyBool b => b
  | PyInt z => negb (z =? 0)%Z
  | PyFloat q => negb (Qeq_bool q 0)
  | PyStr s => negb (String.eqb s "")
  | PyList l => match l with [] => false | _ => true end
  | PyDict d => match d with [] => false | _ => true end
  end.

(** [d.get(key, default)] on a dict given as its list of items. *)
Fixpoint dict_get (key : string) (default : pyval) (d : list (string * pyval)) : pyval :=
  match d with
  | [] => default
  | (k, v) :: d' => if String.eqb k key then v else dict_get key default d'
  end.

(** ** Strings *)

(** [str.isspace] on one character: TAB..CR, FS..US, space, NEL, NBSP. *)
Definition is_space (c : ascii) : bool :=
  let n := nat_of_ascii c in
  (((9 <=? n) && (n <=? 13)) || ((28 <=? n) && (n <=? 32))
   || (n =? 133) || (n =? 160))%nat.

(** [str.lower] on one character: A..Z and the Latin-1 capitals. *)
Definition lower_char (c : ascii) : ascii :=
  let n := nat_of_ascii c in
  if (((65 <=? n) && (n <=? 90))
      || ((192 <=? n) && (n <=? 222) && negb (n =? 215)))%nat
  then ascii_of_nat (n + 32) else c.

Fixpoint lower (s : string) : string :=
  match s with
  | EmptyString => EmptyString
  | String c s' => String (lower_char c) (lower s')
  end.

Fixpoint lstrip (s : string) : string :=
  match s with
  | EmptyString => EmptyString
  | String c s' => if is_space c then lstrip s' else s
  end.

Fixpoint rstrip (s : string) : string :=
  match s with
  | EmptyString => EmptyString
  | String c s' =>
      let r := rstrip s' in
      if is_space c && String.eqb r "" then "" else String c r
  end.

Definition strip (s : string) : string := rstrip (lstrip s).

(** [kw in s]: [kw] occurs in [s] as a contiguous substring. *)
Fixpoint contains (kw s : string) : bool :=
  String.prefix kw s
  || match s with
     | EmptyString => false
     | String _ s' => contains kw s'
     end.

(** [any(kw in s for kw in kws)] *)
Definition any_in (kws : list string) (s : string) : bool :=
  existsb (fun kw => contains kw s) kws.

(** [s.replace(old, new)]: every non-overlapping occurrence, left to
    right.  [skip] counts the characters of a match still to be dropped. *)
Fixpoint replace_from (old new : string) (skip : nat) (s : string) : string :=
  match s with
  | EmptyString => EmptyString
  | String c s' =>
      match skip with
      | S k => replace_from old new k s'
      | O =>
          if String.prefix old s
          then new ++ replace_from old new (String.length old - 1) s'
          else String c (replace_from old new 0 s')
      end
  end.

Definition replace (old new s : string) : string :=
  match old with
  | EmptyString =>
      (* Python inserts [new] before every character and at the end *)
      (fix go (t : string) : string :=
         match t with
         | EmptyString => new
         | String c t' => new ++ String c (go t')
         end) s
  | _ => replace_from old new 0 s
  end.

(** ** Language detection *)

(** [detect_language(code, prompt="")].  [code.lower()] needs a [str];
    the last [elif] evaluates [code.strip() or prompt.strip()] before
    both of its outcomes return ["python"]. *)
Definition detect_language (code prompt : pyval) : result string :=
  match code with
  | PyStr c =>
      let code_lower := lower c in
      if any_in ["#include"; "int main"; "printf"] code_lower then Return "c"
      else if contains "public class" code_lower then Return "java"
      else if any_in ["console.log"; "function"] code_lower then Return "javascript"
      else if any_in ["select"; "from"; "where"] code_lower then Return "sql"
      else if negb (String.eqb (strip c) "") then Return "python"
      else match prompt with
           | PyStr p => Return "python"
           | _ => Raise AttributeError
           end
  | _ => Raise AttributeError
  end.

(** The precedence as the specification words it: substrings are looked
    for in the input itself, and only [#include] and [int main] select C. *)
Definition spec_detect_language (code : string) : string :=
  if any_in ["#include"; "int main"] code then "c"
  else if contains "public class" code then "java"
  else if any_in ["console.log"; "function"] code then "javascript"
  else if any_in ["select"; "from"; "where"] code then "sql"
  else "python".


(** ** The world the program runs in *)

(** What [GPUtil.getGPUs()] does when the module could be imported. *)
Inductive gpu_probe : Type :=
| GetGPUsFails
| GPUs (memoryTotal : list Q).

(** The host: the number [psutil.cpu_count(logical=True)] reports,
    [platform.system()], what the optional [GPUtil] import gave,
    [sys.executable], and whether [HF_TOKEN] gave an inference client. *)
Record host : Type := {
  cpu_count : N;
  system : string;
  gputil : option gpu_probe;
  executable : string;
  client : bool
}.

(** A child process: it cannot be launched, or it runs for [d] seconds,
    exits with status [rc] and, when [out] is set, leaves a file at the
    path that follows [-o] on its command line.  What [Exits] writes to
    its standard output and error is text in the encoding of the locale;
    [Garbled] ends like it, but has written a byte sequence that is not:
    with [text=True] the captured output cannot be decoded. *)
Inductive proc : Type :=
| Missing
| Exits (d : Q) (rc : Z) (out : bool)
| Garbled (d : Q) (out : bool).

(** A call of [tempfile.NamedTemporaryFile]: it fails, or it creates the
    file [dir/tmp<rand><suffix>]; [write_ok] tells whether the following
    [f.write] succeeds. *)
Inductive tmp : Type :=
| TmpFails
| TmpFile (dir rand : string) (write_ok : bool).

(** A use of the codecarbon tracker: it raises, or [tracker.stop()]
    gives a measurement or [None]. *)
Inductive tracker : Type :=
| TrackerFails
| TrackerStops (emissions : option Q).

(** What is stored in a file. *)
Inductive content : Type :=
| Script (code : string) (function_name data_size : pyval)
| Source (text : string)
| Binary.

(** What [client.chat_completion] does. *)
Inductive chat : Type :=
| ChatHubError
| ChatError
| ChatNoChoices
| ChatNoContent
| ChatContent (text : pyval).

(** The calls that the trace records: [subprocess.run],
    [run_code_and_track_emissions] and [client.chat_completion]. *)
Inductive event : Type :=
| EvSpawn (cmd : list string) (timeout : Q)
| EvEstimate
| EvChat.

(** The state threaded through the program.  [procs], [temps], [carbon]
    and [chats] script the environment: each call consumes the head; a
    chat comes with the seconds it takes.  [trace] logs the calls made,
    the most recent first. *)
Record world : Type := {
  machine : host;
  now : Q;
  files : gmap string content;
  procs : list proc;
  temps : list tmp;
  carbon : list tracker;
  chats : list (Q * chat);
  trace : list event
}.

Definition set_now (t : Q) (w : world) : world :=
  {| machine := machine w; now := t; files := files w; procs := procs w;
     temps := temps w; carbon := carbon w; chats := chats w; trace := trace w |}.
Definition set_files (f : gmap string content) (w : world) : world :=
  {| machine := machine w; now := now w; files := f; procs := procs w;
     temps := temps w; carbon := carbon w; chats := chats w; trace := trace w |}.
Definition set_procs (p : list proc) (w : world) : world :=
  {| machine := machine w; now := now w; files := files w; procs := p;
     temps := temps w; carbon := carbon w; chats := chats w; trace := trace w |}.
Definition set_temps (t : list tmp) (w : world) : world :=
  {| machine := machine w; now := now w; files := files w; procs := procs w;
     temps := t; carbon := carbon w; chats := chats w; trace := trace w |}.
Definition set_carbon (c : list tracker) (w : world) : world :=
  {| machine := machine w; now := now w; files := files w; procs := procs w;
     temps := temps w; carbon := c; chats := chats w; trace := trace w |}.
Definition set_chats (c : list (Q * chat)) (w : world) : world :=
  {| machine := machine w; now := now w; files := files w; procs := procs w;
     temps := temps w; carbon := carbon w; chats := c; trace := trace w |}.
Definition log (e : event) (w : world) : world :=
  {| machine := machine w; now := now w; files := files w; procs := procs w;
     temps := temps w; carbon := carbon w; chats := chats w;
     trace := e :: trace w |}.

(** ** Computations that thread a state and may raise *)

Definition M (St A : Type) : Type := St -> result A * St.

Definition ret {St A} (a : A) : M St A := fun s => (Return a, s).
Definition raise {St A} (e : exn) : M St A := fun s => (Raise e, s).
Definition bind {St A B} (m : M St A) (k : A -> M St B) : M St B :=
  fun s =>
    match m s with
    | (Return a, s') => k a s'
    | (Raise e, s') => (Raise e, s')
    end.

(** [try: body / except Exception as e: handler e] *)
Definition try_except {St A} (body : M St A) (handler : exn -> M St A) : M St A :=
  fun s =>
    match body s with
    | (Return a, s') => (Return a, s')
    | (Raise e, s') => handler e s'
    end.

(** [try: body / finally: cleanup]: the cleanup always runs; an
    exception of the cleanup replaces the outcome of the body. *)
Definition try_finally {St A} (body : M St A) (cleanup : M St unit) : M St A :=
  fun s =>
    match body s with
    | (r, s') =>
        match cleanup s' with
        | (Return _, s'') => (r, s'')
        | (Raise e, s'') => (Raise e, s'')
        end
    end.

Definition gets {St A} (f : St -> A) : M St A := fun s => (Return (f s), s).
Definition modify {St} (f : St -> St) : M St unit := fun s => (Return tt, f s).

Declare Scope py_scope.
Delimit Scope py_scope with py.
Notation "x <- c ;; k" := (bind c (fun x => k))
  (at level 100, c at next level, right associativity) : py_scope.
Notation "c ;; k" := (bind c (fun _ => k))
  (at level 100, right associativity) : py_scope.
Local Open Scope py_scope.

(** ** Operating-system primitives *)

(** [time.time()] *)
Definition time_time : M world Q := gets now.

(** The path after [-o] on a command line. *)
Fixpoint output_path (cmd : list string) : option string :=
  match cmd with
  | [] => None
  | a :: rest =>
      if String.eqb a "-o"
      then match rest with p :: _ => Some p | [] => None end
      else output_path rest
  end.

(** No file has the empty path. *)
Definition fs_create (path : string) (c : content)
    (f : gmap string content) : gmap string content :=
  if String.eqb path "" then f else <[path := c]> f.

Definition emit_output (cmd : list string) (out : bool) (w : world) : world :=
  match output_path cmd with
  | Some p =>
      if out then set_files (fs_create p Binary (files w)) w else w
  | None => w
  end.

(** [subprocess.run(cmd, input="", capture_output=True, text=True,
    timeout=timeout)]: the return code of the child, [FileNotFoundError]
    when it cannot be launched, [TimeoutExpired] when it is still running
    after [timeout] seconds, [UnicodeDecodeError] when it ended in time
    but its captured output is not text.  The clock advances by the time
    waited. *)
Definition subprocess_run (cmd : list string) (timeout : Q) : M world Z :=
  fun w =>
    let w := log (EvSpawn cmd timeout) w in
    match procs w with
    | [] => (Raise FileNotFoundError, w)
    | Missing :: ps => (Raise FileNotFoundError, set_procs ps w)
    | Exits d rc out :: ps =>
        let w := emit_output cmd out (set_procs ps w) in
        if Qle_bool d timeout
        then (Return rc, set_now (now w + d) w)
        else (Raise TimeoutExpired, set_now (now w + timeout) w)
    | Garbled d out :: ps =>
        let w := emit_output cmd out (set_procs ps w) in
        if Qle_bool d timeout
        then (Raise UnicodeDecodeError, set_now (now w + d) w)
        else (Raise TimeoutExpired, set_now (now w + timeout) w)
    end.

(** [os.path.exists(path)] and [os.remove(path)]; removing an existing
    path succeeds. *)
Definition os_path_exists (path : string) : M world bool :=
  gets (fun w => match files w !! path with Some _ => true | None => false end).

Definition os_remove (path : string) : M world unit :=
  fun w =>
    match files w !! path with
    | Some _ => (Return tt, set_files (delete path (files w)) w)
    | None => (Raise FileNotFoundError, w)
    end.

(** ** Numbers *)

(** [sum(l)]: a left fold from 0. *)
Definition py_sum (l : list Q) : Q := fold_left Qplus l 0%Q.

(** [statistics.mean(l)] for a non-empty [l]. *)
Definition statistics_mean (l : list Q) : Q :=
  (py_sum l / inject_Z (Z.of_nat (length l)))%Q.

Definition of_count (n : N) : Q := inject_Z (Z.of_N n).

(** ** The power-profile probe *)

(** The two locals of [get_system_wattage] that its [try] block assigns. *)
Record wattage : Type := { cpu_power_w : Q; gpu_power_w : Q }.

Definition set_cpu_power_w (p : Q) (l : wattage) : wattage :=
  {| cpu_power_w := p; gpu_power_w := gpu_power_w l |}.
Definition set_gpu_power_w (p : Q) (l : wattage) : wattage :=
  {| cpu_power_w := cpu_power_w l; gpu_power_w := p |}.

(** [GPUtil.getGPUs()] *)
Definition getGPUs (g : gpu_probe) : M wattage (list Q) :=
  match g with
  | GetGPUsFails => raise RuntimeError
  | GPUs l => ret l
  end.

(** The body of the [try] block. *)
Definition wattage_try (h : host) : M wattage unit :=
  (if String.eqb (system h) "Windows" then modify (set_cpu_power_w 65) else ret tt) ;;
  match gputil h with
  | Some g =>
      gpus <- getGPUs g ;;
      modify (set_gpu_power_w
                (match gpus with
                 | [] => 0
                 | _ => py_sum (map (fun memoryTotal => memoryTotal * (1 # 2)) gpus)
                 end)%Q)
  | None => ret tt
  end.

Definition get_system_wattage : M world (N * Q * Q) :=
  fun w =>
    let h := machine w in
    let locals := {| cpu_power_w := 45; gpu_power_w := 0 |} in
    match try_except (wattage_try h) (fun _ => ret tt) locals with
    | (Return _, l) => (Return (cpu_count h, cpu_power_w l, gpu_power_w l), w)
    | (Raise e, _) => (Raise e, w)
    end.

(** ** The generic timing loop *)

(** Energy and CO2 of one run, lines 93 and 94. *)
Definition energy_kwh (cpu_count : N) (cpu_power_w gpu_power_w elapsed : Q) : Q :=
  (((cpu_power_w * of_count cpu_count) + gpu_power_w) * elapsed / 3600)%Q.

Definition co2_kg (energy : Q) : Q := (energy * (475 # 1000))%Q.

(** One iteration of the [for] loop: the CO2 value it appends. *)
Definition timed_run (cmd : list string) (cpu_count : N)
    (cpu_power_w gpu_power_w : Q) : M world Q :=
  start_time <- time_time ;;
  subprocess_run cmd 300 ;;
  end_time <- time_time ;;
  let elapsed := (end_time - start_time)%Q in
  ret (co2_kg (energy_kwh cpu_count cpu_power_w gpu_power_w elapsed)).

(** [n] iterations, appending to [emissions_list]. *)
Fixpoint timing_loop (n : nat) (cmd : list string) (cpu_count : N)
    (cpu_power_w gpu_power_w : Q) (emissions_list : list Q) : M world (list Q) :=
  match n with
  | O => ret emissions_list
  | S k =>
      co2 <- timed_run cmd cpu_count cpu_power_w gpu_power_w ;;
      timing_loop k cmd cpu_count cpu_power_w gpu_power_w (emissions_list ++ [co2])
  end.

(** [universal_emissions_tracker(executable, num_runs)]; [range(num_runs)]
    is empty for [num_runs <= 0].  The [except] clause returns early
    ([inl]); otherwise the list reaches the final [return] ([inr]). *)
Definition universal_emissions_tracker (cmd : list string) (num_runs : Z) : M world Q :=
  profile <- get_system_wattage ;;
  let '(cpu_count, cpu_power_w, gpu_power_w) := profile in
  r <- try_except
         (l <- timing_loop (Z.to_nat num_runs) cmd cpu_count cpu_power_w gpu_power_w [] ;;
          ret (inr l))
         (fun e => ret (inl 0%Q)) ;;
  match r with
  | inl early => ret early
  | inr emissions_list =>
      ret (match emissions_list with
           | [] => 0%Q
           | _ => statistics_mean emissions_list
           end)
  end.

(** The default of the [num_runs] parameter. *)
Definition default_num_runs : Z := 3.

(** ** Cleaning model output *)

Definition newline : ascii := ascii_of_nat 10.
Definition is_newline (c : ascii) : bool := Ascii.eqb c newline.

(** [\d] on one character. *)
Definition is_digit (c : ascii) : bool :=
  let n := nat_of_ascii c in ((48 <=? n) && (n <=? 57))%nat.

(** Number of leading characters of [s] that satisfy [p]. *)
Fixpoint span_length (p : ascii -> bool) (s : string) : nat :=
  match s with
  | EmptyString => O
  | String c s' => if p c then S (span_length p s') else O
  end.

Fixpoint drop (n : nat) (s : string) : string :=
  match n, s with
  | O, _ => s
  | S k, EmptyString => EmptyString
  | S k, String _ s' => drop k s'
  end.

(** For [t] the text after an opening [**]: the number of characters
    before the nearest closing [**] on the same line. *)
Fixpoint bold_close (t : string) : option nat :=
  if String.prefix "**" t then Some O
  else match t with
       | EmptyString => None
       | String c t' =>
           if is_newline c then None
           else match bold_close t' with Some n => Some (S n) | None => None end
       end.

(** [re.sub(r"\*\*.*?\*\*", "", s)] *)
Fixpoint sub_bold (skip : nat) (s : string) : string :=
  match s with
  | EmptyString => EmptyString
  | String c s' =>
      match skip with
      | S k => sub_bold k s'
      | O =>
          if String.prefix "**" s
          then match bold_close (drop 2 s) with
               | Some n => sub_bold (n + 3) s'
               | None => String c (sub_bold 0 s')
               end
          else String c (sub_bold 0 s')
      end
  end.

(** Length of the match of [\s*\d+\..*$] at the head of [s], if any. *)
Definition numbered_length (s : string) : option nat :=
  let ws := span_length is_space s in
  let t1 := drop ws s in
  let ds := span_length is_digit t1 in
  match ds with
  | O => None
  | _ =>
      match drop ds t1 with
      | String c t3 =>
          if Ascii.eqb c "." 
          then Some (ws + ds + 1 + span_length (fun c => negb (is_newline c)) t3)%nat
          else None
      | EmptyString => None
      end
  end.

(** [re.sub(r"^\s*\d+\..*$", "", s, flags=re.MULTILINE)]; [bol] tells
    whether the head of [s] starts a line. *)
Fixpoint sub_numbered (bol : bool) (skip : nat) (s : string) : string :=
  match s with
  | EmptyString => EmptyString
  | String c s' =>
      match skip with
      | S k => sub_numbered false k s'
      | O =>
          match (if bol then numbered_length s else None) with
          | Some n => sub_numbered false (n - 1) s'
          | None => String c (sub_numbered (is_newline c) 0 s')
          end
      end
  end.

(** The line boundaries of [str.splitlines] other than CR. *)
Definition is_linebreak (c : ascii) : bool :=
  let n := nat_of_ascii c in
  (((10 <=? n) && (n <=? 12)) || ((28 <=? n) && (n <=? 30)) || (n =? 133))%nat.

(** [s.splitlines()]; [cur] is the line being read, reversed. *)
Fixpoint rev_string (acc s : string) : string :=
  match s with
  | EmptyString => acc
  | String c s' => rev_string (String c acc) s'
  end.

Fixpoint splitlines_from (cur : string) (s : string) : list string :=
  match s with
  | EmptyString =>
      match cur with EmptyString => [] | _ => [rev_string "" cur] end
  | String c s' =>
      if (nat_of_ascii c =? 13)%nat
      then rev_string "" cur ::
           match s' with
           | String c' s'' =>
               if is_newline c' then splitlines_from "" s'' else splitlines_from "" s'
           | EmptyString => []
           end
      else if is_linebreak c then rev_string "" cur :: splitlines_from "" s'
      else splitlines_from (String c cur) s'
  end.

Definition splitlines (s : string) : list string := splitlines_from "" s.

(** [re.match(r'^\s*Energy|Complexity|Optimizations', line)]: the
    alternation binds weaker than the anchor and the [\s*]. *)
Definition commentary_line (line : string) : bool :=
  String.prefix "Energy" (lstrip line)
  || String.prefix "Complexity" line
  || String.prefix "Optimizations" line.

Definition join_lines (lines : list string) : string :=
  String.concat (String newline "") lines.

(** [clean_code(code)]; anything falsy gives [""], and only a [str] has
    [replace]. *)
Definition clean_code (code : pyval) : result string :=
  if negb (truthy code) then Return ""
  else match code with
       | PyStr c =>
           let c := fold_left (fun c fence => replace fence "" c)
                      ["```python"; "```c"; "```cpp"; "```java"; "```js"; "```"] c in
           let c := sub_bold 0 c in
           let c := sub_numbered true 0 c in
           let code_lines :=
             filter (fun line => negb (String.eqb (strip line) "")
                                 && negb (commentary_line line))
                    (splitlines c) in
           Return (join_lines code_lines)
       | _ => Raise AttributeError
       end.

(** ** The estimator *)

(** [tempfile.NamedTemporaryFile(mode="w", suffix=suffix, delete=False)]:
    the name of the file created, with whether writing to it will work. *)
Definition NamedTemporaryFile (suffix : string) : M world (string * bool) :=
  fun w =>
    match temps w with
    | [] => (Raise OSError, w)
    | TmpFails :: ts => (Raise OSError, set_temps ts w)
    | TmpFile dir rand write_ok :: ts =>
        let name := dir ++ "/tmp" ++ rand ++ suffix in
        (Return (name, write_ok),
         set_files (fs_create name (Source "") (files w)) (set_temps ts w))
    end.

(** [f.write(c); f.flush()] *)
Definition f_write (f : string * bool) (c : content) : M world unit :=
  if snd f then modify (fun w => set_files (fs_create (fst f) c (files w)) w)
  else raise OSError.

(** [tracker = EmissionsTracker(save_to_file=False); tracker.start()] *)
Definition tracker_start : M world unit :=
  fun w =>
    match carbon w with
    | TrackerFails :: cs => (Raise RuntimeError, set_carbon cs w)
    | _ => (Return tt, w)
    end.

(** [tracker.stop()]: a measurement, or [None]. *)
Definition tracker_stop : M world (option Q) :=
  fun w =>
    match carbon w with
    | [] => (Return None, w)
    | TrackerFails :: cs => (Raise RuntimeError, set_carbon cs w)
    | TrackerStops e :: cs => (Return e, set_carbon cs w)
    end.

(** The two locals that the [finally] clause reads. *)
Record frame : Type := { temp_file : option string; exec_file : option string }.

Definition lift {A} (m : M world A) : M (frame * world) A :=
  fun s => match m (snd s) with (r, w') => (r, (fst s, w')) end.

Definition set_temp_file (p : string) : M (frame * world) unit :=
  modify (fun s => ({| temp_file := Some p; exec_file := exec_file (fst s) |}, snd s)).
Definition set_exec_file (p : string) : M (frame * world) unit :=
  modify (fun s => ({| temp_file := temp_file (fst s); exec_file := Some p |}, snd s)).

(** [with NamedTemporaryFile(...) as f: temp_file = f.name; f.write(c); f.flush()] *)
Definition with_temp_file (suffix : string) (c : content) : M (frame * world) string :=
  f <- lift (NamedTemporaryFile suffix) ;;
  set_temp_file (fst f) ;;
  lift (f_write f c) ;;
  ret (fst f).

(** [v.lower()] and [v.get(key, default)] on a dynamically typed [v]. *)
Definition py_lower {St} (v : pyval) : M St string :=
  match v with
  | PyStr s => ret (lower s)
  | _ => raise AttributeError
  end.

Definition py_get {St} (v : pyval) (key : string) (default : pyval) : M St pyval :=
  match v with
  | PyDict d => ret (dict_get key default d)
  | _ => raise AttributeError
  end.

Definition of_result {St A} (r : result A) : M St A :=
  match r with
  | Return a => ret a
  | Raise e => raise e
  end.

(** The body of the [try] block, for a [code] that is a [str]. *)
Definition estimator_try (code : string) (test_params language : pyval)
    : M (frame * world) Q :=
  language <- py_lower language ;;
  if String.eqb language "python" then
    function_name <- py_get test_params "function_name" (PyStr "dummy_function") ;;
    data_size <- py_get test_params "data_size" (PyInt 1000) ;;
    temp_file <- with_temp_file ".py" (Script code function_name data_size) ;;
    python <- lift (gets (fun w => executable (machine w))) ;;
    lift tracker_start ;;
    lift (subprocess_run [python; temp_file] 300) ;;
    emissions <- lift tracker_stop ;;
    ret (match emissions with
         | Some e => if Qeq_bool e 0 then 0%Q else e
         | None => 0%Q
         end)
  else if String.eqb language "c" || String.eqb language "cpp" then
    code <- of_result (clean_code (PyStr code)) ;;
    let suffix := if String.eqb language "c" then ".c" else ".cpp" in
    temp_file <- with_temp_file suffix (Source code) ;;
    let exec_file := replace suffix "" temp_file in
    set_exec_file exec_file ;;
    returncode <- lift (subprocess_run ["gcc"; temp_file; "-o"; exec_file] 120) ;;
    if negb (returncode =? 0)%Z then ret 0%Q
    else lift (universal_emissions_tracker [exec_file] default_num_runs)
  else
    lift (universal_emissions_tracker ["echo"; "ok"] default_num_runs).

(** [if path and os.path.exists(path): os.remove(path)] *)
Definition remove_if_exists (path : option string) : M world unit :=
  match path with
  | Some p =>
      if String.eqb p "" then ret tt
      else (there <- os_path_exists p ;;
            if there then os_remove p else ret tt)
  | None => ret tt
  end.

(** The [finally] clause. *)
Definition estimator_finally : M (frame * world) unit :=
  f <- gets fst ;;
  lift (remove_if_exists (temp_file f)) ;;
  lift (remove_if_exists (exec_file f)).

(** [run_code_and_track_emissions(code, test_params, language)].  The
    guard on [code.strip()] comes before the [try]. *)
Definition run_code_and_track_emissions (code test_params language : pyval)
    : M world Q :=
  modify (log EvEstimate) ;;
  match code with
  | PyStr c =>
      if String.eqb (strip c) "" then ret 0%Q
      else
        fun w =>
          let locals := {| temp_file := None; exec_file := None |} in
          match try_finally
                  (try_except (estimator_try c test_params language)
                              (fun e => ret 0%Q))
                  estimator_finally (locals, w) with
          | (r, s) => (r, snd s)
          end
  | _ => raise AttributeError
  end.

(** ** The [/optimize] endpoint *)

(** The body of a request: [request.json] raises, or gives a value. *)
Inductive request : Type :=
| BadRequest
| Json (v : pyval).

(** The JSON of a response; [ErrorOf prefix e] is the f-string
    [prefix + str(e)]. *)
Inductive body : Type :=
| Error (msg : string)
| ErrorOf (prefix : string) (e : exn)
| Optimized (optimized_code : string) (language : pyval)
            (before_co2 after_co2 llm_co2_kg : Q).

Record response : Type := { status : Z; json : body }.

Definition request_json {St} (r : request) : M St pyval :=
  match r with
  | BadRequest => raise HTTPException
  | Json v => ret v
  end.

(** [client.chat_completion(messages=messages)] followed by the reading
    of [result.choices[0].message.content]; [None] when the reply has no
    choice or no content. *)
Definition chat_completion : M world (option pyval) :=
  fun w =>
    let w := log EvChat w in
    match chats w with
    | [] => (Raise RuntimeError, w)
    | (d, c) :: cs =>
        let w := set_now (now w + d) (set_chats cs w) in
        match c with
        | ChatHubError => (Raise HfHubHTTPError, w)
        | ChatError => (Raise RuntimeError, w)
        | ChatNoChoices => (Return None, w)
        | ChatNoContent => (Return None, w)
        | ChatContent text => (Return (Some text), w)
        end
    end.

Definition test_case_params : pyval :=
  PyDict [("function_name", PyStr "find_first_occurrence"); ("data_size", PyInt 1000000)].

(** The body of the [try] block of [optimize]. *)
Definition optimize_try (r : request) : M world response :=
  json_body <- request_json r ;;
  let data := if truthy json_body then json_body else PyDict [] in
  unoptimized_code <- py_get data "code" (PyStr "") ;;
  language_input <- py_get data "language" (PyStr "") ;;
  language <- (if negb (truthy language_input)
               then (l <- of_result (detect_language unoptimized_code (PyStr "")) ;;
                     ret (PyStr l))
               else ret language_input) ;;
  if negb (truthy unoptimized_code) then
    ret {| status := 400; json := Error "No code provided for optimization" |}
  else
    has_client <- gets (fun w => client (machine w)) ;;
    if negb has_client then
      ret {| status := 500; json := Error "Hugging Face API token not set." |}
    else
      co2_before_kg <- run_code_and_track_emissions unoptimized_code test_case_params language ;;
      start_time <- time_time ;;
      reply <- chat_completion ;;
      end_time <- time_time ;;
      let request_time := (end_time - start_time)%Q in
      match reply with
      | None =>
          ret {| status := 500; json := Error "Invalid response from Hugging Face model" |}
      | Some content =>
          code_raw <- of_result (clean_code content) ;;
          profile <- get_system_wattage ;;
          let '(cpu_count, cpu_power_w, gpu_power_w) := profile in
          let llm_co2_kg :=
            co2_kg (energy_kwh cpu_count cpu_power_w gpu_power_w request_time) in
          co2_after_kg <- run_code_and_track_emissions (PyStr code_raw) test_case_params language ;;
          ret {| status := 200;
                 json := Optimized code_raw language co2_before_kg co2_after_kg llm_co2_kg |}
      end.

(** [optimize()]: the two [except] clauses turn every exception into a
    500 response. *)
Definition optimize (r : request) : M world response :=
  try_except (optimize_try r)
    (fun e =>
       match e with
       | HfHubHTTPError =>
           ret {| status := 500; json := ErrorOf "Hugging Face Hub API error: " e |}
       | _ =>
           ret {| status := 500; json := ErrorOf "An unexpected error occurred: " e |}
       end).

(** ** Vocabulary of the statements *)

(** The run [pr] completes: it ends within [timeout] seconds and its
    output is text, so that [subprocess.run] returns. *)
Definition completes (timeout : Q) (pr : proc) : bool :=
  match pr with
  | Exits d _ _ => Qle_bool d timeout
  | Missing | Garbled _ _ => false
  end.

(** The next [n] runs of [w] all complete, within 300 seconds each. *)
Definition all_complete (n : nat) (w : world) : bool :=
  (n <=? length (procs w))%nat && forallb (completes 300) (firstn n (procs w)).

(** Durations, codecarbon measurements and GPU memory sizes are not
    negative. *)
Definition nonneg_proc (pr : proc) : bool :=
  match pr with
  | Exits d _ _ | Garbled d _ => Qle_bool 0 d
  | Missing => true
  end.

Definition nonneg_carbon (t : tracker) : bool :=
  match t with
  | TrackerStops (Some q) => Qle_bool 0 q
  | _ => true
  end.

Definition nonneg_host (h : host) : bool :=
  match gputil h with
  | Some (GPUs l) => forallb (Qle_bool 0) l
  | _ => true
  end.

Definition well_formed (w : world) : bool :=
  nonneg_host (machine w)
  && forallb nonneg_proc (procs w)
  && forallb nonneg_carbon (carbon w).

(** The disk without the file at an optional, non-empty path. *)
Definition without (path : option string) (f : gmap string content)
    : gmap string content :=
  match path with
  | Some p => if String.eqb p "" then f else delete p f
  | None => f
  end.

(** The non-empty paths held by the locals of the estimator. *)
Definition of_path (path : option string) : gset string :=
  match path with
  | Some p => if String.eqb p "" then ∅ else {[p]}
  | None => ∅
  end.

Definition paths (f : frame) : gset string :=
  of_path (temp_file f) ∪ of_path (exec_file f).

(** [wp m Q s]: running [m] from [s] ends in an outcome and a state
    that satisfy [Q]. *)
Definition wp {St A} (m : M St A) (Q : result A -> St -> Prop) (s : St) : Prop :=
  Q (fst (m s)) (snd (m s)).

(** The run [pr] takes [t] seconds and its output is text. *)
Definition takes (t : Q) (pr : proc) : bool :=
  match pr with
  | Exits d _ _ => Qeq_bool d t
  | Missing | Garbled _ _ => false
  end.

(** The next [n] runs of [w] all take [t] seconds, with text output. *)
Definition steady (t : Q) (n : nat) (w : world) : bool :=
  (n <=? length (procs w))%nat && forallb (takes t) (firstn n (procs w)).

(** [co2] is the value appended for the run [pr], given the profile. *)
Definition sample_of (cpu_count : N) (cpu_power_w gpu_power_w : Q)
    (co2 : Q) (pr : proc) : Prop :=
  exists d rc out elapsed energy,
    pr = Exits d rc out /\ (d <= 300)%Q /\ (elapsed == d)%Q
    /\ (energy == (cpu_power_w * of_count cpu_count + gpu_power_w) * elapsed / 3600)%Q
    /\ (co2 == energy * (475 # 1000))%Q.

(** The world after a run of [d] seconds that ended in time. *)
Definition after_run (cmd : list string) (timeout d : Q) (out : bool)
    (ps : list proc) (w : world) : world :=
  let w1 := emit_output cmd out (set_procs ps (log (EvSpawn cmd timeout) w)) in
  set_now (now w1 + d)%Q w1.

(** The total wattage of a profile. *)
Definition total_watts (profile : N * Q * Q) : Q :=
  let '(cpu_count, cpu_power_w, gpu_power_w) := profile in
  (cpu_power_w * of_count cpu_count + gpu_power_w)%Q.

(** The timing loop as the specification words it: a run that raises
    contributes no sample and the remaining runs still take place; the
    mean is over the samples obtained, 0 when there is none. *)
Fixpoint spec_timing_loop (n : nat) (cmd : list string) (cpu_count : N)
    (cpu_power_w gpu_power_w : Q) (emissions_list : list Q) : M world (list Q) :=
  match n with
  | O => ret emissions_list
  | S k =>
      r <- try_except
             (co2 <- timed_run cmd cpu_count cpu_power_w gpu_power_w ;; ret [co2])
             (fun e => ret []) ;;
      spec_timing_loop k cmd cpu_count cpu_power_w gpu_power_w (emissions_list ++ r)
  end.

Definition spec_universal_emissions_tracker (cmd : list string) (num_runs : Z)
    : M world Q :=
  profile <- get_system_wattage ;;
  let '(cpu_count, cpu_power_w, gpu_power_w) := profile in
  l <- spec_timing_loop (Z.to_nat num_runs) cmd cpu_count cpu_power_w gpu_power_w [] ;;
  ret (match l with [] => 0%Q | _ => statistics_mean l end).

(** ** Sample hosts and worlds *)

Definition laptop : host :=
  {| cpu_count := 4; system := "Linux"; gputil := None;
     executable := "/usr/bin/python3"; client := true |}.

Definition gaming_pc : host :=
  {| cpu_count := 8; system := "Windows"; gputil := Some (GPUs [8192%Q; 4096%Q]);
     executable := "python.exe"; client := true |}.

(** A world on [h] at time 0 with an empty disk and the given scripts. *)
Definition boot (h : host) (ps : list proc) (ts : list tmp) : world :=
  {| machine := h; now := 0; files := ∅; procs := ps; temps := ts;
     carbon := []; chats := []; trace := [] |}.

(** ** The [/codegen] endpoint *)

(** The [code] of a [/codegen] answer: the cleaned text, or, when that
    is empty, the f-string ["# No {language} code generated."]. *)
Inductive code_field : Type :=
| CodeText (text : string)
| NoCode (language : pyval).

Inductive codegen_body : Type :=
| GenError (msg : string)
| GenErrorOf (prefix : string) (e : exn)
| Generated (code : code_field) (language : pyval)
            (llm_co2_kg execution_co2_kg total_co2_kg : Q).

Record codegen_response : Type := { gen_status : Z; gen_json : codegen_body }.

(** The body of the [try] block of [codegen]. *)
Definition codegen_try (r : request) : M world codegen_response :=
  json_body <- request_json r ;;
  let data := if truthy json_body then json_body else PyDict [] in
  prompt <- py_get data "prompt" (PyStr "") ;;
  language_input <- py_get data "language" (PyStr "") ;;
  language <- (if negb (truthy language_input)
               then (l <- of_result (detect_language (PyStr "") prompt) ;;
                     ret (PyStr l))
               else ret language_input) ;;
  if negb (truthy prompt) then
    ret {| gen_status := 400; gen_json := GenError "No prompt provided" |}
  else
    has_client <- gets (fun w => client (machine w)) ;;
    if negb has_client then
      ret {| gen_status := 500; gen_json := GenError "Hugging Face API token not set." |}
    else
      start_time <- time_time ;;
      reply <- chat_completion ;;
      end_time <- time_time ;;
      let request_time := (end_time - start_time)%Q in
      match reply with
      | None =>
          ret {| gen_status := 500;
                 gen_json := GenError "Invalid response from Hugging Face model" |}
      | Some content =>
          code <- of_result (clean_code content) ;;
          profile <- get_system_wattage ;;
          let '(cpu_count, cpu_power_w, gpu_power_w) := profile in
          let llm_co2_kg :=
            co2_kg (energy_kwh cpu_count cpu_power_w gpu_power_w request_time) in
          execution_co2_kg <- run_code_and_track_emissions (PyStr code) (PyDict []) language ;;
          let code := if String.eqb code "" then NoCode language else CodeText code in
          ret {| gen_status := 200;
                 gen_json := Generated code language llm_co2_kg execution_co2_kg
                               (llm_co2_kg + execution_co2_kg)%Q |}
      end.

(** [codegen()], with its two [except] clauses. *)
Definition codegen (r : request) : M world codegen_response :=
  try_except (codegen_try r)
    (fun e =>
       match e with
       | HfHubHTTPError =>
           ret {| gen_status := 500;
                  gen_json := GenErrorOf "Hugging Face Hub API error: " e |}
       | _ =>
           ret {| gen_status := 500;
                  gen_json := GenErrorOf "An unexpected error occurred: " e |}
       end).

(** ** The front end *)

(** The choices of both language select boxes. *)
Definition languages : list string :=
  ["python"; "c"; "cpp"; "java"; "javascript"; "sql"].

(** What the two buttons post: nothing when the text is blank, else the
    JSON body of the request. *)
Definition generate_click (prompt language_gen : string) : option request :=
  if negb (String.eqb (strip prompt) "")
  then Some (Json (PyDict [("prompt", PyStr prompt); ("language", PyStr language_gen)]))
  else None.

Definition optimize_click (unoptimized_code language_opt : string) : option request :=
  if negb (String.eqb (strip unoptimized_code) "")
  then Some (Json (PyDict [("code", PyStr unoptimized_code);
                           ("language", PyStr language_opt)]))
  else None.

(** ** Vocabulary of the further statements *)

Definition is_spawn (e : event) : bool :=
  match e with EvSpawn _ _ => true | _ => false end.
Definition is_estimate (e : event) : bool :=
  match e with EvEstimate => true | _ => false end.
Definition is_chat (e : event) : bool :=
  match e with EvChat => true | _ => false end.

(** Number of events of a kind. *)
Definition count (kind : event -> bool) (evs : list event) : nat :=
  length (filter kind evs).

(** From [w] to [w'] the program has only spawned processes: at most
    [spawns] of them, waiting at most [t] seconds in all, and it has
    consumed heads of the scripts of processes, trackers and temporary
    files. *)
Definition advances (t : Q) (spawns : nat) (w w' : world) : Prop :=
  machine w' = machine w /\ chats w' = chats w
  /\ procs w' `suffix_of` procs w
  /\ carbon w' `suffix_of` carbon w
  /\ temps w' `suffix_of` temps w
  /\ (now w' <= now w + t)%Q
  /\ exists evs, trace w' = (evs ++ trace w)%list
                 /\ forallb is_spawn evs = true /\ (length evs <= spawns)%nat.

(** Seconds that a run takes. *)
Definition duration (pr : proc) : Q :=
  match pr with
  | Exits d _ _ | Garbled d _ => d
  | Missing => 0%Q
  end.

(** Chat latencies are not negative. *)
Definition nonneg_chats (w : world) : bool :=
  forallb (fun c => Qle_bool 0 (fst c)) (chats w).

(** A character at which [splitlines] cuts; a string without any; a
    line that [clean_code] keeps. *)
Definition breaks_line (c : ascii) : bool :=
  is_linebreak c || (nat_of_ascii c =? 13)%nat.

Definition one_line (l : string) : bool :=
  forallb (fun c => negb (breaks_line c)) (list_ascii_of_string l).

Definition clean_line (l : string) : bool :=
  one_line l && negb (String.eqb (strip l) "") && negb (commentary_line l).

(** At most four events, all of them spawns: what one call of the
    estimator adds to the trace after its own record. *)
Definition spawns4 (evs : list event) : Prop :=
  forallb is_spawn evs = true /\ (length evs <= 4)%nat.

(** The calls that one request to [/codegen] may have added to the
    trace, the most recent first: none; the chat alone; or the chat,
    then the estimator with its spawns. *)
Definition codegen_calls (new : list event) : Prop :=
  new = []
  \/ new = [EvChat]
  \/ exists evs, spawns4 evs /\ new = (evs ++ [EvEstimate; EvChat])%list.

(** The same for [/optimize]: none; the estimator; then the chat; then
    the estimator again. *)
Definition optimize_calls (new : list event) : Prop :=
  new = []
  \/ exists evs1, spawns4 evs1
       /\ (new = (evs1 ++ [EvEstimate])%list
           \/ new = (EvChat :: evs1 ++ [EvEstimate])%list
           \/ exists evs2, spawns4 evs2
                /\ new = (evs2 ++ EvEstimate :: EvChat :: evs1 ++ [EvEstimate])%list).

(** A host without [HF_TOKEN], and a world with scripted chat replies. *)
Definition offline : host :=
  {| cpu_count := 2; system := "Linux"; gputil := None;
     executable := "/usr/bin/python3"; client := false |}.

Definition serve (h : host) (ps : list proc) (ts : list tmp)
    (replies : list (Q * chat)) : world :=
  {| machine := h; now := 0; files := ∅; procs := ps; temps := ts;
     carbon := []; chats := replies; trace := [] |}.

(** * Properties *)

Local Open Scope list_scope.
Local Open Scope Q_scope.

(** ** Language detection *)

Example detect_c :
  detect_language (PyStr "#include <stdio.h> int main(){}") (PyStr "") = Return "c".
Proof. reflexivity. Qed.

(** C6, as stated, fails: a Java class that calls [printf] contains
    [public class] and neither [#include] nor [int main], so the stated
    precedence answers ["java"]; the code answers ["c"]. *)
Lemma detect_language_printf_is_c :
  let code := "public class A { void f() { System.out.printf(1); } }" in
  spec_detect_language code = "java"
  /\ detect_language (PyStr code) (PyStr "") = Return "c".
Proof. split; reflexivity. Qed.

(** C6, amended: on the lower-cased input, [#include], [int main] or
    [printf] give ["c"]; else [public class] gives ["java"]; else
    [console.log] or [function] give ["javascript"]; else [select],
    [from] or [where] give ["sql"]; else ["python"]; and the include
    example is detected as C. *)
Theorem detect_language_precedence (code prompt : string) :
  let l := lower code in
  let is_c := any_in ["#include"; "int main"; "printf"] l in
  let is_java := contains "public class" l in
  let is_js := any_in ["console.log"; "function"] l in
  let is_sql := any_in ["select"; "from"; "where"] l in
  let answer := detect_language (PyStr code) (PyStr prompt) in
  (is_c = true -> answer = Return "c")
  /\ (is_c = false -> is_java = true -> answer = Return "java")
  /\ (is_c = false -> is_java = false -> is_js = true -> answer = Return "javascript")
  /\ (is_c = false -> is_java = false -> is_js = false -> is_sql = true ->
      answer = Return "sql")
  /\ (is_c = false -> is_java = false -> is_js = false -> is_sql = false ->
      answer = Return "python")
  /\ detect_language (PyStr "#include <stdio.h> int main(){}") (PyStr "") = Return "c".
Proof.
  cbv zeta. unfold detect_language.
  repeat split; intros; repeat match goal with H : _ = _ |- _ => rewrite H; clear H end;
    try reflexivity.
  destruct (negb _); reflexivity.
Qed.

Lemma detect_language_precedence_witness :
  detect_language (PyStr "Public Class Greeter { function f }") (PyStr "") = Return "java"
  /\ detect_language (PyStr "print(1)") (PyStr "") = Return "python".
Proof.
  split.
  - apply (detect_language_precedence "Public Class Greeter { function f }" "");
      reflexivity.
  - apply (detect_language_precedence "print(1)" ""); reflexivity.
Defined.


(** ** The power-profile probe *)

Lemma get_system_wattage_run (w : world) :
  exists p g, get_system_wattage w = (Return (cpu_count (machine w), p, g), w)
    /\ p = (if String.eqb (system (machine w)) "Windows" then 65 else 45)%Q
    /\ g = match gputil (machine w) with
           | Some (GPUs l) => py_sum (map (fun m => m * (1 # 2))%Q l)
           | _ => 0%Q
           end.
Proof.
  unfold get_system_wattage, try_except, wattage_try, bind, modify, ret.
  destruct (machine w) as [c sys gp ex cl]; simpl.
  destruct (String.eqb sys "Windows"); destruct gp as [[|[|m l]]|]; simpl;
    eexists; eexists; repeat split; reflexivity.
Qed.

(** C8: the probe always returns; the CPU count is the host's, the
    per-CPU wattage is 65 on Windows and 45 elsewhere, the GPU wattage
    is 0 when [GPUtil] is absent or its enumeration fails, and the sum
    of [memoryTotal * 0.5] over the GPUs otherwise. *)
Theorem get_system_wattage_spec (w : world) :
  exists p g,
    get_system_wattage w = (Return (cpu_count (machine w), p, g), w)
    /\ (system (machine w) = "Windows" -> p = 65%Q)
    /\ (system (machine w) <> "Windows" -> p = 45%Q)
    /\ (gputil (machine w) = None -> g = 0%Q)
    /\ (gputil (machine w) = Some GetGPUsFails -> g = 0%Q)
    /\ (forall l, gputil (machine w) = Some (GPUs l) ->
        g = py_sum (map (fun memoryTotal => memoryTotal * (1 # 2))%Q l)).
Proof.
  destruct (get_system_wattage_run w) as (p & g & Hrun & Hp & Hg).
  exists p, g. split; [exact Hrun|].
  repeat split.
  - intros E. rewrite Hp, E. reflexivity.
  - intros E. rewrite Hp. destruct (String.eqb_spec (system (machine w)) "Windows"); congruence.
  - intros E. rewrite Hg, E. reflexivity.
  - intros E. rewrite Hg, E. reflexivity.
  - intros l E. rewrite Hg, E. reflexivity.
Qed.

Lemma get_system_wattage_spec_witness :
  exists p g,
    get_system_wattage (boot gaming_pc [] []) = (Return (8%N, p, g), boot gaming_pc [] [])
    /\ p = 65 /\ g = 0 + 8192 * (1 # 2) + 4096 * (1 # 2).
Proof.
  destruct (get_system_wattage_spec (boot gaming_pc [] []))
    as (p & g & Hrun & Hwin & _ & _ & _ & Hgpu).
  exists p, g. split; [exact Hrun|]. split.
  - apply Hwin. reflexivity.
  - apply (Hgpu [8192; 4096]). reflexivity.
Defined.


(** ** The generic timing loop *)

(** C10: for [num_runs <= 0] the tracker returns exactly 0 and leaves
    the world, hence the list of spawned processes, as it was. *)
Theorem tracker_no_runs (cmd : list string) (num_runs : Z) (w : world) :
  (num_runs <= 0)%Z ->
  universal_emissions_tracker cmd num_runs w = (Return 0%Q, w).
Proof.
  intros Hn. unfold universal_emissions_tracker, bind.
  destruct (get_system_wattage_run w) as (p & g & -> & _ & _).
  replace (Z.to_nat num_runs) with O by lia.
  reflexivity.
Qed.

Lemma procs_emit_output cmd out w : procs (emit_output cmd out w) = procs w.
Proof. unfold emit_output. destruct (output_path cmd); [destruct out|]; reflexivity. Qed.

Lemma now_emit_output cmd out w : now (emit_output cmd out w) = now w.
Proof. unfold emit_output. destruct (output_path cmd); [destruct out|]; reflexivity. Qed.

Lemma machine_emit_output cmd out w : machine (emit_output cmd out w) = machine w.
Proof. unfold emit_output. destruct (output_path cmd); [destruct out|]; reflexivity. Qed.

Lemma subprocess_run_completes cmd timeout d rc out ps w :
  procs w = Exits d rc out :: ps -> Qle_bool d timeout = true ->
  subprocess_run cmd timeout w = (Return rc, after_run cmd timeout d out ps w).
Proof.
  intros Hp Hd. unfold subprocess_run, after_run. simpl. rewrite Hp, Hd. reflexivity.
Qed.

Lemma subprocess_run_fails cmd timeout pr ps w :
  procs w = pr :: ps -> completes timeout pr = false ->
  exists e w', subprocess_run cmd timeout w = (Raise e, w').
Proof.
  intros Hp Hc. unfold subprocess_run. simpl. rewrite Hp.
  destruct pr as [|d rc out|d out]; simpl in Hc.
  - eauto.
  - rewrite Hc. eauto.
  - destruct (Qle_bool d timeout); eauto.
Qed.

Lemma subprocess_run_nothing cmd timeout w :
  procs w = [] -> exists e w', subprocess_run cmd timeout w = (Raise e, w').
Proof. intros Hp. unfold subprocess_run. simpl. rewrite Hp. eauto. Qed.

Lemma timed_run_completes cmd c p g d rc out ps w :
  procs w = Exits d rc out :: ps -> Qle_bool d 300 = true ->
  timed_run cmd c p g w =
    (Return (co2_kg (energy_kwh c p g (now w + d - now w))), after_run cmd 300 d out ps w).
Proof.
  intros Hp Hd. unfold timed_run, bind, time_time, gets.
  rewrite (subprocess_run_completes _ _ _ _ _ _ _ Hp Hd).
  unfold ret, after_run. simpl. rewrite now_emit_output. reflexivity.
Qed.

Lemma timed_run_fails cmd c p g w :
  all_complete 1 w = false -> exists e w', timed_run cmd c p g w = (Raise e, w').
Proof.
  intros H. unfold timed_run, bind, time_time, gets.
  unfold all_complete in H.
  destruct (procs w) as [|pr ps] eqn:Hp.
  - destruct (subprocess_run_nothing cmd 300 w Hp) as (e & w' & ->). eauto.
  - simpl in H. rewrite andb_true_r in H.
    destruct (subprocess_run_fails cmd 300 pr ps w Hp H) as (e & w' & ->). eauto.
Qed.

Lemma procs_after_run cmd timeout d out ps w : procs (after_run cmd timeout d out ps w) = ps.
Proof. unfold after_run. simpl. rewrite procs_emit_output. reflexivity. Qed.

Lemma machine_after_run cmd timeout d out ps w :
  machine (after_run cmd timeout d out ps w) = machine w.
Proof. unfold after_run. simpl. rewrite machine_emit_output. reflexivity. Qed.

Lemma all_complete_S n pr ps w w' :
  procs w = pr :: ps -> procs w' = ps ->
  all_complete (S n) w = completes 300 pr && all_complete n w'.
Proof.
  intros Hp Hp'. unfold all_complete. rewrite Hp, Hp'. simpl.
  destruct (completes 300 pr), (n <=? length ps)%nat; reflexivity.
Qed.

Lemma all_complete_nil n w : procs w = [] -> all_complete (S n) w = false.
Proof. intros Hp. unfold all_complete. rewrite Hp. reflexivity. Qed.

(** When a run of the next [n] does not end in time, the loop raises. *)
Lemma timing_loop_raises n cmd c p g : forall acc w,
  all_complete n w = false ->
  exists e w', timing_loop n cmd c p g acc w = (Raise e, w').
Proof.
  induction n as [|n IH]; intros acc w H.
  - discriminate H.
  - simpl. unfold bind.
    destruct (procs w) as [|pr ps] eqn:Hp.
    + destruct (timed_run_fails cmd c p g w) as (e & w' & ->); [|eauto].
      unfold all_complete. rewrite Hp. reflexivity.
    + destruct (completes 300 pr) eqn:Hc.
      * destruct pr as [|d rc out|d out]; [discriminate| |discriminate]. simpl in Hc.
        rewrite (timed_run_completes _ _ _ _ _ _ _ _ _ Hp Hc).
        apply IH.
        rewrite (all_complete_S n _ _ w (after_run cmd 300 d out ps w) Hp) in H
          by apply procs_after_run.
        simpl in H. rewrite Hc in H. exact H.
      * destruct (timed_run_fails cmd c p g w) as (e & w' & ->); [|eauto].
        unfold all_complete. rewrite Hp. simpl. rewrite Hc. reflexivity.
Qed.

(** When the loop returns, it has appended one sample per run, each run
    ended in time, and [n] processes have been consumed. *)
Lemma timing_loop_returns n cmd c p g : forall acc w l w',
  timing_loop n cmd c p g acc w = (Return l, w') ->
  exists new, l = acc ++ new
    /\ Forall2 (sample_of c p g) new (firstn n (procs w))
    /\ procs w' = skipn n (procs w)
    /\ machine w' = machine w
    /\ all_complete n w = true.
Proof.
  induction n as [|n IH]; intros acc w l w' H.
  - simpl in H. injection H as <- <-. exists []. rewrite app_nil_r.
    repeat split. constructor.
  - simpl in H. unfold bind in H.
    destruct (all_complete 1 w) eqn:H1.
    + unfold all_complete in H1.
      destruct (procs w) as [|pr ps] eqn:Hp; [discriminate|].
      simpl in H1. rewrite andb_true_r in H1.
      destruct pr as [|d rc out|d out]; [discriminate| |discriminate]. simpl in H1.
      rewrite (timed_run_completes _ _ _ _ _ _ _ _ _ Hp H1) in H.
      apply IH in H. destruct H as (new & -> & HF & Hps & Hm & Hall).
      rewrite procs_after_run in HF, Hps. rewrite machine_after_run in Hm.
      eexists (_ :: new). rewrite <- app_assoc. simpl.
      split; [reflexivity|]. split; [|split; [exact Hps|split; [exact Hm|]]].
      * constructor; [|exact HF].
        exists d, rc, out, (now w + d - now w), (energy_kwh c p g (now w + d - now w)).
        split; [reflexivity|]. split; [apply Qle_bool_iff; exact H1|].
        split; [ring|]. split; reflexivity.
      * rewrite (all_complete_S n _ _ w _ Hp (procs_after_run cmd 300 d out ps w)).
        simpl. rewrite H1. exact Hall.
    + destruct (timed_run_fails cmd c p g w H1) as (e & w1 & E). rewrite E in H.
      discriminate H.
Qed.

Lemma timing_loop_completes n cmd c p g : forall acc w,
  all_complete n w = true ->
  exists l w', timing_loop n cmd c p g acc w = (Return l, w').
Proof.
  induction n as [|n IH]; intros acc w H.
  - simpl. unfold ret. eauto.
  - simpl. unfold bind.
    destruct (procs w) as [|pr ps] eqn:Hp.
    + rewrite (all_complete_nil n w Hp) in H. discriminate H.
    + rewrite (all_complete_S n _ _ w (set_procs ps w) Hp eq_refl) in H.
      apply andb_prop in H. destruct H as [Hc Hall].
      destruct pr as [|d rc out|d out]; [discriminate| |discriminate]. simpl in Hc.
      rewrite (timed_run_completes _ _ _ _ _ _ _ _ _ Hp Hc).
      apply IH. unfold all_complete in *. rewrite procs_after_run. exact Hall.
Qed.

(** *** Sums and means over [Q] *)

Lemma fold_Qplus_shift l : forall a, fold_left Qplus l a == a + fold_left Qplus l 0.
Proof.
  induction l as [|x l IH]; intro a; simpl.
  - ring.
  - rewrite (IH (a + x)), (IH (0 + x)). ring.
Qed.

Lemma py_sum_cons x l : py_sum (x :: l) == x + py_sum l.
Proof. unfold py_sum. simpl. rewrite fold_Qplus_shift. ring. Qed.

Lemma py_sum_all_equal v l :
  Forall (fun x => x == v) l -> py_sum l == inject_Z (Z.of_nat (length l)) * v.
Proof.
  induction 1 as [|x l Hx _ IH].
  - unfold py_sum. simpl. ring.
  - rewrite py_sum_cons, IH, Hx. cbn [length].
    rewrite Nat2Z.inj_succ, <- Z.add_1_r, inject_Z_plus. ring.
Qed.

Lemma py_sum_nonneg l : Forall (fun x => 0 <= x) l -> 0 <= py_sum l.
Proof.
  induction 1 as [|x l Hx _ IH].
  - unfold py_sum. simpl. lra.
  - rewrite py_sum_cons. lra.
Qed.

Lemma count_positive {A} (x : A) l : 0 < inject_Z (Z.of_nat (length (x :: l))).
Proof.
  change 0 with (inject_Z 0). rewrite <- Zlt_Qlt. cbn [length]. lia.
Qed.

Lemma statistics_mean_all_equal v x l :
  Forall (fun y => y == v) (x :: l) -> statistics_mean (x :: l) == v.
Proof.
  intros H. unfold statistics_mean. rewrite (py_sum_all_equal v _ H).
  pose proof (count_positive x l) as Hpos.
  field. intros E. rewrite E in Hpos. apply (Qlt_irrefl 0). exact Hpos.
Qed.

Lemma statistics_mean_nonneg x l :
  Forall (fun y => 0 <= y) (x :: l) -> 0 <= statistics_mean (x :: l).
Proof.
  intros H. unfold statistics_mean.
  apply Qle_shift_div_l; [apply count_positive|].
  rewrite Qmult_0_l. apply py_sum_nonneg. exact H.
Qed.

(** *** The tracker in terms of its loop *)

Lemma tracker_unfold cmd num_runs w :
  exists p g,
    get_system_wattage w = (Return (cpu_count (machine w), p, g), w)
    /\ universal_emissions_tracker cmd num_runs w =
       match timing_loop (Z.to_nat num_runs) cmd (cpu_count (machine w)) p g [] w with
       | (Return [], w') => (Return 0, w')
       | (Return (x :: l), w') => (Return (statistics_mean (x :: l)), w')
       | (Raise _, w') => (Return 0, w')
       end.
Proof.
  destruct (get_system_wattage_run w) as (p & g & Hrun & _ & _).
  exists p, g. split; [exact Hrun|].
  unfold universal_emissions_tracker, bind at 1. rewrite Hrun.
  unfold bind, try_except, ret.
  destruct (timing_loop _ _ _ _ _ _ _) as [[[|x l]|e] w']; reflexivity.
Qed.

Lemma probe_of_machine w1 w2 prof :
  machine w1 = machine w2 ->
  get_system_wattage w1 = (Return prof, w1) ->
  get_system_wattage w2 = (Return prof, w2).
Proof.
  intros Hm H1.
  destruct (get_system_wattage_run w1) as (p1 & g1 & E1 & Hp1 & Hg1).
  destruct (get_system_wattage_run w2) as (p2 & g2 & E2 & Hp2 & Hg2).
  rewrite E1 in H1. injection H1 as <-. rewrite E2.
  rewrite <- Hm in Hp2, Hg2 |- *. congruence.
Qed.

Lemma samples_length c p g l ps : Forall2 (sample_of c p g) l ps -> length l = length ps.
Proof. induction 1; simpl; congruence. Qed.

Lemma samples_steady c p g t l ps :
  Forall2 (sample_of c p g) l ps -> forallb (takes t) ps = true ->
  Forall (fun x => x == co2_kg (energy_kwh c p g t)) l.
Proof.
  induction 1 as [|x pr l ps Hs _ IH]; intros Ht; constructor.
  - simpl in Ht. apply andb_prop in Ht. destruct Ht as [Ht _].
    destruct Hs as (d & rc & out & elapsed & energy & -> & _ & He & Hen & Hco).
    simpl in Ht. apply Qeq_bool_iff in Ht.
    unfold co2_kg, energy_kwh. rewrite Hco, Hen, He, Ht. ring.
  - apply IH. simpl in Ht. apply andb_prop in Ht. tauto.
Qed.

Lemma steady_all_complete t n w :
  t <= 300 -> steady t n w = true -> all_complete n w = true.
Proof.
  intros Ht. unfold steady, all_complete. intros H.
  apply andb_prop in H. destruct H as [-> H]. simpl.
  induction (firstn n (procs w)) as [|pr ps IH]; [reflexivity|].
  simpl in *. apply andb_prop in H. destruct H as [H1 H2].
  rewrite (IH H2), andb_true_r.
  destruct pr as [|d rc out|d out]; [discriminate| |discriminate]. simpl in *.
  apply Qeq_bool_iff in H1. apply Qle_bool_iff. rewrite H1. exact Ht.
Qed.

(** The estimate over [S n] runs that all take [t] seconds. *)
Lemma tracker_steady cmd n w t c p g :
  get_system_wattage w = (Return (c, p, g), w) ->
  t <= 300 -> steady t (S n) w = true ->
  exists q w',
    universal_emissions_tracker cmd (Z.of_nat (S n)) w = (Return q, w')
    /\ q == co2_kg (energy_kwh c p g t).
Proof.
  intros Hprobe Ht Hs.
  destruct (tracker_unfold cmd (Z.of_nat (S n)) w) as (p' & g' & Hprobe' & ->).
  rewrite Hprobe in Hprobe'. injection Hprobe' as <- <- <-.
  rewrite Nat2Z.id.
  destruct (timing_loop_completes (S n) cmd c p g [] w (steady_all_complete _ _ _ Ht Hs))
    as (l & w' & Hloop).
  rewrite Hloop.
  destruct (timing_loop_returns _ _ _ _ _ _ _ _ _ Hloop) as (new & -> & HF & _).
  simpl app.
  unfold steady in Hs. apply andb_prop in Hs. destruct Hs as [Hlen Hs].
  pose proof (samples_steady _ _ _ _ _ _ HF Hs) as Hall.
  pose proof (samples_length _ _ _ _ _ HF) as Hl.
  rewrite length_firstn in Hl. apply Nat.leb_le in Hlen.
  rewrite Nat.min_l in Hl by exact Hlen.
  destruct new as [|x new]; [discriminate Hl|].
  eexists; eexists; split; [reflexivity|].
  apply statistics_mean_all_equal. exact Hall.
Qed.

Lemma co2_as_product c p g t :
  co2_kg (energy_kwh c p g t) == total_watts (c, p, g) * t * (475 # 3600000).
Proof. unfold co2_kg, energy_kwh, total_watts. field. Qed.

(** *** The trace of the loop *)

Lemma trace_emit_output cmd out w : trace (emit_output cmd out w) = trace w.
Proof. unfold emit_output. destruct (output_path cmd); [destruct out|]; reflexivity. Qed.

Lemma trace_after_run cmd timeout d out ps w :
  trace (after_run cmd timeout d out ps w) = EvSpawn cmd timeout :: trace w.
Proof. unfold after_run. simpl. rewrite trace_emit_output. reflexivity. Qed.

Lemma timed_run_fails_trace cmd c p g w :
  all_complete 1 w = false ->
  exists e w', timed_run cmd c p g w = (Raise e, w')
               /\ trace w' = EvSpawn cmd 300 :: trace w.
Proof.
  intros H. unfold timed_run, bind, time_time, gets, subprocess_run. simpl.
  unfold all_complete in H.
  destruct (procs w) as [|[|d rc out|d out] ps] eqn:Hp; simpl in *.
  - eexists; eexists; split; reflexivity.
  - eexists; eexists; split; reflexivity.
  - rewrite andb_true_r in H. rewrite H.
    eexists; eexists; split; [reflexivity|]. simpl. apply trace_emit_output.
  - destruct (Qle_bool d 300);
      (eexists; eexists; split; [reflexivity|]; simpl; apply trace_emit_output).
Qed.

Lemma repeat_snoc {A} (x : A) k l : repeat x k ++ x :: l = repeat x (S k) ++ l.
Proof. induction k as [|k IH]; simpl; [reflexivity|]. rewrite IH. reflexivity. Qed.

(** A loop whose runs all complete spawns the command [n] times. *)
Lemma timing_loop_trace n cmd c p g : forall acc w l w',
  timing_loop n cmd c p g acc w = (Return l, w') ->
  trace w' = repeat (EvSpawn cmd 300) n ++ trace w.
Proof.
  induction n as [|n IH]; intros acc w l w' H.
  - simpl in H. injection H as _ <-. reflexivity.
  - simpl in H. unfold bind in H.
    destruct (all_complete 1 w) eqn:H1.
    + unfold all_complete in H1.
      destruct (procs w) as [|[|d rc out|d out] ps] eqn:Hp; try discriminate.
      simpl in H1. rewrite andb_true_r in H1.
      rewrite (timed_run_completes _ _ _ _ _ _ _ _ _ Hp H1) in H.
      apply IH in H. rewrite H, trace_after_run. apply repeat_snoc.
    + destruct (timed_run_fails cmd c p g w H1) as (e & w1 & E). rewrite E in H.
      discriminate H.
Qed.

(** The loop stops at the first run that does not complete: run [S k]
    is the last one spawned. *)
Lemma timing_loop_stops n cmd c p g : forall k acc w,
  (k < n)%nat -> all_complete k w = true -> all_complete (S k) w = false ->
  exists e w', timing_loop n cmd c p g acc w = (Raise e, w')
               /\ trace w' = repeat (EvSpawn cmd 300) (S k) ++ trace w.
Proof.
  induction n as [|n IH]; intros k acc w Hk Hall Hfail; [lia|].
  cbn [timing_loop]. unfold bind.
  destruct k as [|k].
  - destruct (timed_run_fails_trace cmd c p g w Hfail) as (e & w' & -> & Ht).
    exists e, w'. split; [reflexivity|exact Ht].
  - destruct (procs w) as [|pr ps] eqn:Hp.
    + rewrite (all_complete_nil k w Hp) in Hall. discriminate Hall.
    + rewrite (all_complete_S k _ _ w (set_procs ps w) Hp eq_refl) in Hall.
      apply andb_prop in Hall. destruct Hall as [Hc Hall].
      rewrite (all_complete_S (S k) _ _ w (set_procs ps w) Hp eq_refl), Hc in Hfail.
      destruct pr as [|d rc out|d out]; [discriminate| |discriminate]. simpl in Hc.
      rewrite (timed_run_completes _ _ _ _ _ _ _ _ _ Hp Hc).
      destruct (IH k (acc ++ [co2_kg (energy_kwh c p g (now w + d - now w))])
                  (after_run cmd 300 d out ps w)) as (e & w' & -> & Ht).
      * lia.
      * unfold all_complete in *. rewrite procs_after_run. exact Hall.
      * unfold all_complete in *. rewrite procs_after_run. exact Hfail.
      * exists e, w'. split; [reflexivity|].
        rewrite Ht, trace_after_run. apply repeat_snoc.
Qed.

(** C3: with the profile [(c, p, g)] that the probe returns, every
    value a run appends is [energy * 0.475] for
    [energy = (p * c + g) * elapsed / 3600], where [elapsed] is the time
    the process took (at most 300 seconds); this holds of each iteration
    and of the whole list the loop hands to the tracker. *)
Theorem timing_loop_samples (cmd : list string) (num_runs : Z) (w : world) :
  exists c p g,
    get_system_wattage w = (Return (c, p, g), w)
    /\ (forall w1 co2 w2,
          timed_run cmd c p g w1 = (Return co2, w2) ->
          exists pr ps, procs w1 = pr :: ps /\ sample_of c p g co2 pr)
    /\ (forall l w',
          timing_loop (Z.to_nat num_runs) cmd c p g [] w = (Return l, w') ->
          Forall2 (sample_of c p g) l (firstn (Z.to_nat num_runs) (procs w)))
    /\ universal_emissions_tracker cmd num_runs w =
       match timing_loop (Z.to_nat num_runs) cmd c p g [] w with
       | (Return [], w') => (Return 0, w')
       | (Return (x :: l), w') => (Return (statistics_mean (x :: l)), w')
       | (Raise _, w') => (Return 0, w')
       end.
Proof.
  destruct (tracker_unfold cmd num_runs w) as (p & g & Hprobe & Htracker).
  exists (cpu_count (machine w)), p, g.
  split; [exact Hprobe|]. split; [|split; [|exact Htracker]].
  - intros w1 co2 w2 Hrun.
    assert (Hloop : timing_loop 1 cmd (cpu_count (machine w)) p g [] w1 = (Return [co2], w2)).
    { simpl. unfold bind. rewrite Hrun. reflexivity. }
    destruct (timing_loop_returns _ _ _ _ _ _ _ _ _ Hloop) as (new & Hnew & HF & _).
    simpl in Hnew. subst new.
    destruct (procs w1) as [|pr ps]; simpl in HF; inversion HF; subst.
    exists pr, ps. split; [reflexivity|assumption].
  - intros l w' Hloop.
    destruct (timing_loop_returns _ _ _ _ _ _ _ _ _ Hloop) as (new & -> & HF & _).
    exact HF.
Qed.

Lemma timing_loop_samples_witness :
  exists p g,
    get_system_wattage (boot laptop [Exits 36 0 false; Exits 72 0 false] [])
    = (Return (4%N, p, g), boot laptop [Exits 36 0 false; Exits 72 0 false] [])
    /\ forall l w',
        timing_loop 2 ["./a.out"] 4 p g []
          (boot laptop [Exits 36 0 false; Exits 72 0 false] []) = (Return l, w') ->
        Forall2 (sample_of 4 p g) l [Exits 36 0 false; Exits 72 0 false].
Proof.
  destruct (timing_loop_samples ["./a.out"] 2
              (boot laptop [Exits 36 0 false; Exits 72 0 false] []))
    as (c & p & g & Hprobe & _ & Hloop & _).
  assert (Hc : c = 4%N).
  { destruct (get_system_wattage_run (boot laptop [Exits 36 0 false; Exits 72 0 false] []))
      as (p' & g' & E & _). rewrite E in Hprobe. injection Hprobe as <- _ _. reflexivity. }
  subst c. exists p, g. split; [exact Hprobe|exact Hloop].
Defined.


Example timing_loop_samples_run :
  fst (timing_loop 2 ["./a.out"] 4 45 0 []
         (boot laptop [Exits 36 0 false; Exits 72 0 false] []))
  = Return [co2_kg (energy_kwh 4 45 0 (0 + 36 - 0));
            co2_kg (energy_kwh 4 45 0 (0 + 36 + 72 - (0 + 36)))].
Proof. reflexivity. Qed.

(** C2, as stated, fails: when the first run completes and the second
    exceeds the 300 seconds, the tracker returns 0, where the mean over
    the runs that completed is not 0. *)
Lemma tracker_discards_completed_runs :
  let w := boot laptop [Exits 36 0 false; Exits 301 0 false; Exits 36 0 false] [] in
  fst (universal_emissions_tracker ["echo"; "ok"] 3 w) = Return 0
  /\ exists q, fst (spec_universal_emissions_tracker ["echo"; "ok"] 3 w) = Return q
               /\ ~ q == 0.
Proof.
  split; [reflexivity|].
  eexists. split; [reflexivity|].
  intros H. vm_compute in H. discriminate H.
Qed.

(** C2, amended: the tracker runs the command [num_runs] times (3 by
    default) with a 300 second limit each.  When every one of these runs
    completes, that is [subprocess.run] returns (the child ends in time
    and what it printed decodes as text), it returns the arithmetic mean
    of their CO2 values; when one of them raises (the child cannot be
    launched, is still running after 300 seconds, or has printed bytes
    that are not text) it returns exactly 0, whatever the runs before it
    measured, and no further run is started. *)
Theorem tracker_mean_or_zero (cmd : list string) (num_runs : Z) (w : world) :
  let n := Z.to_nat num_runs in
  exists c p g,
    get_system_wattage w = (Return (c, p, g), w)
    /\ default_num_runs = 3%Z
    /\ ((0 < num_runs)%Z -> all_complete n w = true ->
        exists l w',
          universal_emissions_tracker cmd num_runs w = (Return (statistics_mean l), w')
          /\ length l = n
          /\ Forall2 (sample_of c p g) l (firstn n (procs w))
          /\ procs w' = skipn n (procs w)
          /\ trace w' = repeat (EvSpawn cmd 300) n ++ trace w)
    /\ (all_complete n w = false ->
        exists w', universal_emissions_tracker cmd num_runs w = (Return 0, w'))
    /\ (forall k, (k < n)%nat ->
        all_complete k w = true -> all_complete (S k) w = false ->
        exists w',
          universal_emissions_tracker cmd num_runs w = (Return 0, w')
          /\ trace w' = repeat (EvSpawn cmd 300) (S k) ++ trace w).
Proof.
  intros n.
  destruct (tracker_unfold cmd num_runs w) as (p & g & Hprobe & ->).
  exists (cpu_count (machine w)), p, g. fold n.
  split; [exact Hprobe|]. split; [reflexivity|]. split; [|split].
  - intros Hpos Hall.
    destruct (timing_loop_completes n cmd (cpu_count (machine w)) p g [] w Hall)
      as (l & w' & Hloop).
    rewrite Hloop.
    pose proof (timing_loop_trace _ _ _ _ _ _ _ _ _ Hloop) as Htrace.
    destruct (timing_loop_returns _ _ _ _ _ _ _ _ _ Hloop) as (new & -> & HF & Hps & _).
    simpl app in *.
    pose proof (samples_length _ _ _ _ _ HF) as Hl.
    unfold all_complete in Hall. apply andb_prop in Hall. destruct Hall as [Hlen _].
    apply Nat.leb_le in Hlen.
    rewrite length_firstn, Nat.min_l in Hl by exact Hlen.
    destruct new as [|x new]; [simpl in Hl; lia|].
    exists (x :: new), w'. repeat split; assumption.
  - intros Hall.
    destruct (timing_loop_raises n cmd (cpu_count (machine w)) p g [] w Hall)
      as (e & w' & ->).
    exists w'. reflexivity.
  - intros k Hk Hall Hfail.
    destruct (timing_loop_stops n cmd (cpu_count (machine w)) p g k [] w Hk Hall Hfail)
      as (e & w' & -> & Htrace).
    exists w'. split; [reflexivity|exact Htrace].
Qed.

Lemma tracker_mean_or_zero_witness :
  (exists l w',
      universal_emissions_tracker ["./a.out"] 3
        (boot laptop [Exits 36 0 false; Exits 72 0 false; Exits 108 0 false] [])
      = (Return (statistics_mean l), w')
      /\ length l = 3%nat)
  /\ (exists w',
        universal_emissions_tracker ["./a.out"] 3
          (boot laptop [Exits 36 0 false; Exits 72 0 false; Missing] [])
        = (Return 0, w')).
Proof.
  split.
  - destruct (tracker_mean_or_zero ["./a.out"] 3
                (boot laptop [Exits 36 0 false; Exits 72 0 false; Exits 108 0 false] []))
      as (c & p & g & _ & _ & Hmean & _).
    destruct Hmean as (l & w' & Hrun & Hlen & _); [lia|reflexivity|].
    exists l, w'. split; [exact Hrun|exact Hlen].
  - destruct (tracker_mean_or_zero ["./a.out"] 3
                (boot laptop [Exits 36 0 false; Exits 72 0 false; Missing] []))
      as (c & p & g & _ & _ & _ & Hzero & _).
    apply Hzero. reflexivity.
Defined.


Example tracker_mean_run :
  fst (universal_emissions_tracker ["./a.out"] 3
         (boot laptop [Exits 36 0 false; Exits 72 0 false; Exits 108 0 false] []))
  = Return (statistics_mean
              [co2_kg (energy_kwh 4 45 0 (0 + 36 - 0));
               co2_kg (energy_kwh 4 45 0 (0 + 36 + 72 - (0 + 36)));
               co2_kg (energy_kwh 4 45 0 (0 + 36 + 72 + 108 - (0 + 36 + 72)))]).
Proof. reflexivity. Qed.

Example tracker_timeout_run :
  fst (universal_emissions_tracker ["./a.out"] 3
         (boot laptop [Exits 36 0 false; Exits 72 0 false; Exits 301 0 false] []))
  = Return 0.
Proof. reflexivity. Qed.

(** A run that ends in time but prints a byte sequence that is not
    text raises in [subprocess.run]: the estimate is 0 and the third
    run is not started. *)
Example tracker_undecodable_run :
  let out := universal_emissions_tracker ["./a.out"] 3
               (boot laptop [Exits 36 0 false; Garbled 36 false; Exits 36 0 false] []) in
  fst out = Return 0
  /\ trace (snd out) = [EvSpawn ["./a.out"] 300; EvSpawn ["./a.out"] 300]
  /\ procs (snd out) = [Exits 36 0 false].
Proof. repeat split. Qed.

Lemma co2_written_out c p g t :
  co2_kg (energy_kwh c p g t)
  == (p * inject_Z (Z.of_N c) + g) * t / 3600 * (475 # 1000).
Proof. reflexivity. Qed.

Lemma written_out_as_product (watts t : Q) :
  watts * t / 3600 * (475 # 1000) == watts * t * (475 # 3600000).
Proof. field. Qed.

(** C4: with three runs that all take [t] seconds the estimate is the
    CO2 value of a single run of [t] seconds, that is
    [(cpu_power_w * cpu_count + gpu_power_w) * t / 3600 * 0.475];
    between two such worlds the estimate grows with the total wattage
    (strictly for [0 < t]) and with the elapsed time (strictly for a
    positive wattage), and doubling the elapsed time on the same host
    doubles it. *)
Theorem steady_runs_estimate (cmd : list string) :
  (forall w t c p g,
      get_system_wattage w = (Return (c, p, g), w) ->
      t <= 300 -> steady t 3 w = true ->
      exists q w',
        universal_emissions_tracker cmd 3 w = (Return q, w')
        /\ q == (p * inject_Z (Z.of_N c) + g) * t / 3600 * (475 # 1000))
  /\ (forall w1 w2 t c1 p1 g1 c2 p2 g2 q1 q2 w1' w2',
      get_system_wattage w1 = (Return (c1, p1, g1), w1) ->
      get_system_wattage w2 = (Return (c2, p2, g2), w2) ->
      0 <= t -> t <= 300 -> steady t 3 w1 = true -> steady t 3 w2 = true ->
      universal_emissions_tracker cmd 3 w1 = (Return q1, w1') ->
      universal_emissions_tracker cmd 3 w2 = (Return q2, w2') ->
      (p1 * inject_Z (Z.of_N c1) + g1 <= p2 * inject_Z (Z.of_N c2) + g2 -> q1 <= q2)
      /\ (0 < t -> p1 * inject_Z (Z.of_N c1) + g1 < p2 * inject_Z (Z.of_N c2) + g2 ->
          q1 < q2))
  /\ (forall w1 w2 t1 t2 c p g q1 q2 w1' w2',
      get_system_wattage w1 = (Return (c, p, g), w1) ->
      machine w1 = machine w2 -> 0 <= p * inject_Z (Z.of_N c) + g ->
      t2 <= 300 -> steady t1 3 w1 = true -> steady t2 3 w2 = true ->
      universal_emissions_tracker cmd 3 w1 = (Return q1, w1') ->
      universal_emissions_tracker cmd 3 w2 = (Return q2, w2') ->
      (t1 <= t2 -> q1 <= q2)
      /\ (0 < p * inject_Z (Z.of_N c) + g -> t1 < t2 -> q1 < q2))
  /\ (forall w1 w2 t q1 q2 w1' w2',
      machine w1 = machine w2 ->
      2 * t <= 300 -> steady t 3 w1 = true -> steady (2 * t) 3 w2 = true ->
      universal_emissions_tracker cmd 3 w1 = (Return q1, w1') ->
      universal_emissions_tracker cmd 3 w2 = (Return q2, w2') ->
      q2 == 2 * q1).
Proof.
  assert (Hsingle : forall w t c p g,
      get_system_wattage w = (Return (c, p, g), w) ->
      t <= 300 -> steady t 3 w = true ->
      exists q w',
        universal_emissions_tracker cmd 3 w = (Return q, w')
        /\ q == (p * inject_Z (Z.of_N c) + g) * t / 3600 * (475 # 1000)).
  { intros w t c p g Hprobe Ht Hs.
    destruct (tracker_steady cmd 2 w t c p g Hprobe Ht Hs) as (q & w' & E & Hq).
    exists q, w'. split; [exact E|]. rewrite Hq. apply co2_written_out. }
  assert (Hk : 0 < 475 # 3600000) by reflexivity.
  split; [exact Hsingle|]. split; [|split].
  - intros w1 w2 t c1 p1 g1 c2 p2 g2 q1 q2 w1' w2' H1 H2 H0 Ht S1 S2 E1 E2.
    destruct (Hsingle _ _ _ _ _ H1 Ht S1) as (q & w' & E & Hq).
    rewrite E1 in E. injection E as <- <-.
    destruct (Hsingle _ _ _ _ _ H2 Ht S2) as (q & w' & E & Hq').
    rewrite E2 in E. injection E as <- <-.
    rewrite Hq, Hq', !written_out_as_product. split.
    + intros Hw. apply Qmult_le_compat_r; [|discriminate].
      apply Qmult_le_compat_r; assumption.
    + intros Hpos Hw. apply Qmult_lt_compat_r; [exact Hk|].
      apply Qmult_lt_compat_r; assumption.
  - intros w1 w2 t1 t2 c p g q1 q2 w1' w2' H1 Hm Hw Ht S1 S2 E1 E2.
    pose proof (probe_of_machine _ _ _ Hm H1) as H2.
    destruct (Hsingle _ _ _ _ _ H2 Ht S2) as (q & w' & E & Hq').
    rewrite E2 in E. injection E as <- <-.
    assert (Hq : t1 <= t2 ->
                 q1 == (p * inject_Z (Z.of_N c) + g) * t1 / 3600 * (475 # 1000)).
    { intros Ht12. assert (Ht1 : t1 <= 300) by lra.
      destruct (Hsingle _ _ _ _ _ H1 Ht1 S1) as (q & w' & E & Hq).
      rewrite E1 in E. injection E as <- <-. exact Hq. }
    split.
    + intros Ht12. rewrite (Hq Ht12), Hq', !written_out_as_product.
      apply Qmult_le_compat_r; [|discriminate].
      rewrite !(Qmult_comm (p * inject_Z (Z.of_N c) + g)).
      apply Qmult_le_compat_r; assumption.
    + intros Hpos Ht12. rewrite (Hq (Qlt_le_weak _ _ Ht12)), Hq', !written_out_as_product.
      apply Qmult_lt_compat_r; [exact Hk|].
      rewrite !(Qmult_comm (p * inject_Z (Z.of_N c) + g)).
      apply Qmult_lt_compat_r; assumption.
  - intros w1 w2 t q1 q2 w1' w2' Hm Ht S1 S2 E1 E2.
    destruct (get_system_wattage_run w1) as (p & g & H1 & _).
    pose proof (probe_of_machine _ _ _ Hm H1) as H2.
    assert (Ht1 : t <= 300).
    { unfold steady in S1. apply andb_prop in S1. destruct S1 as [_ S1].
      destruct (Qlt_le_dec t 0); lra. }
    destruct (Hsingle _ _ _ _ _ H1 Ht1 S1) as (q & w' & E & Hq).
    rewrite E1 in E. injection E as <- <-.
    destruct (Hsingle _ _ _ _ _ H2 Ht S2) as (q & w' & E & Hq').
    rewrite E2 in E. injection E as <- <-.
    rewrite Hq, Hq'. field.
Qed.

Lemma steady_runs_estimate_witness :
  (exists q w',
      universal_emissions_tracker ["./a.out"] 3
        (boot laptop [Exits 36 0 false; Exits 36 1 false; Exits 36 0 false] [])
      = (Return q, w')
      /\ q == (45 * inject_Z (Z.of_N 4) + 0) * 36 / 3600 * (475 # 1000))
  /\ (forall q1 q2 w1' w2',
        universal_emissions_tracker ["./a.out"] 3
          (boot laptop [Exits 36 0 false; Exits 36 1 false; Exits 36 0 false] [])
        = (Return q1, w1') ->
        universal_emissions_tracker ["./a.out"] 3
          (boot laptop [Exits 72 0 false; Exits 72 0 false; Exits 72 0 false] [])
        = (Return q2, w2') ->
        q2 == 2 * q1).
Proof.
  split.
  - apply (proj1 (steady_runs_estimate ["./a.out"])); [reflexivity|discriminate|reflexivity].
  - intros q1 q2 w1' w2'.
    apply (proj2 (proj2 (proj2 (steady_runs_estimate ["./a.out"])))
             (boot laptop [Exits 36 0 false; Exits 36 1 false; Exits 36 0 false] [])
             (boot laptop [Exits 72 0 false; Exits 72 0 false; Exits 72 0 false] [])
             36);
      [reflexivity|discriminate|reflexivity|reflexivity].
Defined.


(** ** The estimator *)

Lemma remove_if_exists_runs path w :
  exists w', remove_if_exists path w = (Return tt, w')
    /\ files w' = without path (files w)
    /\ machine w' = machine w /\ trace w' = trace w /\ procs w' = procs w
    /\ temps w' = temps w /\ carbon w' = carbon w /\ chats w' = chats w
    /\ now w' = now w.
Proof.
  unfold remove_if_exists, without.
  destruct path as [p|]; [|exists w; repeat split].
  destruct (String.eqb p ""); [exists w; repeat split|].
  unfold bind, os_path_exists, gets, os_remove, ret.
  destruct (files w !! p) eqn:E; simpl.
  - rewrite E. eexists. split; [reflexivity|]. repeat split.
  - exists w. repeat split. symmetry. apply delete_id. exact E.
Qed.

(** The [finally] clause never raises; it removes both paths. *)
Lemma estimator_finally_runs f w :
  exists w', estimator_finally (f, w) = (Return tt, (f, w'))
    /\ files w' = without (exec_file f) (without (temp_file f) (files w))
    /\ trace w' = trace w.
Proof.
  unfold estimator_finally, bind, gets, lift. simpl.
  destruct (remove_if_exists_runs (temp_file f) w) as (w1 & -> & Hf1 & _ & Ht1 & _).
  simpl.
  destruct (remove_if_exists_runs (exec_file f) w1) as (w2 & -> & Hf2 & _ & Ht2 & _).
  exists w2. split; [reflexivity|]. split; congruence.
Qed.

(** The estimator on a [str] that is not blank: the result is the value
    the [try] block returns, or 0 when it raises; then the [finally]
    clause has run. *)
Lemma run_code_unfold c test_params language w :
  String.eqb (strip c) "" = false ->
  exists r f w1 w2,
    estimator_try c test_params language
      ({| temp_file := None; exec_file := None |}, log EvEstimate w) = (r, (f, w1))
    /\ files w2 = without (exec_file f) (without (temp_file f) (files w1))
    /\ trace w2 = trace w1
    /\ run_code_and_track_emissions (PyStr c) test_params language w =
       (Return (match r with Return q => q | Raise _ => 0 end), w2).
Proof.
  intros Hc.
  unfold run_code_and_track_emissions, bind, modify. rewrite Hc.
  unfold try_finally, try_except.
  destruct (estimator_try c test_params language _) as [r [f w1]] eqn:Hbody.
  destruct (estimator_finally_runs f w1) as (w2 & Hfin & Hfiles & Htrace).
  exists r, f, w1, w2. split; [reflexivity|]. split; [exact Hfiles|]. split; [exact Htrace|].
  destruct r as [q|e]; unfold ret; rewrite Hfin; reflexivity.
Qed.

Lemma clean_code_str c : exists c', clean_code (PyStr c) = Return c'.
Proof. unfold clean_code. destruct (negb _); eauto. Qed.

(** *** Rules for [wp] *)

Lemma wp_ret {St A} (a : A) (Q : result A -> St -> Prop) s :
  Q (Return a) s -> wp (ret a) Q s.
Proof. exact (fun H => H). Qed.

Lemma wp_raise {St A} e (Q : result A -> St -> Prop) s :
  Q (Raise e) s -> wp (raise e) Q s.
Proof. exact (fun H => H). Qed.

Lemma wp_bind {St A B} (m : M St A) (k : A -> M St B) (Q : result B -> St -> Prop) s :
  wp m (fun r s' => match r with
                    | Return a => wp (k a) Q s'
                    | Raise e => Q (Raise e) s'
                    end) s ->
  wp (bind m k) Q s.
Proof.
  unfold wp, bind. destruct (m s) as [[a|e] s']; simpl; exact (fun H => H).
Qed.

Lemma wp_try_except {St A} (body : M St A) handler (Q : result A -> St -> Prop) s :
  wp body (fun r s' => match r with
                       | Return a => Q (Return a) s'
                       | Raise e => wp (handler e) Q s'
                       end) s ->
  wp (try_except body handler) Q s.
Proof.
  unfold wp, try_except. destruct (body s) as [[a|e] s']; simpl; exact (fun H => H).
Qed.

Lemma wp_mono {St A} (m : M St A) (Q Q' : result A -> St -> Prop) s :
  wp m Q s -> (forall r s', Q r s' -> Q' r s') -> wp m Q' s.
Proof. unfold wp. auto. Qed.

Lemma wp_lift {A} (m : M world A) (Q : result A -> frame * world -> Prop) f w :
  wp m (fun r w' => Q r (f, w')) w -> wp (lift m) Q (f, w).
Proof.
  unfold wp, lift. simpl. destruct (m w) as [r w']. exact (fun H => H).
Qed.

Lemma wp_gets {St A} (g : St -> A) (Q : result A -> St -> Prop) s :
  Q (Return (g s)) s -> wp (gets g) Q s.
Proof. exact (fun H => H). Qed.

Lemma wp_modify {St} (g : St -> St) (Q : result unit -> St -> Prop) s :
  Q (Return tt) (g s) -> wp (modify g) Q s.
Proof. exact (fun H => H). Qed.

Lemma wp_run {St A} (m : M St A) (Q : result A -> St -> Prop) s r s' :
  wp m Q s -> m s = (r, s') -> Q r s'.
Proof. unfold wp. intros H E. rewrite E in H. exact H. Qed.

(** *** What each primitive does *)

Lemma dom_fs_create p c (f : gmap string content) :
  dom (fs_create p c f) ⊆ dom f ∪ of_path (Some p).
Proof.
  unfold fs_create, of_path. destruct (String.eqb p "").
  - set_solver.
  - rewrite dom_insert_L. set_solver.
Qed.

Lemma wp_subprocess_run cmd timeout (Q : result Z -> world -> Prop) w :
  (forall r w',
      machine w' = machine w -> temps w' = temps w -> carbon w' = carbon w ->
      procs w' = tl (procs w) ->
      dom (files w') ⊆ dom (files w) ∪ of_path (output_path cmd) ->
      (output_path cmd = None -> files w' = files w) ->
      (forall rc, r = Return rc ->
                  exists d out, hd_error (procs w) = Some (Exits d rc out)) ->
      Q r w') ->
  wp (subprocess_run cmd timeout) Q w.
Proof.
  intros H. unfold wp, subprocess_run. simpl.
  destruct (procs w) as [|[|d rc out|d out] ps] eqn:Hp; simpl.
  1, 2: apply H; simpl; rewrite ?Hp; try reflexivity; try discriminate;
    apply union_subseteq_l.
  all: set (w1 := set_procs ps (log (EvSpawn cmd timeout) w)).
  all: assert (Hd : dom (files (emit_output cmd out w1))
                    ⊆ dom (files w) ∪ of_path (output_path cmd))
    by (unfold emit_output; destruct (output_path cmd) as [p|]; [destruct out|]; simpl;
        try apply union_subseteq_l; apply dom_fs_create).
  all: assert (Hn : output_path cmd = None -> files (emit_output cmd out w1) = files w)
    by (intros E; unfold emit_output; rewrite E; reflexivity).
  all: assert (Hm : machine (emit_output cmd out w1) = machine w)
      by (rewrite machine_emit_output; reflexivity).
  all: assert (Ht : temps (emit_output cmd out w1) = temps w)
      by (unfold emit_output; destruct (output_path cmd); [destruct out|]; reflexivity).
  all: assert (Hc : carbon (emit_output cmd out w1) = carbon w)
      by (unfold emit_output; destruct (output_path cmd); [destruct out|]; reflexivity).
  all: assert (Hps : procs (emit_output cmd out w1) = ps)
      by (rewrite procs_emit_output; reflexivity).
  all: destruct (Qle_bool d timeout); simpl; apply H; simpl; try assumption;
    try discriminate.
  intros rc' E. injection E as <-. eauto.
Qed.

Lemma temp_name_long dir rand suffix :
  (4 <= String.length (dir ++ "/tmp" ++ rand ++ suffix)%string)%nat.
Proof.
  induction dir as [|a dir IH]; simpl.
  - lia.
  - simpl in IH. lia.
Qed.

Lemma temp_name_not_empty dir rand suffix :
  String.eqb (dir ++ "/tmp" ++ rand ++ suffix)%string "" = false.
Proof.
  pose proof (temp_name_long dir rand suffix) as H.
  destruct (dir ++ "/tmp" ++ rand ++ suffix)%string; [simpl in H; lia|reflexivity].
Qed.

Lemma temp_name_not_flag dir rand suffix :
  String.eqb (dir ++ "/tmp" ++ rand ++ suffix)%string "-o" = false.
Proof.
  pose proof (temp_name_long dir rand suffix) as H.
  apply String.eqb_neq. intros E. rewrite E in H. simpl in H. lia.
Qed.

Lemma wp_with_temp_file suffix c (Q : result string -> frame * world -> Prop) f w :
  (forall r f' w',
      machine w' = machine w -> procs w' = procs w -> carbon w' = carbon w ->
      exec_file f' = exec_file f ->
      dom (files w') ⊆ dom (files w) ∪ of_path (temp_file f') ->
      (forall name, r = Return name ->
                    temp_file f' = Some name
                    /\ String.eqb name "" = false /\ String.eqb name "-o" = false) ->
      Q r (f', w')) ->
  wp (with_temp_file suffix c) Q (f, w).
Proof.
  intros H. unfold wp, with_temp_file, bind, lift, NamedTemporaryFile, set_temp_file,
    f_write, modify, raise, ret. simpl.
  destruct (temps w) as [|[|dir rand ok] ts]; simpl.
  - apply H; try reflexivity; try discriminate. apply union_subseteq_l.
  - apply H; try reflexivity; try discriminate. apply union_subseteq_l.
  - destruct ok; simpl; apply H; simpl; try reflexivity; try discriminate.
    + etransitivity; [apply dom_fs_create|].
      apply union_least; [apply dom_fs_create|apply union_subseteq_r].
    + intros name E. injection E as <-.
      split; [reflexivity|]. split; [apply temp_name_not_empty|apply temp_name_not_flag].
    + apply dom_fs_create.
Qed.

Lemma wp_tracker_start (Q : result unit -> world -> Prop) w :
  (forall r w',
      machine w' = machine w -> procs w' = procs w -> files w' = files w ->
      (forallb nonneg_carbon (carbon w) = true ->
       forallb nonneg_carbon (carbon w') = true) ->
      Q r w') ->
  wp tracker_start Q w.
Proof.
  intros H. unfold wp, tracker_start.
  destruct (carbon w) as [|[|e] cs] eqn:Hc; simpl; apply H; simpl;
    rewrite ?Hc; try reflexivity; auto.
Qed.

Lemma wp_tracker_stop (Q : result (option Q) -> world -> Prop) w :
  (forall r w',
      machine w' = machine w -> procs w' = procs w -> files w' = files w ->
      (forallb nonneg_carbon (carbon w) = true ->
       forall q, r = Return (Some q) -> 0 <= q) ->
      Q r w') ->
  wp tracker_stop Q w.
Proof.
  intros H. unfold wp, tracker_stop.
  destruct (carbon w) as [|[|e] cs] eqn:Hc; simpl; apply H; simpl;
    try reflexivity; try discriminate.
  intros Hall q E. injection E as ->.
  apply andb_prop in Hall. destruct Hall as [Hq _]. apply Qle_bool_iff, Hq.
Qed.

(** *** The tracker never raises *)

Lemma timing_loop_frame n cmd c p g :
  output_path cmd = None -> forall acc w,
  wp (timing_loop n cmd c p g acc)
     (fun _ w' => machine w' = machine w /\ carbon w' = carbon w
                  /\ files w' = files w) w.
Proof.
  intros Hcmd. induction n as [|n IH]; intros acc w.
  - simpl. apply wp_ret. auto.
  - cbn [timing_loop]. apply wp_bind. unfold timed_run.
    apply wp_bind, wp_gets, wp_bind, wp_subprocess_run.
    intros [rc|e] w1 Hm _ Hc _ _ Hf _.
    + apply wp_bind, wp_gets, wp_ret.
      eapply wp_mono; [apply IH|]. simpl. intros _ w2 (Hm2 & Hc2 & Hf2).
      rewrite Hm2, Hc2, Hf2. auto.
    + auto.
Qed.

Lemma forallb_firstn {A} (f : A -> bool) n : forall l,
  forallb f l = true -> forallb f (firstn n l) = true.
Proof.
  induction n as [|n IH]; intros [|x l] H; simpl; try reflexivity.
  simpl in H. apply andb_prop in H. destruct H as [-> H]. simpl. apply IH, H.
Qed.

Lemma samples_nonneg c p g l ps :
  0 <= total_watts (c, p, g) -> forallb nonneg_proc ps = true ->
  Forall2 (sample_of c p g) l ps -> Forall (fun x => 0 <= x) l.
Proof.
  intros Hw Hps HF. revert Hps.
  induction HF as [|x pr l ps Hs _ IH]; intros Hps; constructor.
  - simpl in Hps. apply andb_prop in Hps. destruct Hps as [Hpr _].
    destruct Hs as (d & rc & out & elapsed & energy & -> & _ & He & Hen & Hco).
    simpl in Hpr. apply Qle_bool_iff in Hpr.
    assert (Hx : x == total_watts (c, p, g) * d * (475 # 3600000)).
    { rewrite Hco, Hen, He. unfold total_watts. field. }
    rewrite Hx.
    apply Qmult_le_0_compat; [apply Qmult_le_0_compat; assumption|discriminate].
  - apply IH. simpl in Hps. apply andb_prop in Hps. tauto.
Qed.

Lemma py_sum_halves_nonneg l :
  forallb (Qle_bool 0) l = true -> 0 <= py_sum (map (fun m => m * (1 # 2)) l).
Proof.
  intros H. apply py_sum_nonneg.
  induction l as [|m l IH]; simpl; constructor.
  - simpl in H. apply andb_prop in H. destruct H as [H _]. apply Qle_bool_iff in H. lra.
  - apply IH. simpl in H. apply andb_prop in H. tauto.
Qed.

Lemma probe_nonneg w c p g :
  nonneg_host (machine w) = true ->
  get_system_wattage w = (Return (c, p, g), w) -> 0 <= total_watts (c, p, g).
Proof.
  intros Hh Hprobe.
  destruct (get_system_wattage_run w) as (p' & g' & E & Hp & Hg).
  rewrite E in Hprobe. injection Hprobe as <- <- <-.
  assert (Hc : 0 <= of_count (cpu_count (machine w))).
  { unfold of_count. change 0 with (inject_Z 0). rewrite <- Zle_Qle. lia. }
  assert (Hg0 : 0 <= g').
  { rewrite Hg. unfold nonneg_host in Hh.
    destruct (gputil (machine w)) as [[|l]|]; try lra.
    apply py_sum_halves_nonneg, Hh. }
  assert (Hp0 : 0 <= p') by (rewrite Hp; destruct (String.eqb _ _); lra).
  unfold total_watts.
  pose proof (Qmult_le_0_compat _ _ Hp0 Hc). lra.
Qed.

(** The tracker returns, leaves the disk alone when the command names
    no output, and its value is not negative in a well-formed world. *)
Lemma wp_tracker cmd num_runs (Q : result Q -> world -> Prop) w :
  output_path cmd = None ->
  (forall q w',
      machine w' = machine w -> carbon w' = carbon w -> files w' = files w ->
      (nonneg_host (machine w) = true -> forallb nonneg_proc (procs w) = true ->
       0 <= q) ->
      Q (Return q) w') ->
  wp (universal_emissions_tracker cmd num_runs) Q w.
Proof.
  intros Hcmd H. unfold wp.
  destruct (tracker_unfold cmd num_runs w) as (p & g & Hprobe & ->).
  pose proof (timing_loop_frame (Z.to_nat num_runs) cmd (cpu_count (machine w)) p g
                Hcmd [] w) as Hframe.
  unfold wp in Hframe.
  destruct (timing_loop _ _ _ _ _ _ _) as [[l|e] w'] eqn:Hloop;
    simpl in Hframe; destruct Hframe as (Hm & Hc & Hf).
  - destruct (timing_loop_returns _ _ _ _ _ _ _ _ _ Hloop) as (new & -> & HF & _).
    simpl app. destruct new as [|x new]; simpl; apply H; try assumption.
    + intros _ _. lra.
    + intros Hh Hps. apply statistics_mean_nonneg.
      eapply samples_nonneg; [eapply probe_nonneg; eassumption| |exact HF].
      apply forallb_firstn, Hps.
  - simpl. apply H; try assumption. intros _ _. lra.
Qed.

(** *** The [try] block of the estimator *)

Ltac wp_dyn v :=
  destruct v; try (apply wp_raise; intros; discriminate); apply wp_ret.

Lemma estimator_try_nonneg c test_params language f w :
  well_formed w = true ->
  wp (estimator_try c test_params language)
     (fun r _ => forall q, r = Return q -> 0 <= q) (f, w).
Proof.
  unfold well_formed. intros Hwf.
  apply andb_prop in Hwf. destruct Hwf as [Hwf Hcarbon].
  apply andb_prop in Hwf. destruct Hwf as [Hhost Hprocs].
  unfold estimator_try. apply wp_bind. unfold py_lower. wp_dyn language.
  destruct (String.eqb (lower s) "python").
  - apply wp_bind. unfold py_get. wp_dyn test_params.
    apply wp_bind, wp_ret, wp_bind, wp_with_temp_file.
    intros [name|e] f1 w1 Hm1 Hp1 Hc1 _ _ _; [|discriminate].
    apply wp_bind, wp_lift, wp_gets, wp_bind, wp_lift, wp_tracker_start.
    intros [[]|e] w2 _ _ _ Hc2; [|discriminate].
    apply wp_bind, wp_lift, wp_subprocess_run.
    intros [rc|e] w3 _ _ Hc3 _ _ _ _; [|discriminate].
    apply wp_bind, wp_lift, wp_tracker_stop.
    intros [e|e] w4 _ _ _ He; [|discriminate]. apply wp_ret.
    intros q E. injection E as <-.
    rewrite Hc3 in He. rewrite Hc1 in Hc2. specialize (He (Hc2 Hcarbon)).
    destruct e as [e|]; [|lra].
    destruct (Qeq_bool e 0); [lra|]. exact (He e eq_refl).
  - destruct (_ || _).
    + apply wp_bind. destruct (clean_code_str c) as (c' & ->). apply wp_ret.
      apply wp_bind, wp_with_temp_file.
      intros [name|e] f1 w1 Hm1 Hp1 Hc1 _ _ _; [|discriminate].
      apply wp_bind, wp_modify, wp_bind, wp_lift, wp_subprocess_run.
      intros [rc|e] w2 Hm2 _ _ Hp2 _ _ _; [|discriminate].
      simpl in Hm2, Hp2.
      destruct (negb _); [apply wp_ret; intros q E; injection E as <-; lra|].
      apply wp_lift, wp_tracker; [|intros q w3 _ _ _ Hq q' E; injection E as <-].
      * simpl. destruct (String.eqb _ "-o"); reflexivity.
      * apply Hq; [congruence|]. rewrite Hp2, Hp1.
        destruct (procs w) as [|pr ps]; [reflexivity|].
        simpl in Hprocs. apply andb_prop in Hprocs. tauto.
    + apply wp_lift, wp_tracker; [reflexivity|].
      intros q w3 _ _ _ Hq q' E. injection E as <-. auto.
Qed.

Lemma estimator_try_compile_fails c test_params s f w d rc out ps :
  lower s = "c"%string \/ lower s = "cpp"%string ->
  procs w = Exits d rc out :: ps -> rc <> 0%Z ->
  wp (estimator_try c test_params (PyStr s))
     (fun r _ => forall q, r = Return q -> q = 0) (f, w).
Proof.
  intros Hlang Hprocs Hrc.
  unfold estimator_try. apply wp_bind. unfold py_lower. apply wp_ret.
  assert (Hbranch : String.eqb (lower s) "python" = false
                    /\ (String.eqb (lower s) "c" || String.eqb (lower s) "cpp") = true).
  { destruct Hlang as [-> | ->]; split; reflexivity. }
  destruct Hbranch as [-> ->].
  apply wp_bind. destruct (clean_code_str c) as (c' & ->). apply wp_ret.
  apply wp_bind, wp_with_temp_file.
  intros [name|e] f1 w1 _ Hp1 _ _ _ _; [|discriminate].
  apply wp_bind, wp_modify, wp_bind, wp_lift, wp_subprocess_run.
  intros [rc'|e] w2 _ _ _ _ _ _ Hhead; [|discriminate].
  destruct (Hhead rc' eq_refl) as (d' & out' & Hhd).
  simpl in Hhd. rewrite Hp1, Hprocs in Hhd. injection Hhd as _ <- _.
  destruct (Z.eqb_spec rc 0) as [E|_]; [contradiction|].
  apply wp_ret. intros q E. injection E as <-. reflexivity.
Qed.

Lemma dom_without path (m : gmap string content) :
  dom (without path m) = dom m ∖ of_path path.
Proof.
  unfold without, of_path. destruct path as [p|].
  - destruct (String.eqb p "").
    + symmetry. apply difference_empty_L.
    + apply dom_delete_L.
  - symmetry. apply difference_empty_L.
Qed.

Lemma of_path_python python name :
  of_path (output_path [python; name]) ⊆ of_path (Some name).
Proof.
  simpl output_path.
  destruct (String.eqb python "-o"); [reflexivity|].
  destruct (String.eqb name "-o"); apply empty_subseteq.
Qed.

Lemma output_path_gcc name exec :
  String.eqb name "-o" = false ->
  output_path ["gcc"; name; "-o"; exec]%string = Some exec.
Proof. intros H. simpl. rewrite H. reflexivity. Qed.

Lemma estimator_try_files c test_params language w :
  wp (estimator_try c test_params language)
     (fun _ s => dom (files (snd s)) ⊆ dom (files w) ∪ paths (fst s))
     ({| temp_file := None; exec_file := None |}, w).
Proof.
  unfold estimator_try. apply wp_bind. unfold py_lower.
  destruct language; try (apply wp_raise; apply union_subseteq_l). apply wp_ret.
  destruct (String.eqb (lower s) "python").
  - apply wp_bind. unfold py_get.
    destruct test_params; try (apply wp_raise; apply union_subseteq_l). apply wp_ret.
    apply wp_bind, wp_ret, wp_bind, wp_with_temp_file.
    intros [name|e] f1 w1 _ _ _ Hexec Hd1 Hname.
    + destruct (Hname name eq_refl) as (Htemp & _ & _).
      apply wp_bind, wp_lift, wp_gets, wp_bind, wp_lift, wp_tracker_start.
      intros r0 w0 _ _ Hf0 _.
      assert (Hinv0 : dom (files w0) ⊆ dom (files w) ∪ paths f1).
      { rewrite Hf0. unfold paths. set_solver. }
      destruct r0 as [[]|e]; [|exact Hinv0].
      apply wp_bind, wp_lift, wp_subprocess_run.
      intros r w2 _ _ _ _ Hd2 _ _.
      pose proof (of_path_python (executable (machine w1)) name) as Hout.
      rewrite <- Htemp in Hout. simpl in Hd2.
      assert (Hinv : dom (files w2) ⊆ dom (files w) ∪ paths f1).
      { unfold paths in *. set_solver. }
      destruct r as [rc|e]; [|exact Hinv].
      apply wp_bind, wp_lift, wp_tracker_stop.
      intros r3 w3 _ _ Hf3 _.
      assert (Hinv3 : dom (files w3) ⊆ dom (files w) ∪ paths f1)
        by (rewrite Hf3; exact Hinv).
      destruct r3 as [e|e]; [apply wp_ret|]; exact Hinv3.
    + simpl. unfold paths. set_solver.
  - destruct (_ || _).
    + apply wp_bind. destruct (clean_code_str c) as (c' & ->). apply wp_ret.
      apply wp_bind, wp_with_temp_file.
      intros [name|e] f1 w1 _ _ _ Hexec Hd1 Hname.
      * destruct (Hname name eq_refl) as (Htemp & _ & Hflag).
        set (exec := replace _ "" name).
        apply wp_bind, wp_modify, wp_bind, wp_lift, wp_subprocess_run.
        intros r w2 _ _ _ _ Hd2 _ _. cbn [fst snd] in *.
        rewrite (output_path_gcc name exec Hflag) in Hd2.
        assert (Hinv : dom (files w2)
                       ⊆ dom (files w)
                         ∪ paths {| temp_file := temp_file f1; exec_file := Some exec |}).
        { unfold paths. simpl. set_solver. }
        destruct r as [rc|e]; [|exact Hinv].
        destruct (negb _); [apply wp_ret; exact Hinv|].
        apply wp_lift, wp_tracker.
        -- simpl. destruct (String.eqb exec "-o"); reflexivity.
        -- intros q w3 _ _ Hf3 _. simpl. rewrite Hf3. exact Hinv.
      * simpl. unfold paths. set_solver.
    + apply wp_lift, wp_tracker; [reflexivity|].
      intros q w3 _ _ Hf3 _. simpl. rewrite Hf3. apply union_subseteq_l.
Qed.




Example estimator_swallows_none_language :
  fst (run_code_and_track_emissions (PyStr "x = 1") (PyDict []) PyNone
         (boot laptop [] []))
  = Return 0.
Proof. reflexivity. Qed.

(** C5: when the language is C or C++ and the compiler exits with a
    status other than 0, the estimator returns exactly 0 and does not
    raise. *)
Theorem compile_failure_is_zero (c : string) (test_params : pyval) (s : string)
    (w : world) (d : Q) (rc : Z) (out : bool) (ps : list proc) :
  lower s = "c"%string \/ lower s = "cpp"%string ->
  procs w = Exits d rc out :: ps ->
  rc <> 0%Z ->
  exists w',
    run_code_and_track_emissions (PyStr c) test_params (PyStr s) w = (Return 0, w').
Proof.
  intros Hlang Hprocs Hrc.
  destruct (String.eqb (strip c) "") eqn:Hblank.
  - exists (log EvEstimate w).
    unfold run_code_and_track_emissions, bind, modify. rewrite Hblank. reflexivity.
  - destruct (run_code_unfold c test_params (PyStr s) w Hblank)
      as (r & f & w1 & w2 & Hbody & _ & _ & Hrun).
    exists w2. rewrite Hrun.
    destruct r as [q|e]; [|reflexivity].
    rewrite (wp_run _ _ _ _ _
               (estimator_try_compile_fails c test_params s _ (log EvEstimate w)
                  d rc out ps Hlang Hprocs Hrc)
               Hbody q eq_refl).
    reflexivity.
Qed.

Lemma compile_failure_is_zero_witness :
  exists w',
    run_code_and_track_emissions (PyStr "int main( {") (PyDict []) (PyStr "cpp")
      (boot laptop [Exits (1 # 2) 1 false] [TmpFile "/tmp" "k3x9_q0a" true])
    = (Return 0, w').
Proof.
  apply (compile_failure_is_zero _ _ _ _ (1 # 2) 1%Z false []).
  - right. reflexivity.
  - reflexivity.
  - discriminate.
Defined.


Example estimator_cleans_up_run :
  let w := boot laptop [Exits 2 0 true; Exits 36 0 false; Exits 400 0 false]
                [TmpFile "/tmp" "k3x9_q0a" true] in
  let w1 := snd (lift (subprocess_run ["gcc"; "/tmp/tmpk3x9_q0a.c"; "-o"; "/tmp/tmpk3x9_q0a"] 120)
                   ({| temp_file := None; exec_file := None |}, w)) in
  files (snd w1) !! "/tmp/tmpk3x9_q0a"%string = Some Binary
  /\ files (snd (run_code_and_track_emissions (PyStr "int main(){}") (PyDict []) (PyStr "c") w))
     = ∅.
Proof. split; vm_compute; reflexivity. Qed.


Lemma tracker_no_runs_witness :
  universal_emissions_tracker ["./a.out"] (-2)
    (boot laptop [Exits 36 0 false] [])
  = (Return 0, boot laptop [Exits 36 0 false] []).
Proof. apply tracker_no_runs. lia. Defined.

(** ** The [/optimize] endpoint *)

(** C9: the guard [if not unoptimized_code] stands after the call of
    [detect_language].  For a JSON body that is an object (or is falsy,
    and so replaced by the empty object) whose [code] is falsy, hence
    not given: when a language is given, or the code is the empty
    string (also by default, the key missing), the endpoint answers 400
    with the error "No code provided for optimization"; when no
    language is given and the code is not a string ([null], [0],
    [false], [[]], [{}]), [detect_language] raises on it and the answer
    is 500.  Either way the world is as it was: the trace gains no call
    of the inference client, of the estimator or of a subprocess. *)
Theorem optimize_falsy_code (v : pyval) (d : list (string * pyval)) (w : world) :
  (if truthy v then v else PyDict []) = PyDict d ->
  truthy (dict_get "code" (PyStr "") d) = false ->
  (truthy (dict_get "language" (PyStr "") d) = true
   \/ dict_get "code" (PyStr "") d = PyStr "" ->
   optimize (Json v) w
   = (Return {| status := 400; json := Error "No code provided for optimization" |}, w))
  /\ (truthy (dict_get "language" (PyStr "") d) = false ->
      (forall s, dict_get "code" (PyStr "") d <> PyStr s) ->
      optimize (Json v) w
      = (Return {| status := 500;
                   json := ErrorOf "An unexpected error occurred: " AttributeError |}, w)).
Proof.
  intros Hdata Hcode.
  unfold optimize, try_except, optimize_try, bind, request_json, ret. simpl.
  rewrite Hdata. simpl. rewrite Hcode.
  split.
  - intros [Hlang | Hstr].
    + rewrite Hlang. reflexivity.
    + rewrite Hstr. destruct (truthy (dict_get "language" (PyStr "") d)); reflexivity.
  - intros Hlang Hstr. rewrite Hlang. simpl.
    destruct (dict_get "code" (PyStr "") d) as [| | | | s | |] eqn:E;
      try reflexivity.
    exfalso. exact (Hstr s eq_refl).
Qed.

Lemma optimize_falsy_code_witness :
  optimize (Json (PyDict [("code", PyNone)])) (boot laptop [] [])
  = (Return {| status := 500;
               json := ErrorOf "An unexpected error occurred: " AttributeError |},
     boot laptop [] [])
  /\ optimize (Json (PyDict [("code", PyNone); ("language", PyStr "python")]))
       (boot laptop [] [])
     = (Return {| status := 400; json := Error "No code provided for optimization" |},
        boot laptop [] []).
Proof.
  split.
  - apply (proj2 (optimize_falsy_code (PyDict [("code", PyNone)]) [("code", PyNone)]
                    (boot laptop [] []) eq_refl eq_refl));
      [reflexivity|discriminate].
  - apply (proj1 (optimize_falsy_code
                    (PyDict [("code", PyNone); ("language", PyStr "python")])
                    [("code", PyNone); ("language", PyStr "python")]
                    (boot laptop [] []) eq_refl eq_refl)).
    left. reflexivity.
Defined.

Example optimize_missing_code :
  fst (optimize (Json PyNone) (boot laptop [] []))
  = Return {| status := 400; json := Error "No code provided for optimization" |}.
Proof. reflexivity. Qed.

(** A [code] that is JSON [null] with no language given does not reach
    the guard: [detect_language] raises on it. *)
Example optimize_null_code :
  fst (optimize (Json (PyDict [("code", PyNone)])) (boot laptop [] []))
  = Return {| status := 500;
              json := ErrorOf "An unexpected error occurred: " AttributeError |}.
Proof. reflexivity. Qed.

Example optimize_calls_estimator_and_client :
  trace (snd (optimize (Json (PyDict [("code", PyStr "x = 1"); ("language", PyStr "go")]))
                (boot laptop [] [])))
  = [EvChat; EvSpawn ["echo"; "ok"] 300; EvEstimate].
Proof. reflexivity. Qed.

(** * Further properties *)

(** ** Strings *)

Lemma lower_char_idempotent c : lower_char (lower_char c) = lower_char c.
Proof. destruct c as [[] [] [] [] [] [] [] []]; reflexivity. Qed.

Lemma lower_idempotent s : lower (lower s) = lower s.
Proof.
  induction s as [|c s IH]; simpl; [reflexivity|].
  rewrite lower_char_idempotent, IH. reflexivity.
Qed.

Lemma lstrip_blank s :
  forallb is_space (list_ascii_of_string s) = true -> lstrip s = ""%string.
Proof.
  induction s as [|c s IH]; simpl; [reflexivity|].
  intros H. apply andb_prop in H. destruct H as [-> H]. apply IH, H.
Qed.

Lemma lstrip_head s :
  lstrip s = ""%string /\ forallb is_space (list_ascii_of_string s) = true
  \/ exists c t, lstrip s = String c t /\ is_space c = false.
Proof.
  induction s as [|c s IH]; simpl.
  - left. split; reflexivity.
  - destruct (is_space c) eqn:Hc.
    + destruct IH as [[-> H]|H]; [left; split; [reflexivity|exact H]|right; exact H].
    + right. exists c, s. split; [reflexivity|exact Hc].
Qed.

(** [s.strip()] is empty exactly when [s] has only whitespace. *)
Lemma strip_blank_iff s :
  strip s = ""%string <-> forallb is_space (list_ascii_of_string s) = true.
Proof.
  unfold strip. split.
  - intros H. destruct (lstrip_head s) as [[_ Hs]|(c & t & E & Hc)]; [exact Hs|].
    rewrite E in H. simpl in H. rewrite Hc in H. discriminate H.
  - intros H. rewrite (lstrip_blank s H). reflexivity.
Qed.

Lemma list_ascii_of_string_app a b :
  list_ascii_of_string (a ++ b)%string
  = list_ascii_of_string a ++ list_ascii_of_string b.
Proof. induction a as [|c a IH]; simpl; [reflexivity|]. rewrite IH. reflexivity. Qed.

(** ** Cleaning model output *)

Lemma rev_string_chars acc s :
  list_ascii_of_string (rev_string acc s)
  = rev (list_ascii_of_string s) ++ list_ascii_of_string acc.
Proof.
  revert acc. induction s as [|c s IH]; intros acc; simpl; [reflexivity|].
  rewrite IH. simpl. rewrite <- app_assoc. reflexivity.
Qed.

Lemma forallb_rev_true {A} (f : A -> bool) l :
  forallb f l = true -> forallb f (rev l) = true.
Proof.
  intros H. apply forallb_forall. intros x Hx.
  apply (proj1 (forallb_forall f l) H). apply in_rev. exact Hx.
Qed.

Lemma one_line_rev cur :
  forallb (fun c => negb (breaks_line c)) (list_ascii_of_string cur) = true ->
  one_line (rev_string "" cur) = true.
Proof.
  intros H. unfold one_line. rewrite rev_string_chars. simpl. rewrite app_nil_r.
  apply forallb_rev_true, H.
Qed.

(** No line that [splitlines] returns contains a line boundary. *)
Lemma splitlines_from_one_line n : forall s cur,
  (String.length s <= n)%nat ->
  forallb (fun c => negb (breaks_line c)) (list_ascii_of_string cur) = true ->
  forallb one_line (splitlines_from cur s) = true.
Proof.
  assert (Hend : forall cur,
             forallb (fun c => negb (breaks_line c)) (list_ascii_of_string cur) = true ->
             forallb one_line (splitlines_from cur "") = true).
  { intros cur Hcur. cbn [splitlines_from].
    destruct cur as [|a cur]; [reflexivity|].
    cbn [forallb]. rewrite (one_line_rev _ Hcur). reflexivity. }
  induction n as [|n IH]; intros s cur Hlen Hcur.
  - destruct s; [|simpl in Hlen; lia]. apply Hend, Hcur.
  - destruct s as [|c s]; [apply Hend, Hcur|].
    simpl in Hlen. cbn [splitlines_from].
    destruct (nat_of_ascii c =? 13)%nat eqn:Hcr.
    + cbn [forallb]. rewrite (one_line_rev _ Hcur). cbn [andb].
      destruct s as [|c' s']; [reflexivity|].
      destruct (is_newline c').
      * apply IH; [simpl in Hlen; lia|reflexivity].
      * apply IH; [lia|reflexivity].
    + destruct (is_linebreak c) eqn:Hlb.
      * cbn [forallb]. rewrite (one_line_rev _ Hcur). cbn [andb].
        apply IH; [lia|reflexivity].
      * apply IH; [lia|]. simpl. unfold breaks_line. rewrite Hlb, Hcr. exact Hcur.
Qed.

Lemma splitlines_one_line s : forallb one_line (splitlines s) = true.
Proof. exact (splitlines_from_one_line (String.length s) s "" (le_n _) eq_refl). Qed.

Lemma clean_code_kept_lines (c : string) :
  exists lines,
    clean_code (PyStr c) = Return (join_lines lines)
    /\ forallb clean_line lines = true.
Proof.
  unfold clean_code. destruct (negb (truthy (PyStr c))).
  - exists []. split; reflexivity.
  - eexists. split; [reflexivity|].
    apply forallb_forall. intros l Hl.
    apply list_elem_of_In, list_elem_of_filter in Hl. destruct Hl as [Hkeep Hin].
    apply Is_true_true, andb_prop in Hkeep. destruct Hkeep as [Hstrip Hcomm].
    apply list_elem_of_In in Hin.
    unfold clean_line. rewrite Hstrip, Hcomm, !andb_true_r.
    exact (proj1 (forallb_forall one_line _) (splitlines_one_line _) l Hin).
Qed.

(** X1: what [clean_code] returns for a string is a list of lines joined
    by newlines, where no line is blank, none contains a line boundary
    and none starts as commentary ([Energy] after optional whitespace,
    [Complexity] or [Optimizations]). *)
Theorem clean_code_lines (c : string) :
  exists lines,
    clean_code (PyStr c) = Return (join_lines lines)
    /\ forallb clean_line lines = true.
Proof. exact (clean_code_kept_lines c). Qed.

Example clean_code_lines_run :
  clean_code (PyStr "```python
def f(x):

    **Note** return x
1. first step
Complexity: O(1)
```") = Return "def f(x):
     return x".
Proof. vm_compute. reflexivity. Qed.

Lemma append_empty_r s : (s ++ "")%string = s.
Proof.
  induction s as [|c s IH]; [reflexivity|].
  change (String c (s ++ "")%string = String c s). rewrite IH. reflexivity.
Qed.

Lemma join_lines_head l ls : exists rest, join_lines (l :: ls) = (l ++ rest)%string.
Proof.
  unfold join_lines. destruct ls as [|l' ls].
  - exists ""%string. rewrite append_empty_r. reflexivity.
  - eexists. reflexivity.
Qed.

Lemma clean_code_not_blank (v : pyval) (r : string) :
  clean_code v = Return r ->
  r = ""%string \/ strip r <> ""%string.
Proof.
  intros H.
  assert (Hstr : exists c, clean_code (PyStr c) = Return r).
  { unfold clean_code in H. destruct (negb (truthy v)) eqn:Hv.
    - injection H as <-. exists ""%string. reflexivity.
    - destruct v; try discriminate H. exists s. unfold clean_code.
      simpl in Hv. simpl. rewrite Hv. exact H. }
  destruct Hstr as (c & Hc).
  destruct (clean_code_kept_lines c) as (lines & E & Hlines).
  rewrite E in Hc. injection Hc as <-.
  destruct lines as [|l ls]; [left; reflexivity|right].
  simpl in Hlines. apply andb_prop in Hlines. destruct Hlines as [Hl _].
  unfold clean_line in Hl. apply andb_prop in Hl. destruct Hl as [Hl _].
  apply andb_prop in Hl. destruct Hl as [_ Hl].
  destruct (join_lines_head l ls) as (rest & ->).
  intros Hblank. apply strip_blank_iff in Hblank.
  rewrite list_ascii_of_string_app, forallb_app in Hblank.
  apply andb_prop in Hblank. destruct Hblank as [Hblank _].
  apply strip_blank_iff in Hblank. rewrite Hblank in Hl. discriminate Hl.
Qed.

(** X2: what [clean_code] returns, for any value, is either the empty
    string or a string with a character that is not whitespace: it is
    never blank without being empty. *)
Theorem clean_code_empty_or_visible (v : pyval) (r : string) :
  clean_code v = Return r ->
  r = ""%string \/ strip r <> ""%string.
Proof. exact (clean_code_not_blank v r). Qed.

Lemma clean_code_empty_or_visible_witness :
  ("x = 1" = "" \/ strip "x = 1" <> "")%string.
Proof.
  apply (clean_code_empty_or_visible (PyStr "```python
x = 1
```")).
  vm_compute. reflexivity.
Defined.

(** ** Language detection *)

(** X3: for strings, [detect_language] answers with one of five tags
    (never with [cpp]); its [prompt] argument has no influence on the
    answer, and with an empty [code], as [/codegen] calls it, the answer
    is [python] whatever the prompt says. *)
Theorem detect_language_ignores_prompt (code prompt : string) :
  (exists tag,
      detect_language (PyStr code) (PyStr prompt) = Return tag
      /\ In tag ["c"; "java"; "javascript"; "sql"; "python"]%string)
  /\ detect_language (PyStr code) (PyStr prompt) = detect_language (PyStr code) (PyStr "")
  /\ detect_language (PyStr "") (PyStr prompt) = Return "python"%string.
Proof.
  unfold detect_language. split; [|split; [|reflexivity]].
  - destruct (any_in _ (lower code));
      [eexists; split; [reflexivity|simpl; tauto]|].
    destruct (contains _ (lower code));
      [eexists; split; [reflexivity|simpl; tauto]|].
    destruct (any_in _ (lower code));
      [eexists; split; [reflexivity|simpl; tauto]|].
    destruct (any_in _ (lower code));
      [eexists; split; [reflexivity|simpl; tauto]|].
    destruct (negb _); eexists; (split; [reflexivity|simpl; tauto]).
  - repeat (match goal with |- context [if ?b then _ else _] => destruct b end;
            try reflexivity).
Qed.

(** ** The generic timing loop: resources and bounds *)

Lemma advances_refl w : advances 0 0 w w.
Proof.
  unfold advances. repeat split; try reflexivity.
  - lra.
  - exists []. repeat split. apply Nat.le_refl.
Qed.

Lemma advances_trans t1 k1 t2 k2 w w1 w2 :
  advances t1 k1 w w1 -> advances t2 k2 w1 w2 -> advances (t1 + t2) (k1 + k2) w w2.
Proof.
  intros (Hm1 & Hc1 & Hp1 & Hk1 & Ht1 & Hn1 & evs1 & He1 & Hs1 & Hl1)
         (Hm2 & Hc2 & Hp2 & Hk2 & Ht2 & Hn2 & evs2 & He2 & Hs2 & Hl2).
  unfold advances. split; [congruence|]. split; [congruence|].
  split; [etransitivity; eassumption|]. split; [etransitivity; eassumption|].
  split; [etransitivity; eassumption|]. split; [lra|].
  exists (evs2 ++ evs1). split; [rewrite He2, He1, app_assoc; reflexivity|].
  split; [rewrite forallb_app, Hs1, Hs2; reflexivity|].
  rewrite length_app. lia.
Qed.

Lemma advances_weaken t k t' k' w w' :
  t <= t' -> (k <= k')%nat -> advances t k w w' -> advances t' k' w w'.
Proof.
  intros Ht Hk (Hm & Hc & Hp & Hcb & Htm & Hn & evs & He & Hs & Hl).
  unfold advances. repeat split; try assumption; [lra|].
  exists evs. repeat split; [assumption..|lia].
Qed.

Lemma suffix_tail {A} (l : list A) : tail l `suffix_of` l.
Proof. destruct l as [|x l]; [reflexivity|]. simpl. apply suffix_cons_r. reflexivity. Qed.

(** What one [subprocess.run] changes. *)
Lemma wp_subprocess_run_frame cmd timeout (Q : result Z -> world -> Prop) w :
  (forall r w',
      machine w' = machine w -> temps w' = temps w -> carbon w' = carbon w ->
      chats w' = chats w -> procs w' = tl (procs w) ->
      trace w' = EvSpawn cmd timeout :: trace w ->
      (0 <= timeout -> now w' <= now w + timeout) ->
      (forallb nonneg_proc (procs w) = true -> 0 <= timeout -> now w <= now w') ->
      Q r w') ->
  wp (subprocess_run cmd timeout) Q w.
Proof.
  intros H. unfold wp, subprocess_run. simpl.
  destruct (procs w) as [|[|d rc out|d out] ps] eqn:Hp; simpl.
  1, 2: apply H; simpl; rewrite ?Hp; try reflexivity; intros; lra.
  all: set (w1 := emit_output cmd out (set_procs ps (log (EvSpawn cmd timeout) w))).
  all: assert (Hm : machine w1 = machine w)
      by (unfold w1; rewrite machine_emit_output; reflexivity).
  all: assert (Hps : procs w1 = ps)
      by (unfold w1; rewrite procs_emit_output; reflexivity).
  all: assert (Hn : now w1 = now w)
      by (unfold w1; rewrite now_emit_output; reflexivity).
  all: assert (Htr : trace w1 = EvSpawn cmd timeout :: trace w)
      by (unfold w1; rewrite trace_emit_output; reflexivity).
  all: assert (Ht : temps w1 = temps w)
      by (unfold w1, emit_output; destruct (output_path cmd); [destruct out|]; reflexivity).
  all: assert (Hc : carbon w1 = carbon w)
      by (unfold w1, emit_output; destruct (output_path cmd); [destruct out|]; reflexivity).
  all: assert (Hch : chats w1 = chats w)
      by (unfold w1, emit_output; destruct (output_path cmd); [destruct out|]; reflexivity).
  all: destruct (Qle_bool d timeout) eqn:Hd; simpl; apply H; simpl; try assumption;
    rewrite ?Hn.
  1, 5: intros _; apply Qle_bool_iff in Hd; lra.
  1, 4: intros Hnn _; simpl in Hnn; apply andb_prop in Hnn; destruct Hnn as [Hnn _];
    apply Qle_bool_iff in Hnn; lra.
  1, 3: intros _; lra.
  all: intros _ Ht0; lra.
Qed.

Lemma skipn_tail {A} k (l : list A) : skipn k (tl l) = skipn (S k) l.
Proof. destruct l as [|x l]; [destruct k; reflexivity|reflexivity]. Qed.

Lemma forallb_skipn {A} (f : A -> bool) k : forall l,
  forallb f l = true -> forallb f (skipn k l) = true.
Proof.
  induction k as [|k IH]; intros [|x l] H; simpl; try assumption; try reflexivity.
  apply IH. simpl in H. apply andb_prop in H. tauto.
Qed.

(** The loop, however it ends, has spawned the command some [k <= n]
    times, consumed [k] entries of the process script and waited at most
    [300 * k] seconds. *)
Lemma timing_loop_resources n cmd c p g : forall acc w,
  wp (timing_loop n cmd c p g acc)
     (fun _ w' =>
        machine w' = machine w /\ temps w' = temps w /\ carbon w' = carbon w
        /\ chats w' = chats w
        /\ exists k, (k <= n)%nat
             /\ trace w' = repeat (EvSpawn cmd 300) k ++ trace w
             /\ procs w' = skipn k (procs w)
             /\ now w' <= now w + 300 * inject_Z (Z.of_nat k)
             /\ (forallb nonneg_proc (procs w) = true -> now w <= now w')) w.
Proof.
  induction n as [|n IH]; intros acc w.
  - simpl. apply wp_ret. repeat split. exists O. simpl. repeat split;
      [lia|change (inject_Z (Z.of_nat 0)) with 0; lra|intros _; lra].
  - cbn [timing_loop]. apply wp_bind. unfold timed_run.
    apply wp_bind, wp_gets, wp_bind, wp_subprocess_run_frame.
    intros r w1 Hm Ht Hc Hch Hp Htr Hn Hmono.
    assert (H300 : 0 <= 300) by discriminate.
    assert (Hone : machine w1 = machine w /\ temps w1 = temps w /\ carbon w1 = carbon w
                   /\ chats w1 = chats w
                   /\ exists k, (k <= S n)%nat
                        /\ trace w1 = repeat (EvSpawn cmd 300) k ++ trace w
                        /\ procs w1 = skipn k (procs w)
                        /\ now w1 <= now w + 300 * inject_Z (Z.of_nat k)
                        /\ (forallb nonneg_proc (procs w) = true -> now w <= now w1)).
    { repeat split; try assumption. exists 1%nat.
      repeat split; [lia|exact Htr|rewrite Hp; destruct (procs w); reflexivity| |].
      - specialize (Hn H300). change (inject_Z (Z.of_nat 1)) with 1. lra.
      - intros Hnn. apply Hmono; assumption. }
    destruct r as [rc|e]; [|exact Hone].
    apply wp_bind, wp_gets, wp_ret.
    eapply wp_mono; [apply IH|]. simpl.
    intros _ w2 (Hm2 & Ht2 & Hc2 & Hch2 & k & Hk & Htr2 & Hp2 & Hn2 & Hmono2).
    repeat split; try congruence.
    exists (S k). repeat split.
    + lia.
    + rewrite Htr2, Htr. apply repeat_snoc.
    + rewrite Hp2, Hp. apply skipn_tail.
    + specialize (Hn H300). rewrite Nat2Z.inj_succ, <- Z.add_1_r, inject_Z_plus.
      change (inject_Z 1) with 1. lra.
    + intros Hnn. specialize (Hmono Hnn H300).
      assert (Hnn1 : forallb nonneg_proc (procs w1) = true).
      { rewrite Hp. destruct (procs w) as [|pr ps]; [reflexivity|].
        simpl in Hnn. apply andb_prop in Hnn. tauto. }
      specialize (Hmono2 Hnn1). lra.
Qed.

Lemma tracker_frame (cmd : list string) (num_runs : Z) (w : world) :
  exists q w' k,
    universal_emissions_tracker cmd num_runs w = (Return q, w')
    /\ (k <= Z.to_nat num_runs)%nat
    /\ trace w' = repeat (EvSpawn cmd 300) k ++ trace w
    /\ procs w' = skipn k (procs w)
    /\ now w' <= now w + 300 * inject_Z (Z.of_nat k)
    /\ machine w' = machine w /\ temps w' = temps w
    /\ carbon w' = carbon w /\ chats w' = chats w.
Proof.
  destruct (tracker_unfold cmd num_runs w) as (p & g & _ & ->).
  pose proof (timing_loop_resources (Z.to_nat num_runs) cmd (cpu_count (machine w))
                p g [] w) as H.
  unfold wp in H.
  destruct (timing_loop _ _ _ _ _ _ _) as [r w'].
  simpl in H. destruct H as (Hm & Ht & Hc & Hch & k & Hk & Htr & Hp & Hn & _).
  assert (Hq : exists q,
             match r with
             | Return [] => (Return 0, w')
             | Return (x :: l) => (Return (statistics_mean (x :: l)), w')
             | Raise _ => (Return 0, w')
             end = (Return q, w')).
  { destruct r as [[|x l]|e]; eexists; reflexivity. }
  destruct Hq as (q & ->).
  exists q, w', k. repeat split; assumption.
Qed.

(** X4: the tracker never raises.  However it ends, it has run the given
    command, and nothing else, some [k <= num_runs] times with the 300
    second limit, has consumed [k] process behaviours, and has waited at
    most [300 * k] seconds; the host and the other scripts are as
    before. *)
Theorem tracker_resources (cmd : list string) (num_runs : Z) (w : world) :
  exists q w' k,
    universal_emissions_tracker cmd num_runs w = (Return q, w')
    /\ (k <= Z.to_nat num_runs)%nat
    /\ trace w' = repeat (EvSpawn cmd 300) k ++ trace w
    /\ procs w' = skipn k (procs w)
    /\ now w' <= now w + 300 * inject_Z (Z.of_nat k)
    /\ machine w' = machine w /\ temps w' = temps w
    /\ carbon w' = carbon w /\ chats w' = chats w.
Proof. exact (tracker_frame cmd num_runs w). Qed.

Example tracker_resources_run :
  trace (snd (universal_emissions_tracker ["./a.out"] 3
                (boot laptop [Exits 36 0 false; Exits 301 0 false; Exits 36 0 false] [])))
  = repeat (EvSpawn ["./a.out"] 300) 2.
Proof. reflexivity. Qed.

Lemma statistics_mean_le b x l :
  Forall (fun y => y <= b) (x :: l) -> statistics_mean (x :: l) <= b.
Proof.
  intros H. unfold statistics_mean.
  apply Qle_shift_div_r; [apply count_positive|].
  assert (Hsum : forall l', Forall (fun y => y <= b) l' ->
                            py_sum l' <= b * inject_Z (Z.of_nat (length l'))).
  { induction 1 as [|y l' Hy _ IH].
    - unfold py_sum. simpl. change (inject_Z (Z.of_nat 0)) with 0. lra.
    - rewrite py_sum_cons. cbn [length].
      rewrite Nat2Z.inj_succ, <- Z.add_1_r, inject_Z_plus.
      change (inject_Z 1) with 1. lra. }
  apply Hsum, H.
Qed.

Lemma samples_bounded c p g l ps :
  0 <= total_watts (c, p, g) ->
  Forall2 (sample_of c p g) l ps ->
  Forall (fun x => x <= co2_kg (energy_kwh c p g 300)) l.
Proof.
  intros Hw HF.
  induction HF as [|x pr l ps Hs _ IH]; constructor; [|exact IH].
  destruct Hs as (d & rc & out & elapsed & energy & -> & Hd & He & Hen & Hco).
  assert (Hx : x == total_watts (c, p, g) * d * (475 # 3600000)).
  { rewrite Hco, Hen, He. unfold total_watts. field. }
  rewrite Hx, co2_as_product.
  apply Qmult_le_compat_r; [|discriminate].
  rewrite !(Qmult_comm (total_watts _)).
  apply Qmult_le_compat_r; assumption.
Qed.

(** X5: on a host whose GPU memory sizes are not negative and with
    process durations that are not negative, the estimate of the tracker
    lies between 0 and the CO2 value of one run of 300 seconds. *)
Theorem tracker_bounds (cmd : list string) (num_runs : Z) (w : world) :
  nonneg_host (machine w) = true ->
  forallb nonneg_proc (procs w) = true ->
  exists c p g q w',
    get_system_wattage w = (Return (c, p, g), w)
    /\ universal_emissions_tracker cmd num_runs w = (Return q, w')
    /\ 0 <= q /\ q <= co2_kg (energy_kwh c p g 300).
Proof.
  intros Hh Hps.
  destruct (tracker_unfold cmd num_runs w) as (p & g & Hprobe & ->).
  pose proof (probe_nonneg _ _ _ _ Hh Hprobe) as Hw.
  assert (Hzero : 0 <= co2_kg (energy_kwh (cpu_count (machine w)) p g 300)).
  { rewrite co2_as_product.
    apply Qmult_le_0_compat; [apply Qmult_le_0_compat; [exact Hw|]|]; discriminate. }
  exists (cpu_count (machine w)), p, g.
  destruct (timing_loop _ _ _ _ _ _ _) as [[l|e] w'] eqn:Hloop.
  - destruct (timing_loop_returns _ _ _ _ _ _ _ _ _ Hloop) as (new & -> & HF & _).
    simpl app. destruct new as [|x new].
    + exists 0, w'. repeat split; [exact Hprobe|lra|exact Hzero].
    + eexists; exists w'. split; [exact Hprobe|]. split; [reflexivity|]. split.
      * apply statistics_mean_nonneg.
        eapply samples_nonneg; [exact Hw| |exact HF]. apply forallb_firstn, Hps.
      * apply statistics_mean_le. eapply samples_bounded; [exact Hw|exact HF].
  - exists 0, w'. repeat split; [exact Hprobe|lra|exact Hzero].
Qed.

Lemma tracker_bounds_witness :
  exists c p g q w',
    get_system_wattage (boot gaming_pc [Exits 36 0 false; Exits 290 0 false] [])
    = (Return (c, p, g), boot gaming_pc [Exits 36 0 false; Exits 290 0 false] [])
    /\ universal_emissions_tracker ["./a.out"] 2
         (boot gaming_pc [Exits 36 0 false; Exits 290 0 false] [])
       = (Return q, w')
    /\ 0 <= q /\ q <= co2_kg (energy_kwh c p g 300).
Proof. apply tracker_bounds; reflexivity. Defined.

Lemma py_sum_fold_right l : py_sum l == fold_right Qplus 0 l.
Proof.
  induction l as [|x l IH]; [reflexivity|].
  rewrite py_sum_cons, IH. reflexivity.
Qed.

Lemma samples_sum c p g l ps :
  Forall2 (sample_of c p g) l ps ->
  py_sum l == total_watts (c, p, g) * py_sum (map duration ps) * (475 # 3600000).
Proof.
  induction 1 as [|x pr l ps Hs _ IH].
  - unfold py_sum. simpl. ring.
  - destruct Hs as (d & rc & out & elapsed & energy & -> & _ & He & Hen & Hco).
    cbn [map duration]. rewrite !py_sum_cons, IH, Hco, Hen, He.
    unfold total_watts. field.
Qed.

(** X6: when all [num_runs > 0] runs complete (each child ends within
    300 seconds and what it printed decodes as text, so that
    [subprocess.run] returns), the estimate is the CO2 value of a single
    run that lasts the mean of their durations; so it depends on the
    durations only through their sum: [num_runs] times the estimate is
    [(cpu_power_w * cpu_count + gpu_power_w) * total / 3600 * 0.475] for
    the total [total] of the durations. *)
Theorem tracker_mean_duration (cmd : list string) (num_runs : Z) (w : world) :
  (0 < num_runs)%Z ->
  all_complete (Z.to_nat num_runs) w = true ->
  exists c p g q w',
    get_system_wattage w = (Return (c, p, g), w)
    /\ universal_emissions_tracker cmd num_runs w = (Return q, w')
    /\ q == co2_kg (energy_kwh c p g
                      (statistics_mean
                         (map duration (firstn (Z.to_nat num_runs) (procs w)))))
    /\ q * inject_Z num_runs
       == (p * inject_Z (Z.of_N c) + g)
          * fold_right Qplus 0 (map duration (firstn (Z.to_nat num_runs) (procs w)))
          / 3600 * (475 # 1000).
Proof.
  intros Hpos Hall.
  destruct (tracker_unfold cmd num_runs w) as (p & g & Hprobe & ->).
  exists (cpu_count (machine w)), p, g.
  destruct (timing_loop_completes _ cmd (cpu_count (machine w)) p g [] w Hall)
    as (l & w' & Hloop).
  rewrite Hloop.
  destruct (timing_loop_returns _ _ _ _ _ _ _ _ _ Hloop) as (new & -> & HF & _).
  simpl app.
  pose proof (samples_length _ _ _ _ _ HF) as Hl.
  pose proof (samples_sum _ _ _ _ _ HF) as Hsum.
  unfold all_complete in Hall. apply andb_prop in Hall. destruct Hall as [Hlen _].
  apply Nat.leb_le in Hlen.
  set (ps := firstn (Z.to_nat num_runs) (procs w)) in *.
  assert (Hps : length ps = Z.to_nat num_runs).
  { unfold ps. rewrite length_firstn. apply Nat.min_l, Hlen. }
  destruct new as [|x new]; [simpl in Hl; lia|].
  pose proof (count_positive x new) as Hcount.
  assert (Hn : inject_Z num_runs == inject_Z (Z.of_nat (length (x :: new)))).
  { rewrite Hl, Hps, Z2Nat.id by lia. reflexivity. }
  eexists; exists w'. split; [exact Hprobe|]. split; [reflexivity|]. split.
  - rewrite co2_as_product. unfold statistics_mean at 1 2.
    rewrite Hsum, length_map, <- Hl.
    field. intros E. rewrite E in Hcount. apply (Qlt_irrefl 0), Hcount.
  - rewrite Hn. unfold statistics_mean.
    rewrite Hsum, (py_sum_fold_right (map duration ps)).
    unfold total_watts, of_count.
    field. intros E. rewrite E in Hcount. apply (Qlt_irrefl 0), Hcount.
Qed.

Lemma tracker_mean_duration_witness :
  exists c p g q w',
    get_system_wattage (boot laptop [Exits 30 0 false; Exits 60 0 false; Exits 90 0 false] [])
    = (Return (c, p, g), boot laptop [Exits 30 0 false; Exits 60 0 false; Exits 90 0 false] [])
    /\ universal_emissions_tracker ["./a.out"] 3
         (boot laptop [Exits 30 0 false; Exits 60 0 false; Exits 90 0 false] [])
       = (Return q, w')
    /\ q == co2_kg (energy_kwh c p g (statistics_mean [30; 60; 90]))
    /\ q * 3 == (p * inject_Z (Z.of_N c) + g) * (30 + (60 + (90 + 0))) / 3600 * (475 # 1000).
Proof. apply tracker_mean_duration; [lia|reflexivity]. Defined.

(** ** The estimator: further behaviour *)

Lemma wp_of_run {St A} (m : M St A) (Q : result A -> St -> Prop) s r s' :
  m s = (r, s') -> Q r s' -> wp m Q s.
Proof. unfold wp. intros ->. exact (fun H => H). Qed.

Lemma estimator_blank (c : string) (test_params language : pyval) (w : world) :
  forallb is_space (list_ascii_of_string c) = true ->
  run_code_and_track_emissions (PyStr c) test_params language w
  = (Return 0, log EvEstimate w).
Proof.
  intros H. apply strip_blank_iff in H.
  unfold run_code_and_track_emissions, bind, modify. rewrite H. reflexivity.
Qed.

(** X7: for a code that is empty or has only whitespace the estimator
    returns 0 at once: nothing but the record of the call changes in
    the world (no temporary file, no process), and neither the test
    parameters nor the language are looked at. *)
Theorem estimator_blank_code (c : string) (test_params language : pyval) (w : world) :
  forallb is_space (list_ascii_of_string c) = true ->
  run_code_and_track_emissions (PyStr c) test_params language w
  = (Return 0, log EvEstimate w).
Proof. exact (estimator_blank c test_params language w). Qed.

Lemma estimator_blank_code_witness :
  run_code_and_track_emissions (PyStr "  ") PyNone PyNone (boot laptop [] [])
  = (Return 0, log EvEstimate (boot laptop [] [])).
Proof. apply estimator_blank_code. reflexivity. Defined.

(** X8: the language tag is matched without regard to case: a tag and
    its lower-cased form give the same result and the same world. *)
Theorem estimator_language_case (code test_params : pyval) (s : string) (w : world) :
  run_code_and_track_emissions code test_params (PyStr s) w
  = run_code_and_track_emissions code test_params (PyStr (lower s)) w.
Proof.
  unfold run_code_and_track_emissions, estimator_try, py_lower.
  rewrite lower_idempotent. reflexivity.
Qed.

(** X9: for a language tag other than [python], [c] and [cpp] (in any
    case) the estimator measures the placeholder command [echo ok]: for
    every code that is not blank and every test parameters the call is
    the tracker on [echo ok] with three runs, so it does not depend on
    the code, and the disk is untouched. *)
Theorem estimator_placeholder (s : string) (w : world) :
  lower s <> "python"%string -> lower s <> "c"%string -> lower s <> "cpp"%string ->
  exists q w',
    universal_emissions_tracker ["echo"; "ok"]%string 3 (log EvEstimate w) = (Return q, w')
    /\ files w' = files w
    /\ forall c test_params,
        strip c <> ""%string ->
        run_code_and_track_emissions (PyStr c) test_params (PyStr s) w = (Return q, w').
Proof.
  intros Hpy Hc Hcpp.
  destruct (tracker_frame ["echo"; "ok"]%string 3 (log EvEstimate w))
    as (q & w' & k & Hrun & _).
  exists q, w'. split; [exact Hrun|]. split.
  - pose proof (wp_tracker ["echo"; "ok"]%string 3
                  (fun _ w1 => files w1 = files w) (log EvEstimate w) eq_refl) as H.
    unfold wp in H. rewrite Hrun in H. apply H. intros. assumption.
  - intros c tp Hblank.
    apply String.eqb_neq in Hblank, Hpy, Hc, Hcpp.
    unfold run_code_and_track_emissions, bind at 1, modify. rewrite Hblank.
    unfold try_finally, try_except, estimator_try, bind at 1, py_lower, ret.
    rewrite Hpy, Hc, Hcpp. unfold lift, default_num_runs. simpl.
    rewrite Hrun. reflexivity.
Qed.

Lemma estimator_placeholder_witness :
  exists q w',
    universal_emissions_tracker ["echo"; "ok"]%string 3
      (log EvEstimate (boot laptop [Exits 1 0 false; Exits 1 0 false; Exits 1 0 false] []))
    = (Return q, w')
    /\ files w' = files (boot laptop [Exits 1 0 false; Exits 1 0 false; Exits 1 0 false] [])
    /\ forall c test_params,
        strip c <> ""%string ->
        run_code_and_track_emissions (PyStr c) test_params (PyStr "JavaScript")
          (boot laptop [Exits 1 0 false; Exits 1 0 false; Exits 1 0 false] [])
        = (Return q, w').
Proof. apply estimator_placeholder; discriminate. Defined.






(** The same two calls with a child that prints bytes that are not
    text: [subprocess.run] raises inside the [try], before
    [tracker.stop()], respectively inside the timing loop, and the
    estimate is 0. *)
Example estimator_undecodable_run :
  fst (run_code_and_track_emissions (PyStr "def f(): pass") (PyDict []) (PyStr "Python")
         {| machine := laptop; now := 0; files := ∅;
            procs := [Garbled 2 false]; temps := [TmpFile "/tmp" "k3x9_q0a" true];
            carbon := [TrackerStops (Some (1 # 1000))]; chats := []; trace := [] |})
  = Return 0
  /\ fst (run_code_and_track_emissions (PyStr "int main(){}") PyNone (PyStr "c")
            (boot laptop [Exits 100 0 true; Garbled 2 false; Exits 2 0 false;
                          Exits 2 0 false]
                         [TmpFile "/tmp" "k3x9_q0a" true]))
     = Return 0.
Proof. split; reflexivity. Qed.

(** *** What a call of the estimator costs *)

Lemma wp_try_finally {St A} (body : M St A) cleanup (Q : result A -> St -> Prop) s :
  wp body (fun r s' =>
             wp cleanup (fun rc s'' => match rc with
                                       | Return _ => Q r s''
                                       | Raise e => Q (Raise e) s''
                                       end) s') s ->
  wp (try_finally body cleanup) Q s.
Proof.
  unfold wp, try_finally. destruct (body s) as [r s']. simpl.
  destruct (cleanup s') as [[u|e] s'']; simpl; exact (fun H => H).
Qed.

Lemma wp_with_temp_file_adv suffix c (Q : result string -> frame * world -> Prop) f w :
  (forall r f' w', advances 0 0 w w' -> Q r (f', w')) ->
  wp (with_temp_file suffix c) Q (f, w).
Proof.
  intros H. unfold wp, with_temp_file, bind, lift, NamedTemporaryFile, set_temp_file,
    f_write, modify, raise, ret. simpl.
  assert (Hadv : forall w', machine w' = machine w -> chats w' = chats w ->
                            procs w' = procs w -> carbon w' = carbon w ->
                            temps w' `suffix_of` temps w -> now w' = now w ->
                            trace w' = trace w -> advances 0 0 w w').
  { intros w' Hm Hc Hp Hcb Ht Hn Htr. unfold advances.
    rewrite Hm, Hc, Hp, Hcb, Hn, Htr. repeat split; try reflexivity; [exact Ht|lra|].
    exists []. repeat split. apply Nat.le_refl. }
  destruct (temps w) as [|[|dir rand ok] ts] eqn:Ht; simpl.
  - apply H, Hadv; try reflexivity; simpl; rewrite ?Ht; reflexivity.
  - apply H, Hadv; try reflexivity; simpl; rewrite ?Ht; apply suffix_cons_r; reflexivity.
  - destruct ok; simpl; apply H, Hadv; try reflexivity; simpl; rewrite ?Ht;
      apply suffix_cons_r; reflexivity.
Qed.

Lemma wp_subprocess_run_adv cmd timeout (Q : result Z -> world -> Prop) w :
  0 <= timeout ->
  (forall r w', advances timeout 1 w w' -> Q r w') ->
  wp (subprocess_run cmd timeout) Q w.
Proof.
  intros Ht H. apply wp_subprocess_run_frame.
  intros r w' Hm Htm Hc Hch Hp Htr Hn _. apply H. unfold advances.
  rewrite Hm, Htm, Hc, Hch, Hp, Htr.
  repeat split; try reflexivity; [apply suffix_tail|apply Hn, Ht|].
  exists [EvSpawn cmd timeout]. repeat split. simpl. lia.
Qed.

Lemma wp_tracker_start_adv (Q : result unit -> world -> Prop) w :
  (forall r w', advances 0 0 w w' -> Q r w') -> wp tracker_start Q w.
Proof.
  intros H. unfold wp, tracker_start.
  destruct (carbon w) as [|[|e] cs] eqn:Hc; simpl; apply H;
    try apply advances_refl.
  unfold advances. simpl. rewrite Hc.
  repeat split; try reflexivity; [apply suffix_cons_r; reflexivity|lra|].
  exists []. repeat split. apply Nat.le_refl.
Qed.

Lemma wp_tracker_stop_adv (Q : result (option Q) -> world -> Prop) w :
  (forall r w', advances 0 0 w w' -> Q r w') -> wp tracker_stop Q w.
Proof.
  intros H. unfold wp, tracker_stop.
  destruct (carbon w) as [|[|e] cs] eqn:Hc; simpl; apply H;
    try apply advances_refl;
    (unfold advances; simpl; rewrite Hc;
     repeat split; try reflexivity; [apply suffix_cons_r; reflexivity|lra|];
     exists []; repeat split; apply Nat.le_refl).
Qed.

Lemma repeat_spawns cmd t k : forallb is_spawn (repeat (EvSpawn cmd t) k) = true.
Proof. induction k as [|k IH]; simpl; [reflexivity|exact IH]. Qed.

Lemma wp_tracker_adv cmd (Q : result Q -> world -> Prop) w :
  (forall q w', advances 900 3 w w' -> Q (Return q) w') ->
  wp (universal_emissions_tracker cmd default_num_runs) Q w.
Proof.
  intros H.
  destruct (tracker_frame cmd default_num_runs w)
    as (q & w' & k & Hrun & Hk & Htr & Hp & Hn & Hm & Ht & Hc & Hch).
  eapply wp_of_run; [exact Hrun|]. apply H. unfold advances.
  rewrite Hm, Ht, Hc, Hch, Hp. change (Z.to_nat default_num_runs) with 3%nat in Hk.
  repeat split; try reflexivity; [apply suffix_drop| |].
  - assert (Hk' : inject_Z (Z.of_nat k) <= 3).
    { change 3 with (inject_Z 3). rewrite <- Zle_Qle. lia. }
    lra.
  - exists (repeat (EvSpawn cmd 300) k). split; [exact Htr|].
    split; [apply repeat_spawns|]. rewrite repeat_length. exact Hk.
Qed.

Lemma estimator_try_advances c test_params language f w :
  wp (estimator_try c test_params language)
     (fun _ s => advances 1020 4 w (snd s)) (f, w).
Proof.
  assert (H0 : forall w', advances 0 0 w w' -> advances 1020 4 w w').
  { intros w'. apply advances_weaken; [discriminate|lia]. }
  unfold estimator_try. apply wp_bind. unfold py_lower.
  destruct language; try (apply wp_raise; apply H0, advances_refl). apply wp_ret.
  destruct (String.eqb (lower s) "python").
  - apply wp_bind. unfold py_get.
    destruct test_params; try (apply wp_raise; apply H0, advances_refl). apply wp_ret.
    apply wp_bind, wp_ret, wp_bind, wp_with_temp_file_adv.
    intros [name|e] f1 w1 A1; [|apply H0, A1].
    apply wp_bind, wp_lift, wp_gets, wp_bind, wp_lift, wp_tracker_start_adv.
    intros r2 w2 A2. pose proof (advances_trans _ _ _ _ _ _ _ A1 A2) as A12.
    destruct r2 as [[]|e];
      [|simpl; revert A12; apply advances_weaken; [discriminate|lia]].
    apply wp_bind, wp_lift, wp_subprocess_run_adv; [discriminate|].
    intros r3 w3 A3. pose proof (advances_trans _ _ _ _ _ _ _ A12 A3) as A13.
    destruct r3 as [rc|e];
      [|simpl; revert A13; apply advances_weaken; [discriminate|lia]].
    apply wp_bind, wp_lift, wp_tracker_stop_adv.
    intros r4 w4 A4. pose proof (advances_trans _ _ _ _ _ _ _ A13 A4) as A14.
    destruct r4 as [e|e]; [apply wp_ret|]; simpl; revert A14;
      apply advances_weaken; try discriminate; lia.
  - destruct (_ || _).
    + apply wp_bind. destruct (clean_code_str c) as (c' & ->). apply wp_ret.
      apply wp_bind, wp_with_temp_file_adv.
      intros [name|e] f1 w1 A1; [|apply H0, A1].
      apply wp_bind, wp_modify, wp_bind, wp_lift, wp_subprocess_run_adv; [discriminate|].
      intros r2 w2 A2. cbn [fst snd] in *.
      pose proof (advances_trans _ _ _ _ _ _ _ A1 A2) as A12.
      destruct r2 as [rc|e];
        [|simpl; revert A12; apply advances_weaken; [discriminate|lia]].
      destruct (negb _);
        [apply wp_ret; simpl; revert A12; apply advances_weaken; [discriminate|lia]|].
      apply wp_lift, wp_tracker_adv.
      intros q w3 A3. pose proof (advances_trans _ _ _ _ _ _ _ A12 A3) as A13.
      simpl. revert A13. apply advances_weaken; [discriminate|lia].
    + apply wp_lift, wp_tracker_adv.
      intros q w3 A3. simpl. revert A3. apply advances_weaken; [discriminate|lia].
Qed.

Lemma wp_remove_if_exists path (Q : result unit -> world -> Prop) w :
  (forall w', advances 0 0 w w' -> files w' = without path (files w) ->
              Q (Return tt) w') ->
  wp (remove_if_exists path) Q w.
Proof.
  intros H.
  destruct (remove_if_exists_runs path w)
    as (w' & Hrun & Hf & Hm & Htr & Hp & Ht & Hc & Hch & Hn).
  eapply wp_of_run; [exact Hrun|]. apply H; [|exact Hf].
  unfold advances. rewrite Hm, Htr, Hp, Ht, Hc, Hch, Hn.
  repeat split; try reflexivity; [lra|].
  exists []. repeat split. apply Nat.le_refl.
Qed.

Lemma wp_estimator_finally (Q : result unit -> frame * world -> Prop) f w :
  (forall w', advances 0 0 w w' ->
              files w' = without (exec_file f) (without (temp_file f) (files w)) ->
              Q (Return tt) (f, w')) ->
  wp estimator_finally Q (f, w).
Proof.
  intros H. unfold estimator_finally.
  apply wp_bind, wp_gets, wp_bind, wp_lift, wp_remove_if_exists.
  intros w1 A1 Hf1. apply wp_lift, wp_remove_if_exists.
  intros w2 A2 Hf2. apply H.
  - pose proof (advances_trans _ _ _ _ _ _ _ A1 A2) as A.
    revert A. apply advances_weaken; [lra|lia].
  - simpl in Hf2. rewrite Hf2, Hf1. reflexivity.
Qed.

Lemma wp_conj {St A} (m : M St A) (Q1 Q2 : result A -> St -> Prop) s :
  wp m Q1 s -> wp m Q2 s -> wp m (fun r s' => Q1 r s' /\ Q2 r s') s.
Proof. unfold wp. auto. Qed.

Lemma suffix_forallb {A} (f : A -> bool) (l1 l2 : list A) :
  l1 `suffix_of` l2 -> forallb f l2 = true -> forallb f l1 = true.
Proof.
  intros [k ->] H. rewrite forallb_app in H. apply andb_prop in H. tauto.
Qed.

Lemma advances_well_formed t k w w' :
  advances t k w w' -> well_formed w = true -> well_formed w' = true.
Proof.
  intros (Hm & _ & Hp & Hc & _) Hwf. unfold well_formed in *.
  apply andb_prop in Hwf. destruct Hwf as [Hwf Hcarbon].
  apply andb_prop in Hwf. destruct Hwf as [Hhost Hprocs].
  rewrite Hm, Hhost, (suffix_forallb _ _ _ Hp Hprocs), (suffix_forallb _ _ _ Hc Hcarbon).
  reflexivity.
Qed.

(** Everything a caller can rely on after a call of the estimator. *)
Lemma wp_estimator code test_params language (Q : result Q -> world -> Prop) w :
  (forall r w',
      advances 1020 4 (log EvEstimate w) w' ->
      dom (files w') ⊆ dom (files w) ->
      (well_formed w = true -> forall q, r = Return q -> 0 <= q) ->
      (forall e, r = Raise e -> forall c, code <> PyStr c) ->
      Q r w') ->
  wp (run_code_and_track_emissions code test_params language) Q w.
Proof.
  intros H.
  assert (Hstay : forall r,
             (forall q, r = Return q -> q = 0) ->
             (forall e, r = Raise e -> forall c, code <> PyStr c) ->
             Q r (log EvEstimate w)).
  { intros r Hq He. apply H.
    - apply (advances_weaken 0 0); [discriminate|lia|apply advances_refl].
    - reflexivity.
    - intros _ q E. rewrite (Hq q E). lra.
    - exact He. }
  unfold run_code_and_track_emissions. apply wp_bind, wp_modify.
  destruct code as [| | | |c| |];
    try (apply wp_raise, Hstay; [discriminate|intros; discriminate]).
  destruct (String.eqb (strip c) "").
  { apply wp_ret, Hstay; [intros q E; injection E as <-; reflexivity|discriminate]. }
  set (w0 := log EvEstimate w).
  unfold wp at 1.
  assert (Hinner :
            wp (try_finally
                  (try_except (estimator_try c test_params language) (fun _ => ret 0))
                  estimator_finally)
               (fun r s => Q r (snd s))
               ({| temp_file := None; exec_file := None |}, w0)).
  { apply wp_try_finally, wp_try_except.
    eapply wp_mono.
    - apply wp_conj; [apply (estimator_try_advances c test_params language)|].
      apply wp_conj; [apply (estimator_try_files c test_params language)|].
      apply (wp_conj _ (fun r _ => well_formed w = true -> forall q, r = Return q -> 0 <= q)
               (fun _ _ => True)); [|exact I].
      unfold wp.
      destruct (well_formed w) eqn:Hwf; [|intros; discriminate].
      intros _. apply (estimator_try_nonneg c test_params language). exact Hwf.
    - intros r [f w1] (A1 & Hfiles & Hnn & _). cbn [fst snd] in *.
      assert (Hfin : forall q, (well_formed w = true -> 0 <= q) ->
                 wp estimator_finally
                    (fun rc s'' => match rc with
                                   | Return _ => Q (Return q) (snd s'')
                                   | Raise e => Q (Raise e) (snd s'')
                                   end) (f, w1)).
      { intros q Hq. apply wp_estimator_finally. intros w2 A2 Hf2. simpl.
        apply H.
        - pose proof (advances_trans _ _ _ _ _ _ _ A1 A2) as A.
          revert A. apply advances_weaken; [lra|lia].
        - rewrite Hf2, !dom_without. unfold paths in Hfiles.
          change (files w0) with (files w) in Hfiles. set_solver.
        - intros Hwf q' E. injection E as <-. apply Hq, Hwf.
        - discriminate. }
      destruct r as [q|e].
      + apply Hfin. intros Hwf. exact (Hnn Hwf q eq_refl).
      + apply wp_ret. apply Hfin. intros _. lra. }
  unfold wp in Hinner.
  destruct (try_finally _ _ _) as [r s]. exact Hinner.
Qed.

(** X12: a call of the estimator, whatever its arguments and outcome,
    spawns at most four processes (one compiler and three runs), waits
    at most 1020 seconds for them (120 + 3 * 300), and does nothing else
    that is traced: the inference client is not called and the host is
    as before. *)
Theorem estimator_resources (code test_params language : pyval) (w : world) :
  exists r w' evs,
    run_code_and_track_emissions code test_params language w = (r, w')
    /\ now w' <= now w + 1020
    /\ trace w' = evs ++ EvEstimate :: trace w
    /\ forallb is_spawn evs = true /\ (length evs <= 4)%nat
    /\ machine w' = machine w /\ chats w' = chats w.
Proof.
  pose proof (wp_estimator code test_params language
                (fun _ w' => advances 1020 4 (log EvEstimate w) w') w) as H.
  unfold wp in H.
  destruct (run_code_and_track_emissions code test_params language w) as [r w'].
  simpl in H.
  destruct H as (Hm & Hc & _ & _ & _ & Hn & evs & Htr & Hs & Hl); [auto|].
  exists r, w', evs. repeat split; assumption.
Qed.

Example estimator_resources_run :
  let w := boot laptop [Exits 100 0 true; Exits 300 0 false; Exits 300 0 false;
                        Exits 300 0 false]
                [TmpFile "/tmp" "k3x9_q0a" true] in
  let w' := snd (run_code_and_track_emissions (PyStr "int main(){}") PyNone (PyStr "c") w) in
  Qeq_bool (now w') 1000 = true /\ length (trace w') = 5%nat.
Proof. split; reflexivity. Qed.

(** ** The endpoints *)

Lemma wp_get_system_wattage (Q : result (N * Q * Q) -> world -> Prop) w :
  (forall p g,
      get_system_wattage w = (Return (cpu_count (machine w), p, g), w) ->
      (nonneg_host (machine w) = true ->
       0 <= total_watts (cpu_count (machine w), p, g)) ->
      Q (Return (cpu_count (machine w), p, g)) w) ->
  wp get_system_wattage Q w.
Proof.
  intros H. destruct (get_system_wattage_run w) as (p & g & Hrun & _).
  eapply wp_of_run; [exact Hrun|]. apply H; [exact Hrun|].
  intros Hh. exact (probe_nonneg _ _ _ _ Hh Hrun).
Qed.

Lemma wp_chat_completion (Q : result (option pyval) -> world -> Prop) w :
  (forall r w',
      machine w' = machine w -> procs w' = procs w -> carbon w' = carbon w ->
      files w' = files w -> trace w' = EvChat :: trace w ->
      (forall v, r = Return v ->
                 exists d c cs, chats w = (d, c) :: cs /\ now w' = now w + d) ->
      Q r w') ->
  wp chat_completion Q w.
Proof.
  intros H. unfold wp, chat_completion. simpl.
  destruct (chats w) as [|[d c] cs] eqn:Hc; simpl.
  - apply H; try reflexivity. discriminate.
  - destruct c; simpl; apply H; try reflexivity; try discriminate;
      intros v _; exists d; eexists; exists cs; split; reflexivity.
Qed.

Lemma wp_dict_get {St} (v : pyval) key default (Q : result pyval -> St -> Prop) s :
  (forall e, Q (Raise e) s) ->
  (forall d, v = PyDict d -> Q (Return (dict_get key default d)) s) ->
  wp (py_get v key default) Q s.
Proof.
  intros He Hd. unfold py_get.
  destruct v; try (apply wp_raise, He). apply wp_ret, Hd. reflexivity.
Qed.

Lemma wp_of_result {St A} (r : result A) (Q : result A -> St -> Prop) s :
  Q r s -> wp (of_result r) Q s.
Proof. destruct r; exact (fun H => H). Qed.

Lemma chat_latency_nonneg w d c cs :
  nonneg_chats w = true -> chats w = (d, c) :: cs -> 0 <= d.
Proof.
  unfold nonneg_chats. intros H E. rewrite E in H. simpl in H.
  apply andb_prop in H. destruct H as [H _]. apply Qle_bool_iff, H.
Qed.

Lemma llm_co2_of_latency c p g t d :
  co2_kg (energy_kwh c p g (t + d - t)) == co2_kg (energy_kwh c p g d).
Proof. unfold co2_kg, energy_kwh. field. Qed.

Lemma co2_nonneg c p g d :
  0 <= total_watts (c, p, g) -> 0 <= d -> 0 <= co2_kg (energy_kwh c p g d).
Proof.
  intros Hw Hd. rewrite co2_as_product.
  apply Qmult_le_0_compat; [apply Qmult_le_0_compat; assumption|discriminate].
Qed.

Lemma advances_trace t k w w' :
  advances t k (log EvEstimate w) w' -> (k <= 4)%nat ->
  exists evs, spawns4 evs /\ trace w' = evs ++ EvEstimate :: trace w.
Proof.
  intros (_ & _ & _ & _ & _ & _ & evs & Htr & Hs & Hl) Hk.
  exists evs. split; [split; [exact Hs|lia]|exact Htr].
Qed.

(** What the [try] block of [optimize] does, on every path. *)
Lemma optimize_try_spec (r : request) (w : world) :
  wp (optimize_try r)
     (fun res w' =>
        machine w' = machine w
        /\ dom (files w') ⊆ dom (files w)
        /\ (exists new, trace w' = new ++ trace w /\ optimize_calls new)
        /\ forall resp, res = Return resp ->
             (status resp = 400%Z
              /\ json resp = Error "No code provided for optimization" /\ w' = w
              /\ exists v items,
                   r = Json v /\ (if truthy v then v else PyDict []) = PyDict items
                   /\ truthy (dict_get "code" (PyStr "") items) = false)
             \/ (status resp = 500%Z /\ exists msg, json resp = Error msg)
             \/ (status resp = 200%Z
                 /\ exists code lang b a l d c cs p g,
                      json resp = Optimized code lang b a l
                      /\ (exists v items,
                            r = Json v
                            /\ (if truthy v then v else PyDict []) = PyDict items
                            /\ (truthy (dict_get "language" (PyStr "") items) = true ->
                                lang = dict_get "language" (PyStr "") items))
                      /\ chats w = (d, c) :: cs
                      /\ get_system_wattage w = (Return (cpu_count (machine w), p, g), w)
                      /\ l == co2_kg (energy_kwh (cpu_count (machine w)) p g d)
                      /\ (well_formed w = true -> nonneg_chats w = true ->
                          0 <= b /\ 0 <= a /\ 0 <= l))) w.
Proof.
  set (Post := fun (res : result response) (w' : world) => _).
  assert (Hstay : forall res,
             (forall resp, res = Return resp ->
                (status resp = 400%Z
                 /\ json resp = Error "No code provided for optimization"
                 /\ exists v items,
                      r = Json v /\ (if truthy v then v else PyDict []) = PyDict items
                      /\ truthy (dict_get "code" (PyStr "") items) = false)
                \/ (status resp = 500%Z /\ exists msg, json resp = Error msg)) ->
             Post res w).
  { intros res Hres. unfold Post. split; [reflexivity|]. split; [reflexivity|].
    split; [exists []; split; [reflexivity|left; reflexivity]|].
    intros resp E. destruct (Hres resp E) as [(H1 & H2 & H3)|H]; [left|right; left]; auto. }
  assert (Hraise : forall e, Post (Raise e) w).
  { intros e. apply Hstay. discriminate. }
  unfold optimize_try. apply wp_bind. unfold request_json.
  destruct r as [|v]; [apply wp_raise, Hraise|apply wp_ret].
  apply wp_bind, wp_dict_get; [exact Hraise|]. intros d Hd.
  set (unoptimized_code := dict_get "code" (PyStr "") d).
  apply wp_bind, wp_dict_get; [exact Hraise|]. intros d' Hd'.
  rewrite Hd in Hd'. injection Hd' as <-.
  set (language_input := dict_get "language" (PyStr "") d).
  apply wp_bind.
  assert (Hlang : forall (K : result pyval -> world -> Prop),
             (forall e, K (Raise e) w) ->
             (forall l, (truthy language_input = true -> l = language_input) ->
                        K (Return l) w) ->
             wp (if negb (truthy language_input)
                 then bind (of_result (detect_language unoptimized_code (PyStr "")))
                           (fun l => ret (PyStr l))
                 else ret language_input) K w).
  { intros K Ke Kl. destruct (truthy language_input); cbn [negb];
      [apply wp_ret, Kl; reflexivity|].
    apply wp_bind, wp_of_result.
    destruct (detect_language _ _); [apply wp_ret, Kl; discriminate|apply Ke]. }
  apply Hlang; [exact Hraise|]. intros language Hlanguage.
  destruct (truthy unoptimized_code) eqn:Hcode; cbn [negb].
  2: { apply wp_ret, Hstay. intros resp E. injection E as <-. left.
       split; [reflexivity|]. split; [reflexivity|].
       exists v, d. split; [reflexivity|]. split; [exact Hd|exact Hcode]. }
  apply wp_bind, wp_gets.
  destruct (negb (client (machine w))).
  { apply wp_ret, Hstay. intros resp E. injection E as <-. right.
    split; [reflexivity|eexists; reflexivity]. }
  apply wp_bind, wp_estimator. intros r1 w1 A1 Hf1 Hnn1 _.
  destruct (advances_trace _ _ _ _ A1 (Nat.le_refl 4)) as (evs1 & Hs1 & Htr1).
  pose proof A1 as (Hm1 & Hch1 & _). simpl in Hm1, Hch1.
  destruct r1 as [b|e].
  2: { unfold Post. split; [exact Hm1|]. split; [exact Hf1|].
       split; [|discriminate].
       exists (evs1 ++ [EvEstimate]). rewrite <- app_assoc. split; [exact Htr1|].
       right. exists evs1. split; [exact Hs1|]. left. reflexivity. }
  apply wp_bind, wp_gets, wp_bind, wp_chat_completion.
  intros r2 w2 Hm2 Hp2 Hc2 Hf2 Htr2 Hnow.
  assert (Hshape2 : exists new, trace w2 = new ++ trace w /\ optimize_calls new).
  { exists (EvChat :: evs1 ++ [EvEstimate]). split.
    - rewrite Htr2, Htr1. simpl. rewrite <- app_assoc. reflexivity.
    - right. exists evs1. split; [exact Hs1|]. right. left. reflexivity. }
  assert (Hpost2 : forall res,
             (forall resp, res = Return resp ->
                           status resp = 500%Z /\ exists msg, json resp = Error msg) ->
             Post res w2).
  { intros res Hres. unfold Post. split; [congruence|].
    split; [rewrite Hf2; exact Hf1|]. split; [exact Hshape2|].
    intros resp E. right. left. exact (Hres resp E). }
  destruct r2 as [reply|e]; [|apply Hpost2; discriminate].
  apply wp_bind, wp_gets.
  destruct reply as [content|].
  2: { apply wp_ret, Hpost2. intros resp E. injection E as <-.
       split; [reflexivity|eexists; reflexivity]. }
  apply wp_bind, wp_of_result.
  destruct (clean_code content) as [code_raw|e]; [|apply Hpost2; discriminate].
  apply wp_bind, wp_get_system_wattage. intros p g Hprobe2 Hw2.
  apply wp_bind, wp_estimator. intros r3 w3 A3 Hf3 Hnn3 Hstr3.
  destruct (advances_trace _ _ _ _ A3 (Nat.le_refl 4)) as (evs2 & Hs2 & Htr3).
  pose proof A3 as (Hm3 & _). simpl in Hm3.
  destruct r3 as [a|e]; [|exfalso; exact (Hstr3 e eq_refl code_raw eq_refl)].
  apply wp_ret. unfold Post. split; [congruence|].
  split; [etransitivity; [exact Hf3|]; rewrite Hf2; exact Hf1|].
  split.
  { exists (evs2 ++ EvEstimate :: EvChat :: evs1 ++ [EvEstimate]). split.
    - rewrite Htr3, Htr2, Htr1. rewrite <- !app_assoc. simpl.
      rewrite <- app_assoc. reflexivity.
    - right. exists evs1. split; [exact Hs1|]. right. right.
      exists evs2. split; [exact Hs2|reflexivity]. }
  intros resp E. injection E as <-. right. right. split; [reflexivity|].
  destruct (Hnow (Some content) eq_refl) as (dl & c & cs & Hchats & Hnow2).
  rewrite Hch1 in Hchats.
  assert (Hprobe : get_system_wattage w = (Return (cpu_count (machine w), p, g), w)).
  { apply (probe_of_machine w2); [congruence|].
    replace (cpu_count (machine w)) with (cpu_count (machine w2)) by congruence.
    exact Hprobe2. }
  replace (cpu_count (machine w2)) with (cpu_count (machine w)) in * by congruence.
  eexists code_raw, language, b, a, _, dl, c, cs, p, g.
  split; [reflexivity|].
  split; [exists v, d; split; [reflexivity|]; split; [exact Hd|exact Hlanguage]|].
  split; [exact Hchats|]. split; [exact Hprobe|].
  simpl. rewrite Hnow2. split; [apply llm_co2_of_latency|].
  intros Hwf Hnc. split; [exact (Hnn1 Hwf b eq_refl)|]. split.
  - assert (Hwf2 : well_formed w2 = true).
    { pose proof (advances_well_formed _ _ _ _ A1 Hwf) as Hwf1.
      unfold well_formed in *. rewrite Hm2, Hp2, Hc2. exact Hwf1. }
    exact (Hnn3 Hwf2 a eq_refl).
  - rewrite llm_co2_of_latency. apply co2_nonneg.
    + apply Hw2. unfold well_formed in Hwf.
      apply andb_prop in Hwf. destruct Hwf as [Hwf _].
      apply andb_prop in Hwf. destruct Hwf as [Hh _]. congruence.
    + exact (chat_latency_nonneg w dl c cs Hnc Hchats).
Qed.

(** What the [try] block of [codegen] does, on every path. *)
Lemma codegen_try_spec (r : request) (w : world) :
  wp (codegen_try r)
     (fun res w' =>
        machine w' = machine w
        /\ dom (files w') ⊆ dom (files w)
        /\ (exists new, trace w' = new ++ trace w /\ codegen_calls new)
        /\ forall resp, res = Return resp ->
             (gen_status resp = 400%Z
              /\ gen_json resp = GenError "No prompt provided" /\ w' = w
              /\ exists v items,
                   r = Json v /\ (if truthy v then v else PyDict []) = PyDict items
                   /\ truthy (dict_get "prompt" (PyStr "") items) = false)
             \/ (gen_status resp = 500%Z /\ exists msg, gen_json resp = GenError msg)
             \/ (gen_status resp = 200%Z
                 /\ exists code lang l e d c cs p g,
                      gen_json resp = Generated code lang l e (l + e)
                      /\ (exists v items,
                            r = Json v
                            /\ (if truthy v then v else PyDict []) = PyDict items
                            /\ (truthy (dict_get "language" (PyStr "") items) = true ->
                                lang = dict_get "language" (PyStr "") items))
                      /\ chats w = (d, c) :: cs
                      /\ get_system_wattage w = (Return (cpu_count (machine w), p, g), w)
                      /\ l == co2_kg (energy_kwh (cpu_count (machine w)) p g d)
                      /\ (well_formed w = true -> nonneg_chats w = true ->
                          0 <= l /\ 0 <= e)
                      /\ (code = NoCode lang /\ e = 0
                          /\ trace w' = EvEstimate :: EvChat :: trace w
                          \/ exists text, code = CodeText text
                                          /\ strip text <> ""%string))) w.
Proof.
  set (Post := fun (res : result codegen_response) (w' : world) => _).
  assert (Hstay : forall res,
             (forall resp, res = Return resp ->
                (gen_status resp = 400%Z
                 /\ gen_json resp = GenError "No prompt provided"
                 /\ exists v items,
                      r = Json v /\ (if truthy v then v else PyDict []) = PyDict items
                      /\ truthy (dict_get "prompt" (PyStr "") items) = false)
                \/ (gen_status resp = 500%Z /\ exists msg, gen_json resp = GenError msg)) ->
             Post res w).
  { intros res Hres. unfold Post. split; [reflexivity|]. split; [reflexivity|].
    split; [exists []; split; [reflexivity|left; reflexivity]|].
    intros resp E. destruct (Hres resp E) as [(H1 & H2 & H3)|H]; [left|right; left]; auto. }
  assert (Hraise : forall e, Post (Raise e) w).
  { intros e. apply Hstay. discriminate. }
  unfold codegen_try. apply wp_bind. unfold request_json.
  destruct r as [|v]; [apply wp_raise, Hraise|apply wp_ret].
  apply wp_bind, wp_dict_get; [exact Hraise|]. intros d Hd.
  set (prompt := dict_get "prompt" (PyStr "") d).
  apply wp_bind, wp_dict_get; [exact Hraise|]. intros d' Hd'.
  rewrite Hd in Hd'. injection Hd' as <-.
  set (language_input := dict_get "language" (PyStr "") d).
  apply wp_bind.
  assert (Hlang : forall (K : result pyval -> world -> Prop),
             (forall e, K (Raise e) w) ->
             (forall l, (truthy language_input = true -> l = language_input) ->
                        K (Return l) w) ->
             wp (if negb (truthy language_input)
                 then bind (of_result (detect_language (PyStr "") prompt))
                           (fun l => ret (PyStr l))
                 else ret language_input) K w).
  { intros K Ke Kl. destruct (truthy language_input); cbn [negb];
      [apply wp_ret, Kl; reflexivity|].
    apply wp_bind, wp_of_result.
    destruct (detect_language _ _); [apply wp_ret, Kl; discriminate|apply Ke]. }
  apply Hlang; [exact Hraise|]. intros language Hlanguage.
  destruct (truthy prompt) eqn:Hprompt; cbn [negb].
  2: { apply wp_ret, Hstay. intros resp E. injection E as <-. left.
       split; [reflexivity|]. split; [reflexivity|].
       exists v, d. split; [reflexivity|]. split; [exact Hd|exact Hprompt]. }
  apply wp_bind, wp_gets.
  destruct (negb (client (machine w))).
  { apply wp_ret, Hstay. intros resp E. injection E as <-. right.
    split; [reflexivity|eexists; reflexivity]. }
  apply wp_bind, wp_gets, wp_bind, wp_chat_completion.
  intros r2 w2 Hm2 Hp2 Hc2 Hf2 Htr2 Hnow.
  assert (Hpost2 : forall res,
             (forall resp, res = Return resp ->
                           gen_status resp = 500%Z
                           /\ exists msg, gen_json resp = GenError msg) ->
             Post res w2).
  { intros res Hres. unfold Post. split; [exact Hm2|].
    split; [rewrite Hf2; reflexivity|].
    split; [exists [EvChat]; split; [exact Htr2|right; left; reflexivity]|].
    intros resp E. right. left. exact (Hres resp E). }
  destruct r2 as [reply|e]; [|apply Hpost2; discriminate].
  apply wp_bind, wp_gets.
  destruct reply as [content|].
  2: { apply wp_ret, Hpost2. intros resp E. injection E as <-.
       split; [reflexivity|eexists; reflexivity]. }
  apply wp_bind, wp_of_result.
  destruct (clean_code content) as [code|e] eqn:Hclean; [|apply Hpost2; discriminate].
  apply wp_bind, wp_get_system_wattage. intros p g Hprobe2 Hw2.
  destruct (Hnow (Some content) eq_refl) as (dl & c & cs & Hchats & Hnow2).
  assert (Hprobe : get_system_wattage w = (Return (cpu_count (machine w), p, g), w)).
  { apply (probe_of_machine w2); [congruence|].
    replace (cpu_count (machine w)) with (cpu_count (machine w2)) by congruence.
    exact Hprobe2. }
  replace (cpu_count (machine w2)) with (cpu_count (machine w)) in * by congruence.
  assert (Hllm : forall Hwf : well_formed w = true, nonneg_chats w = true ->
             0 <= co2_kg (energy_kwh (cpu_count (machine w)) p g (now w2 - now w))).
  { intros Hwf Hnc. rewrite Hnow2, llm_co2_of_latency. apply co2_nonneg.
    - apply Hw2. unfold well_formed in Hwf.
      apply andb_prop in Hwf. destruct Hwf as [Hwf _].
      apply andb_prop in Hwf. destruct Hwf as [Hh _]. congruence.
    - exact (chat_latency_nonneg w dl c cs Hnc Hchats). }
  apply wp_bind.
  destruct (clean_code_not_blank content code Hclean) as [->|Hvisible].
  - eapply wp_of_run; [apply estimator_blank; reflexivity|].
    apply wp_ret. unfold Post. simpl. split; [exact Hm2|].
    split; [rewrite Hf2; reflexivity|]. split.
    { exists [EvEstimate; EvChat]. split; [rewrite Htr2; reflexivity|].
      right. right. exists []. split; [split; [reflexivity|simpl; lia]|reflexivity]. }
    intros resp E. injection E as <-. right. right. split; [reflexivity|].
    eexists (NoCode language), language, _, 0, dl, c, cs, p, g.
    split; [reflexivity|].
    split; [exists v, d; split; [reflexivity|]; split; [exact Hd|exact Hlanguage]|].
    split; [exact Hchats|]. split; [exact Hprobe|].
    split; [rewrite Hnow2; apply llm_co2_of_latency|].
    split; [intros Hwf Hnc; split; [exact (Hllm Hwf Hnc)|lra]|].
    left. split; [reflexivity|]. split; [reflexivity|]. rewrite Htr2. reflexivity.
  - apply wp_estimator. intros r3 w3 A3 Hf3 Hnn3 Hstr3.
    destruct (advances_trace _ _ _ _ A3 (Nat.le_refl 4)) as (evs & Hs & Htr3).
    pose proof A3 as (Hm3 & _). simpl in Hm3.
    destruct r3 as [e|e]; [|exfalso; exact (Hstr3 e eq_refl code eq_refl)].
    apply wp_ret. unfold Post. split; [congruence|].
    split; [etransitivity; [exact Hf3|]; rewrite Hf2; reflexivity|].
    split.
    { exists (evs ++ [EvEstimate; EvChat]). split.
      - rewrite Htr3, Htr2, <- app_assoc. reflexivity.
      - right. right. exists evs. split; [exact Hs|reflexivity]. }
    intros resp E. injection E as <-. right. right. split; [reflexivity|].
    assert (Hne : String.eqb code "" = false).
    { apply String.eqb_neq. intros ->. apply Hvisible. reflexivity. }
    rewrite Hne.
    eexists (CodeText code), language, _, e, dl, c, cs, p, g.
    split; [reflexivity|].
    split; [exists v, d; split; [reflexivity|]; split; [exact Hd|exact Hlanguage]|].
    split; [exact Hchats|]. split; [exact Hprobe|].
    split; [simpl; rewrite Hnow2; apply llm_co2_of_latency|].
    split.
    + intros Hwf Hnc. split; [exact (Hllm Hwf Hnc)|].
      assert (Hwf2 : well_formed w2 = true).
      { unfold well_formed in *. rewrite Hm2, Hp2, Hc2. exact Hwf. }
      exact (Hnn3 Hwf2 e eq_refl).
    + right. exists code. split; [reflexivity|exact Hvisible].
Qed.

Lemma optimize_outcome r w :
  exists resp w',
    optimize r w = (Return resp, w')
    /\ (optimize_try r w = (Return resp, w')
        \/ exists e prefix,
             optimize_try r w = (Raise e, w')
             /\ resp = {| status := 500; json := ErrorOf prefix e |}).
Proof.
  unfold optimize, try_except.
  destruct (optimize_try r w) as [[resp|e] w'].
  - exists resp, w'. split; [reflexivity|left; reflexivity].
  - destruct e; eexists; exists w';
      (split; [reflexivity|right; eexists; eexists; split; reflexivity]).
Qed.

Lemma codegen_outcome r w :
  exists resp w',
    codegen r w = (Return resp, w')
    /\ (codegen_try r w = (Return resp, w')
        \/ exists e prefix,
             codegen_try r w = (Raise e, w')
             /\ resp = {| gen_status := 500; gen_json := GenErrorOf prefix e |}).
Proof.
  unfold codegen, try_except.
  destruct (codegen_try r w) as [[resp|e] w'].
  - exists resp, w'. split; [reflexivity|left; reflexivity].
  - destruct e; eexists; exists w';
      (split; [reflexivity|right; eexists; eexists; split; reflexivity]).
Qed.

Lemma detect_language_returns code prompt :
  exists tag, detect_language (PyStr code) (PyStr prompt) = Return tag.
Proof.
  unfold detect_language.
  repeat (match goal with |- context [if ?b then _ else _] => destruct b end;
          try (eexists; reflexivity)).
Qed.

(** X13: when the JSON body of [/codegen] is an object (or is falsy, and
    so replaced by the empty object) whose [prompt] is missing or is the
    empty string, the answer is 400 with "No prompt provided", and the
    world is as it was: no call of the inference client or the
    estimator. *)
Theorem codegen_empty_prompt (v : pyval) (d : list (string * pyval)) (w : world) :
  (if truthy v then v else PyDict []) = PyDict d ->
  dict_get "prompt" (PyStr "") d = PyStr "" ->
  codegen (Json v) w
  = (Return {| gen_status := 400; gen_json := GenError "No prompt provided" |}, w).
Proof.
  intros Hdata Hprompt.
  unfold codegen, try_except, codegen_try, bind, request_json, ret. simpl.
  rewrite Hdata. simpl. rewrite Hprompt.
  destruct (truthy (dict_get "language" (PyStr "") d)); reflexivity.
Qed.

Lemma codegen_empty_prompt_witness :
  codegen (Json (PyDict [("language", PyStr "c")])) (boot laptop [] [])
  = (Return {| gen_status := 400; gen_json := GenError "No prompt provided" |},
     boot laptop [] []).
Proof. apply (codegen_empty_prompt _ [("language", PyStr "c")]); reflexivity. Defined.

Lemma dict_get_present key s d :
  s <> ""%string -> dict_get key (PyStr "") d = PyStr s -> truthy (PyDict d) = true.
Proof.
  intros Hs H. destruct d; [|reflexivity].
  simpl in H. injection H as <-. contradiction.
Qed.

(** X14: without an inference client (no [HF_TOKEN]) a request with a
    non-empty prompt, respectively code, string is answered 500 with
    "Hugging Face API token not set." by both endpoints, and the world
    is as it was: the estimator is not run. *)
Theorem endpoints_without_client (d : list (string * pyval)) (text : string) (w : world) :
  client (machine w) = false ->
  text <> ""%string ->
  (dict_get "prompt" (PyStr "") d = PyStr text ->
   codegen (Json (PyDict d)) w
   = (Return {| gen_status := 500;
                gen_json := GenError "Hugging Face API token not set." |}, w))
  /\ (dict_get "code" (PyStr "") d = PyStr text ->
      optimize (Json (PyDict d)) w
      = (Return {| status := 500; json := Error "Hugging Face API token not set." |}, w)).
Proof.
  intros Hclient Htext.
  assert (Htruthy : truthy (PyStr text) = true).
  { simpl. apply String.eqb_neq in Htext. rewrite Htext. reflexivity. }
  split; intros Hget.
  - unfold codegen, try_except, codegen_try, bind, request_json, ret, py_get, gets.
    rewrite (dict_get_present _ _ _ Htext Hget), Hget.
    cbv beta iota delta [ret].
    destruct (detect_language_returns "" text) as (tag & Htag).
    destruct (truthy (dict_get "language" (PyStr "") d)); cbn [negb]; cbv beta iota;
      rewrite ?Htag; unfold of_result, ret; cbv beta iota;
      rewrite ?Htruthy; cbn [negb]; cbv beta iota;
      rewrite Hclient; reflexivity.
  - unfold optimize, try_except, optimize_try, bind, request_json, ret, py_get, gets.
    rewrite (dict_get_present _ _ _ Htext Hget), Hget.
    cbv beta iota delta [ret].
    destruct (detect_language_returns text "") as (tag & Htag).
    destruct (truthy (dict_get "language" (PyStr "") d)); cbn [negb]; cbv beta iota;
      rewrite ?Htag; unfold of_result, ret; cbv beta iota;
      rewrite ?Htruthy; cbn [negb]; cbv beta iota;
      rewrite Hclient; reflexivity.
Qed.

Lemma endpoints_without_client_witness :
  codegen (Json (PyDict [("prompt", PyStr "adds two numbers"); ("language", PyStr "python")]))
    (boot offline [] [])
  = (Return {| gen_status := 500;
               gen_json := GenError "Hugging Face API token not set." |},
     boot offline [] []).
Proof.
  apply (endpoints_without_client
           [("prompt", PyStr "adds two numbers"); ("language", PyStr "python")]
           "adds two numbers" (boot offline [] []));
    [reflexivity|discriminate|reflexivity].
Defined.

(** X15: neither endpoint raises: every exception of its [try] block
    becomes a 500 answer, and the status of the answer is always 200,
    400 or 500. *)
Theorem endpoints_never_raise (r : request) (w : world) :
  (exists resp w',
      optimize r w = (Return resp, w') /\ In (status resp) [200; 400; 500]%Z)
  /\ (exists resp w',
        codegen r w = (Return resp, w') /\ In (gen_status resp) [200; 400; 500]%Z).
Proof.
  split.
  - destruct (optimize_outcome r w) as (resp & w' & Hrun & [Htry|(e & pre & _ & Hresp)]);
      exists resp, w'; (split; [exact Hrun|]); [|rewrite Hresp; simpl; tauto].
    destruct (wp_run _ _ _ _ _ (optimize_try_spec r w) Htry) as (_ & _ & _ & Hresp).
    destruct (Hresp resp eq_refl) as [(-> & _)|[(-> & _)|(-> & _)]]; simpl; tauto.
  - destruct (codegen_outcome r w) as (resp & w' & Hrun & [Htry|(e & pre & _ & Hresp)]);
      exists resp, w'; (split; [exact Hrun|]); [|rewrite Hresp; simpl; tauto].
    destruct (wp_run _ _ _ _ _ (codegen_try_spec r w) Htry) as (_ & _ & _ & Hresp).
    destruct (Hresp resp eq_refl) as [(-> & _)|[(-> & _)|(-> & _)]]; simpl; tauto.
Qed.

Example endpoints_never_raise_run :
  fst (codegen (Json (PyList [PyInt 1])) (boot laptop [] []))
  = Return {| gen_status := 500;
              gen_json := GenErrorOf "An unexpected error occurred: " AttributeError |}
  /\ fst (optimize (Json (PyDict [("code", PyStr "x")]))
            (serve laptop [] [] [(2, ChatHubError)]))
     = Return {| status := 500;
                 json := ErrorOf "Hugging Face Hub API error: " HfHubHTTPError |}.
Proof. split; reflexivity. Qed.

Lemma optimize_world r w : snd (optimize r w) = snd (optimize_try r w).
Proof.
  unfold optimize, try_except. destruct (optimize_try r w) as [[resp|e] w'];
    [reflexivity|destruct e; reflexivity].
Qed.

Lemma codegen_world r w : snd (codegen r w) = snd (codegen_try r w).
Proof.
  unfold codegen, try_except. destruct (codegen_try r w) as [[resp|e] w'];
    [reflexivity|destruct e; reflexivity].
Qed.


Example endpoints_clean_up_run :
  files (snd (optimize (Json (PyDict [("code", PyStr "int main(){}"); ("language", PyStr "c")]))
                (serve laptop [Exits 1 0 true; Exits 1 0 false; Exits 1 0 false;
                               Exits 1 0 false; Exits 1 1 false]
                       [TmpFile "/tmp" "aaaaaaaa" true; TmpFile "/tmp" "bbbbbbbb" true]
                       [(3, ChatContent (PyStr "int main(){return 0;}"))])))
  = ∅.
Proof. vm_compute. reflexivity. Qed.

(** ** What a 200 answer says *)

Lemma codegen_generated r w resp code lang l e t :
  fst (codegen r w) = Return resp ->
  gen_json resp = Generated code lang l e t ->
  gen_status resp = 200%Z /\ t = l + e
  /\ (exists v items,
        r = Json v /\ (if truthy v then v else PyDict []) = PyDict items
        /\ (truthy (dict_get "language" (PyStr "") items) = true ->
            lang = dict_get "language" (PyStr "") items))
  /\ (exists d c cs p g,
        chats w = (d, c) :: cs
        /\ get_system_wattage w = (Return (cpu_count (machine w), p, g), w)
        /\ l == co2_kg (energy_kwh (cpu_count (machine w)) p g d))
  /\ (well_formed w = true -> nonneg_chats w = true -> 0 <= l /\ 0 <= e)
  /\ (code = NoCode lang /\ e = 0
      /\ trace (snd (codegen r w)) = EvEstimate :: EvChat :: trace w
      \/ exists text, code = CodeText text /\ strip text <> ""%string).
Proof.
  intros Hfst Hjson.
  destruct (codegen_outcome r w) as (resp' & w' & Hrun & Hcases).
  rewrite Hrun in Hfst |- *. cbn [fst snd] in *. injection Hfst as ->.
  destruct Hcases as [Htry|(ex & pre & _ & ->)]; [|discriminate Hjson].
  destruct (wp_run _ _ _ _ _ (codegen_try_spec r w) Htry) as (_ & _ & _ & Hresp).
  destruct (Hresp resp eq_refl)
    as [(_ & Hj & _)|[(_ & msg & Hj)|(Hst & c0 & la & l0 & e0 & d & c & cs & p & g
                                      & Hj & Hreq & Hch & Hprobe & Hl & Hnn & Hcode)]];
    rewrite Hj in Hjson; try discriminate Hjson.
  injection Hjson as -> -> -> -> <-.
  split; [exact Hst|]. split; [reflexivity|]. split; [exact Hreq|].
  split; [exists d, c, cs, p, g; auto|]. split; [exact Hnn|exact Hcode].
Qed.

Lemma optimize_optimized r w resp code lang b a l :
  fst (optimize r w) = Return resp ->
  json resp = Optimized code lang b a l ->
  status resp = 200%Z
  /\ (exists v items,
        r = Json v /\ (if truthy v then v else PyDict []) = PyDict items
        /\ (truthy (dict_get "language" (PyStr "") items) = true ->
            lang = dict_get "language" (PyStr "") items))
  /\ (exists d c cs p g,
        chats w = (d, c) :: cs
        /\ get_system_wattage w = (Return (cpu_count (machine w), p, g), w)
        /\ l == co2_kg (energy_kwh (cpu_count (machine w)) p g d))
  /\ (well_formed w = true -> nonneg_chats w = true -> 0 <= b /\ 0 <= a /\ 0 <= l).
Proof.
  intros Hfst Hjson.
  destruct (optimize_outcome r w) as (resp' & w' & Hrun & Hcases).
  rewrite Hrun in Hfst. cbn [fst] in Hfst. injection Hfst as ->.
  destruct Hcases as [Htry|(ex & pre & _ & ->)]; [|discriminate Hjson].
  destruct (wp_run _ _ _ _ _ (optimize_try_spec r w) Htry) as (_ & _ & _ & Hresp).
  destruct (Hresp resp eq_refl)
    as [(_ & Hj & _)|[(_ & msg & Hj)|(Hst & c0 & la & b0 & a0 & l0 & d & c & cs & p & g
                                      & Hj & Hreq & Hch & Hprobe & Hl & Hnn)]];
    rewrite Hj in Hjson; try discriminate Hjson.
  injection Hjson as -> -> -> -> ->.
  split; [exact Hst|]. split; [exact Hreq|].
  split; [exists d, c, cs, p, g; auto|exact Hnn].
Qed.

(** X17: in an answer of [/codegen] that carries generated code the
    status is 200, [total_co2_kg] is [llm_co2_kg + execution_co2_kg],
    and [llm_co2_kg] is the CO2 value of the power profile over the
    latency of the one chat call; when GPU sizes, process durations,
    tracker measurements and chat latencies are not negative, both
    parts are non-negative, so neither exceeds the total. *)
Theorem codegen_footprint (r : request) (w : world) (resp : codegen_response)
    (code : code_field) (lang : pyval) (l e t : Q) :
  fst (codegen r w) = Return resp ->
  gen_json resp = Generated code lang l e t ->
  well_formed w = true -> nonneg_chats w = true ->
  gen_status resp = 200%Z /\ t = l + e
  /\ 0 <= l /\ 0 <= e /\ l <= t /\ e <= t
  /\ exists d c cs p g,
       chats w = (d, c) :: cs
       /\ get_system_wattage w = (Return (cpu_count (machine w), p, g), w)
       /\ l == co2_kg (energy_kwh (cpu_count (machine w)) p g d).
Proof.
  intros Hfst Hjson Hwf Hch.
  destruct (codegen_generated _ _ _ _ _ _ _ _ Hfst Hjson)
    as (Hst & -> & _ & Hllm & Hnn & _).
  destruct (Hnn Hwf Hch) as [Hl He].
  split; [exact Hst|]. split; [reflexivity|].
  split; [exact Hl|]. split; [exact He|].
  split; [lra|]. split; [lra|exact Hllm].
Qed.

(** X18: in an answer of [/optimize] that carries optimized code the
    status is 200 and [llm_co2_kg] is the CO2 value of the power profile
    over the latency of the chat call alone, not of the two estimator
    calls around it; with non-negative measurements [before_co2],
    [after_co2] and [llm_co2_kg] are non-negative. *)
Theorem optimize_footprint (r : request) (w : world) (resp : response)
    (code : string) (lang : pyval) (b a l : Q) :
  fst (optimize r w) = Return resp ->
  json resp = Optimized code lang b a l ->
  well_formed w = true -> nonneg_chats w = true ->
  status resp = 200%Z
  /\ 0 <= b /\ 0 <= a /\ 0 <= l
  /\ exists d c cs p g,
       chats w = (d, c) :: cs
       /\ get_system_wattage w = (Return (cpu_count (machine w), p, g), w)
       /\ l == co2_kg (energy_kwh (cpu_count (machine w)) p g d).
Proof.
  intros Hfst Hjson Hwf Hch.
  destruct (optimize_optimized _ _ _ _ _ _ _ _ Hfst Hjson) as (Hst & _ & Hllm & Hnn).
  destruct (Hnn Hwf Hch) as (Hb & Ha & Hl).
  split; [exact Hst|]. split; [exact Hb|]. split; [exact Ha|]. split; [exact Hl|exact Hllm].
Qed.

Lemma codegen_footprint_witness :
  exists l e : Q,
    fst (codegen
           (Json (PyDict [("prompt", PyStr "adds two numbers"); ("language", PyStr "go")]))
           (serve laptop [Exits 1 0 false; Exits 1 0 false; Exits 1 0 false] []
              [(2, ChatContent (PyStr "func add(a, b int) int { return a + b }"))]))
    = Return {| gen_status := 200;
                gen_json := Generated (CodeText "func add(a, b int) int { return a + b }")
                              (PyStr "go") l e (l + e) |}
    /\ l == co2_kg (energy_kwh 4 45 0 2) /\ 0 <= e /\ e <= l + e.
Proof.
  exists (171000 # 3600000), (3324240000000000000 # 139968000000000000000).
  match goal with
  | |- fst (codegen ?r ?w) = Return ?resp /\ _ =>
      match resp with
      | context [Generated ?c ?la ?l ?e ?t] =>
          pose proof (codegen_footprint r w resp c la l e t) as H
      end
  end.
  assert (Hrun : forall A B : Prop, (A -> B) -> A -> A /\ B) by tauto.
  apply Hrun; [intros Hfst|vm_compute; reflexivity].
  split; [reflexivity|].
  destruct (H Hfst eq_refl eq_refl eq_refl) as (_ & _ & _ & He & _ & Het & _).
  split; [exact He|exact Het].
Defined.

Lemma optimize_footprint_witness :
  exists b a l : Q,
    fst (optimize
           (Json (PyDict [("code", PyStr "x = 1"); ("language", PyStr "sql")]))
           (serve laptop [Exits 1 0 false; Exits 1 0 false; Exits 1 0 false;
                          Exits 2 0 false; Exits 2 0 false; Exits 2 0 false] []
              [(3, ChatContent (PyStr "x = 1"))]))
    = Return {| status := 200; json := Optimized "x = 1" (PyStr "sql") b a l |}
    /\ l == co2_kg (energy_kwh 4 45 0 3) /\ 0 <= b /\ 0 <= a.
Proof.
  exists (3324240000000000000 # 139968000000000000000),
         (6648480000000000000 # 139968000000000000000), (256500 # 3600000).
  match goal with
  | |- fst (optimize ?r ?w) = Return ?resp /\ _ =>
      match resp with
      | context [Optimized ?c ?la ?b ?a ?l] =>
          pose proof (optimize_footprint r w resp c la b a l) as H
      end
  end.
  assert (Hrun : forall A B : Prop, (A -> B) -> A -> A /\ B) by tauto.
  apply Hrun; [intros Hfst|vm_compute; reflexivity].
  split; [reflexivity|].
  destruct (H Hfst eq_refl eq_refl eq_refl) as (_ & Hb & Ha & _).
  split; [exact Hb|exact Ha].
Defined.

(** ** Calls made by a request *)

Lemma count_app kind (a b : list event) :
  count kind (a ++ b) = (count kind a + count kind b)%nat.
Proof. unfold count. rewrite filter_app, length_app. reflexivity. Qed.

Lemma count_cons kind (x : event) (l : list event) :
  count kind (x :: l) = ((if kind x then 1 else 0) + count kind l)%nat.
Proof.
  unfold count. destruct (kind x) eqn:E.
  - rewrite filter_cons_True by (rewrite E; exact I). reflexivity.
  - rewrite filter_cons_False by (rewrite E; exact (fun H => H)). reflexivity.
Qed.

Lemma count_spawns (evs : list event) :
  forallb is_spawn evs = true ->
  count is_spawn evs = length evs
  /\ count is_chat evs = 0%nat /\ count is_estimate evs = 0%nat.
Proof.
  induction evs as [|x evs IH]; [intros _; repeat split|].
  intros H. simpl in H. apply andb_prop in H. destruct H as [Hx H].
  destruct (IH H) as (IH1 & IH2 & IH3).
  rewrite !count_cons, IH1, IH2, IH3. destruct x; try discriminate Hx.
  repeat split.
Qed.

Lemma count_nil kind : count kind [] = 0%nat.
Proof. reflexivity. Qed.

Lemma codegen_calls_count new :
  codegen_calls new ->
  (count is_chat new <= 1 /\ count is_estimate new <= 1 /\ count is_spawn new <= 4)%nat.
Proof.
  intros [-> | [-> | (evs & (Hs & Hlen) & ->)]]; [repeat split; auto with arith..|].
  destruct (count_spawns evs Hs) as (H1 & H2 & H3).
  rewrite !count_app, H1, H2, H3, !count_cons, ?count_nil. simpl. lia.
Qed.

Lemma optimize_calls_count new :
  optimize_calls new ->
  (count is_chat new <= 1 /\ count is_estimate new <= 2 /\ count is_spawn new <= 8)%nat.
Proof.
  intros [-> | (evs1 & (Hs1 & Hlen1) & H)]; [repeat split; auto with arith|].
  destruct (count_spawns evs1 Hs1) as (H1 & H2 & H3).
  destruct H as [-> | [-> | (evs2 & (Hs2 & Hlen2) & ->)]].
  - rewrite !count_app, H1, H2, H3, !count_cons, ?count_nil. simpl. lia.
  - rewrite !count_cons, !count_app, H1, H2, H3, !count_cons, ?count_nil. simpl. lia.
  - destruct (count_spawns evs2 Hs2) as (K1 & K2 & K3).
    rewrite !count_app, !count_cons, !count_app, H1, H2, H3, K1, K2, K3, !count_cons, ?count_nil.
    simpl. lia.
Qed.

(** X19: what one request makes the back end do.  [/codegen] calls the
    inference client at most once and, only after it, the estimator at
    most once; [/optimize] calls the estimator, then the client, then
    the estimator again, stopping anywhere on the way; every estimator
    call spawns at most four processes.  Nothing else is recorded, and
    the host is left as it was. *)
Theorem endpoint_calls (r : request) (w : world) :
  (exists new,
      trace (snd (codegen r w)) = new ++ trace w /\ codegen_calls new
      /\ (count is_chat new <= 1 /\ count is_estimate new <= 1
          /\ count is_spawn new <= 4)%nat)
  /\ (exists new,
        trace (snd (optimize r w)) = new ++ trace w /\ optimize_calls new
        /\ (count is_chat new <= 1 /\ count is_estimate new <= 2
            /\ count is_spawn new <= 8)%nat)
  /\ machine (snd (codegen r w)) = machine w
  /\ machine (snd (optimize r w)) = machine w.
Proof.
  rewrite codegen_world, optimize_world.
  destruct (codegen_try_spec r w) as (Hm1 & _ & (new1 & Ht1 & Hc1) & _).
  destruct (optimize_try_spec r w) as (Hm2 & _ & (new2 & Ht2 & Hc2) & _).
  split; [exists new1; split; [exact Ht1|split; [exact Hc1|apply codegen_calls_count, Hc1]]|].
  split; [exists new2; split; [exact Ht2|split; [exact Hc2|apply optimize_calls_count, Hc2]]|].
  split; assumption.
Qed.

Example endpoint_calls_run :
  trace (snd (optimize
                (Json (PyDict [("code", PyStr "x = 1"); ("language", PyStr "sql")]))
                (serve laptop [Exits 1 0 false; Exits 1 0 false; Exits 1 0 false;
                               Exits 2 0 false; Exits 2 0 false; Exits 2 0 false] []
                   [(3, ChatContent (PyStr "x = 1"))])))
  = [EvSpawn ["echo"; "ok"]%string 300; EvSpawn ["echo"; "ok"]%string 300;
     EvSpawn ["echo"; "ok"]%string 300; EvEstimate; EvChat;
     EvSpawn ["echo"; "ok"]%string 300; EvSpawn ["echo"; "ok"]%string 300;
     EvSpawn ["echo"; "ok"]%string 300; EvEstimate].
Proof. vm_compute. reflexivity. Qed.

(** ** The default language *)

Lemma bind_ret {St A B} (a : A) (k : A -> M St B) : bind (ret a) k = k a.
Proof. reflexivity. Qed.

Lemma data_of_dict d : (if truthy (PyDict d) then PyDict d else PyDict []) = PyDict d.
Proof. destruct d; reflexivity. Qed.

(** X20: a request without a (truthy) [language], whose prompt,
    respectively code, is a string, is served as the same request with
    the language filled in: by ["python"] on [/codegen], whatever the
    prompt says, and by the tag that [detect_language] finds in the code
    on [/optimize]. *)
Theorem endpoint_default_language (d : list (string * pyval)) (text : string)
    (w : world) :
  truthy (dict_get "language" (PyStr "") d) = false ->
  (dict_get "prompt" (PyStr "") d = PyStr text ->
   codegen (Json (PyDict d)) w
   = codegen (Json (PyDict (("language", PyStr "python") :: d))) w)
  /\ (dict_get "code" (PyStr "") d = PyStr text ->
      exists tag,
        detect_language (PyStr text) (PyStr "") = Return tag
        /\ optimize (Json (PyDict d)) w
           = optimize (Json (PyDict (("language", PyStr tag) :: d))) w).
Proof.
  intros Hlang. split; intros Hget.
  - unfold codegen, try_except.
    replace (codegen_try (Json (PyDict (("language", PyStr "python") :: d))) w)
      with (codegen_try (Json (PyDict d)) w); [reflexivity|].
    unfold codegen_try, request_json, py_get.
    rewrite !bind_ret. cbv beta zeta. rewrite !data_of_dict. cbv beta iota.
    rewrite !bind_ret. cbv beta.
    change (dict_get "prompt" (PyStr "") (("language", PyStr "python") :: d))
      with (dict_get "prompt" (PyStr "") d).
    change (dict_get "language" (PyStr "") (("language", PyStr "python") :: d))
      with (PyStr "python").
    rewrite Hlang, Hget. cbn [negb truthy String.eqb Ascii.eqb Bool.eqb].
    replace (detect_language (PyStr "") (PyStr text)) with (@Return string "python");
      reflexivity.
  - destruct (detect_language_returns text "") as (tag & Htag).
    exists tag. split; [exact Htag|].
    unfold optimize, try_except.
    replace (optimize_try (Json (PyDict (("language", PyStr tag) :: d))) w)
      with (optimize_try (Json (PyDict d)) w); [reflexivity|].
    assert (Htruthy : truthy (PyStr tag) = true).
    { revert Htag. unfold detect_language.
      repeat (match goal with |- context [if ?b then _ else _] => destruct b end;
              try (intros [= <-]; reflexivity)). }
    unfold optimize_try, request_json, py_get.
    rewrite !bind_ret. cbv beta zeta. rewrite !data_of_dict. cbv beta iota.
    rewrite !bind_ret. cbv beta.
    change (dict_get "code" (PyStr "") (("language", PyStr tag) :: d))
      with (dict_get "code" (PyStr "") d).
    change (dict_get "language" (PyStr "") (("language", PyStr tag) :: d))
      with (PyStr tag).
    rewrite Hlang, Hget, Htruthy, Htag. cbn [negb of_result].
    rewrite !bind_ret. reflexivity.
Qed.

Lemma endpoint_default_language_witness :
  codegen (Json (PyDict [("prompt", PyStr "a C program that calls printf")]))
    (boot laptop [] [])
  = codegen (Json (PyDict [("language", PyStr "python");
                           ("prompt", PyStr "a C program that calls printf")]))
      (boot laptop [] []).
Proof.
  apply (endpoint_default_language [("prompt", PyStr "a C program that calls printf")]
           "a C program that calls printf" (boot laptop [] [])); reflexivity.
Defined.

(** X21: the [code] of an answer of [/codegen] is either the
    placeholder ["# No {language} code generated."], and then the
    estimator was called on the empty text: [execution_co2_kg] is 0 and
    no process was spawned; or a cleaned text that has a visible
    character. *)
Theorem codegen_code_field (r : request) (w : world) (resp : codegen_response)
    (code : code_field) (lang : pyval) (l e t : Q) :
  fst (codegen r w) = Return resp ->
  gen_json resp = Generated code lang l e t ->
  (code = NoCode lang /\ e = 0
   /\ trace (snd (codegen r w)) = EvEstimate :: EvChat :: trace w)
  \/ (exists text, code = CodeText text /\ strip text <> ""%string).
Proof.
  intros Hfst Hjson.
  exact (proj2 (proj2 (proj2 (proj2 (proj2
           (codegen_generated _ _ _ _ _ _ _ _ Hfst Hjson)))))).
Qed.

Lemma codegen_code_field_witness :
  trace (snd (codegen
                (Json (PyDict [("prompt", PyStr "adds two numbers");
                               ("language", PyStr "go")]))
                (serve laptop [] [] [(2, ChatContent (PyStr "```python"))])))
  = [EvEstimate; EvChat].
Proof.
  destruct (codegen_code_field
              (Json (PyDict [("prompt", PyStr "adds two numbers");
                             ("language", PyStr "go")]))
              (serve laptop [] [] [(2, ChatContent (PyStr "```python"))])
              {| gen_status := 200;
                 gen_json := Generated (NoCode (PyStr "go")) (PyStr "go")
                               (171000 # 3600000) 0 ((171000 # 3600000) + 0) |}
              (NoCode (PyStr "go")) (PyStr "go") (171000 # 3600000) 0
              ((171000 # 3600000) + 0) eq_refl eq_refl)
    as [(_ & _ & H)|(text & H & _)]; [exact H|discriminate H].
Defined.

(** ** Requests of the front end *)

Lemma codegen_400 r w resp :
  fst (codegen r w) = Return resp -> gen_status resp = 400%Z ->
  exists v items,
    r = Json v /\ (if truthy v then v else PyDict []) = PyDict items
    /\ truthy (dict_get "prompt" (PyStr "") items) = false.
Proof.
  intros Hfst Hst.
  destruct (codegen_outcome r w) as (resp' & w' & Hrun & Hcases).
  rewrite Hrun in Hfst. cbn [fst] in Hfst. injection Hfst as ->.
  destruct Hcases as [Htry|(ex & pre & _ & ->)]; [|discriminate Hst].
  destruct (wp_run _ _ _ _ _ (codegen_try_spec r w) Htry) as (_ & _ & _ & Hresp).
  destruct (Hresp resp eq_refl) as [(_ & _ & _ & H)|[(H & _)|(H & _)]];
    [exact H|rewrite H in Hst; discriminate Hst..].
Qed.

Lemma optimize_400 r w resp :
  fst (optimize r w) = Return resp -> status resp = 400%Z ->
  exists v items,
    r = Json v /\ (if truthy v then v else PyDict []) = PyDict items
    /\ truthy (dict_get "code" (PyStr "") items) = false.
Proof.
  intros Hfst Hst.
  destruct (optimize_outcome r w) as (resp' & w' & Hrun & Hcases).
  rewrite Hrun in Hfst. cbn [fst] in Hfst. injection Hfst as ->.
  destruct Hcases as [Htry|(ex & pre & _ & ->)]; [|discriminate Hst].
  destruct (wp_run _ _ _ _ _ (optimize_try_spec r w) Htry) as (_ & _ & _ & Hresp).
  destruct (Hresp resp eq_refl) as [(_ & _ & _ & H)|[(H & _)|(H & _)]];
    [exact H|rewrite H in Hst; discriminate Hst..].
Qed.

Lemma visible_not_empty text : strip text <> ""%string -> truthy (PyStr text) = true.
Proof.
  intros H. destruct text; [exfalso; apply H; reflexivity|reflexivity].
Qed.

Lemma languages_truthy lang : In lang languages -> truthy (PyStr lang) = true.
Proof.
  unfold languages. simpl.
  intros [<-|[<-|[<-|[<-|[<-|[<-|[]]]]]]]; reflexivity.
Qed.

(** X22: the requests that the front end sends.  With a language of the
    select box and a text that has a visible character (the buttons
    send nothing otherwise), each endpoint answers, never with 400,
    and an answer with code carries the selected language unchanged. *)
Theorem front_end_requests (text lang : string) (w : world) :
  In lang languages ->
  (forall req, generate_click text lang = Some req ->
     exists resp,
       fst (codegen req w) = Return resp /\ gen_status resp <> 400%Z
       /\ forall code lang' l e t,
            gen_json resp = Generated code lang' l e t -> lang' = PyStr lang)
  /\ (forall req, optimize_click text lang = Some req ->
        exists resp,
          fst (optimize req w) = Return resp /\ status resp <> 400%Z
          /\ forall code lang' b a l,
               json resp = Optimized code lang' b a l -> lang' = PyStr lang).
Proof.
  intros Hin. pose proof (languages_truthy lang Hin) as Hlang.
  split; intros req Hclick.
  - unfold generate_click in Hclick.
    destruct (String.eqb (strip text) "") eqn:Hs; [discriminate Hclick|].
    apply String.eqb_neq, visible_not_empty in Hs. injection Hclick as <-.
    destruct (codegen_outcome
                (Json (PyDict [("prompt", PyStr text); ("language", PyStr lang)])) w)
      as (resp & w' & Hrun & _).
    assert (Hfst : fst (codegen
                          (Json (PyDict [("prompt", PyStr text);
                                         ("language", PyStr lang)])) w) = Return resp)
      by (rewrite Hrun; reflexivity).
    exists resp. split; [exact Hfst|]. split.
    + intros Hst. destruct (codegen_400 _ _ _ Hfst Hst) as (v & items & [= <-] & [= <-] & H).
      cbn [dict_get String.eqb Ascii.eqb Bool.eqb] in H. congruence.
    + intros code lang' l e t Hjson.
      destruct (codegen_generated _ _ _ _ _ _ _ _ Hfst Hjson)
        as (_ & _ & (v & items & [= <-] & [= <-] & H) & _).
      apply H. exact Hlang.
  - unfold optimize_click in Hclick.
    destruct (String.eqb (strip text) "") eqn:Hs; [discriminate Hclick|].
    apply String.eqb_neq, visible_not_empty in Hs. injection Hclick as <-.
    destruct (optimize_outcome
                (Json (PyDict [("code", PyStr text); ("language", PyStr lang)])) w)
      as (resp & w' & Hrun & _).
    assert (Hfst : fst (optimize
                          (Json (PyDict [("code", PyStr text);
                                         ("language", PyStr lang)])) w) = Return resp)
      by (rewrite Hrun; reflexivity).
    exists resp. split; [exact Hfst|]. split.
    + intros Hst. destruct (optimize_400 _ _ _ Hfst Hst) as (v & items & [= <-] & [= <-] & H).
      cbn [dict_get String.eqb Ascii.eqb Bool.eqb] in H. congruence.
    + intros code lang' b a l Hjson.
      destruct (optimize_optimized _ _ _ _ _ _ _ _ Hfst Hjson)
        as (_ & (v & items & [= <-] & [= <-] & H) & _).
      apply H. exact Hlang.
Qed.

Lemma front_end_requests_witness :
  exists resp,
    fst (optimize (Json (PyDict [("code", PyStr "x = 1"); ("language", PyStr "sql")]))
           (boot laptop [] []))
    = Return resp
    /\ status resp <> 400%Z
    /\ forall code lang' b a l,
         json resp = Optimized code lang' b a l -> lang' = PyStr "sql".
Proof.
  apply (proj2 (front_end_requests "x = 1" "sql" (boot laptop [] [])
                  ltac:(simpl; tauto))).
  reflexivity.
Defined.
